(** * Forge MCP servers: a shallow embedding of the GitHub and GitLab tool layers

    The two Python servers ([github_mcp_server.py], [gitlab_mcp_server.py])
    expose tools that issue one to three HTTP calls, project fields of the
    decoded JSON answer and return a text.  The embedding below follows the
    Python code statement by statement:

    - Python objects obtained from [response.json()] are values of [Py.value];
    - Python exceptions are the [Raise] results of the built-in operations
      and the [Throw] outcomes of tool computations;
    - a tool is a state-passing computation over the log of the HTTP calls it
      has issued, against an arbitrary deterministic upstream [server], whose
      answers carry a status and a JSON body (the HTTP primitive of the
      specification);
    - the text a tool returns is either [json.dumps(v, indent=2)] for a Python
      object [v] (written [JsonText v]) or a formatted plain string
      ([PlainText s]).

    A Rocq [string] stands for a Python [str] whose characters are code points
    below 256, one [ascii] per character.  JSON floats are not represented. *)

From Stdlib Require Import ZArith List String Ascii Bool Lia.
From Stdlib Require Import Sorted Permutation DecimalString OrderedTypeEx.
Import ListNotations.

Open Scope string_scope.
Open Scope Z_scope.

(* ================================================================== *)
(** * Python values and the built-in operations the tools use *)
(* ================================================================== *)

Module Py.

#[local] Set Warnings "-register-all".

(** Objects produced by [response.json()] and built by the tools.  A [PDict]
    keeps its keys in insertion order, as Python dicts do. *)
Inductive value : Type :=
| PNone
| PBool (b : bool)
| PInt (z : Z)
| PStr (s : string)
| PList (l : list value)
| PDict (kvs : list (string * value)).

(** The built-in exceptions that the operations below can raise. *)
Inductive error : Type :=
| KeyError
| IndexError
| TypeError
| AttributeError
| ValueError
| UnicodeDecodeError.

Inductive result (A : Type) : Type :=
| Ok (a : A)
| Raise (e : error).
Arguments Ok {A} a.
Arguments Raise {A} e.

Definition rbind {A B} (r : result A) (k : A -> result B) : result B :=
  match r with
  | Ok a => k a
  | Raise e => Raise e
  end.

Fixpoint rmap {A B} (f : A -> result B) (l : list A) : result (list B) :=
  match l with
  | [] => Ok []
  | x :: xs => rbind (f x) (fun y => rbind (rmap f xs) (fun ys => Ok (y :: ys)))
  end.

(** ** Characters and text *)

Definition code (c : ascii) : N := N_of_ascii c.

Definition nl : string := String (ascii_of_N 10) EmptyString.
Definition dquote : ascii := ascii_of_N 34.
Definition squote : ascii := ascii_of_N 39.
Definition backslash : ascii := ascii_of_N 92.

(** [str(n)] for an [int]. *)
Definition str_of_int (z : Z) : string := NilZero.string_of_int (Z.to_int z).

(** [len(s)] for a [str]. *)
Definition len_str (s : string) : Z := Z.of_nat (String.length s).

(** [s[:n]] for a [str] and a literal [n >= 0]. *)
Definition slice_to (n : Z) (s : string) : string :=
  String.substring 0 (Z.to_nat n) s.

Definition hex_digit (upper : bool) (d : N) : ascii :=
  if (d <? 10)%N then ascii_of_N (48 + d)
  else ascii_of_N ((if upper then 55 else 87) + d).

Definition hex2 (upper : bool) (n : N) : string :=
  String (hex_digit upper (n / 16)) (String (hex_digit upper (n mod 16)) EmptyString).

Fixpoint string_map (f : ascii -> ascii) (s : string) : string :=
  match s with
  | EmptyString => EmptyString
  | String c s' => String (f c) (string_map f s')
  end.

Fixpoint string_flat_map (f : ascii -> string) (s : string) : string :=
  match s with
  | EmptyString => EmptyString
  | String c s' => f c ++ string_flat_map f s'
  end.

Fixpoint string_mem (c : ascii) (s : string) : bool :=
  match s with
  | EmptyString => false
  | String d s' => Ascii.eqb c d || string_mem c s'
  end.

(** [str.lower()] on code points below 256: [A-Z] and the Latin-1 capitals
    (U+00C0..U+00DE without the multiplication sign U+00D7) move up by 32. *)
Definition lower_char (c : ascii) : ascii :=
  let n := code c in
  if ((65 <=? n) && (n <=? 90))%N then ascii_of_N (n + 32)
  else if ((192 <=? n) && (n <=? 222) && negb (n =? 215))%N then ascii_of_N (n + 32)
  else c.

Definition lower (s : string) : string := string_map lower_char s.

(** [urllib.parse.quote(s, safe='')]: the text is encoded to UTF-8 and every
    byte outside [A-Za-z0-9_.-~] becomes [%XX]. *)
Definition unreserved (n : N) : bool :=
  (((65 <=? n) && (n <=? 90)) || ((97 <=? n) && (n <=? 122))
   || ((48 <=? n) && (n <=? 57))
   || (n =? 95) || (n =? 46) || (n =? 45) || (n =? 126))%N.

Definition quote_byte (n : N) : string := String "%"%char (hex2 true n).

Definition quote_char (c : ascii) : string :=
  let n := code c in
  if unreserved n then String c EmptyString
  else if (n <? 128)%N then quote_byte n
  else quote_byte (192 + n / 64) ++ quote_byte (128 + n mod 64).

Definition quote (s : string) : string := string_flat_map quote_char s.

(** [repr(s)] for a [str]. *)
Definition repr_char (q : ascii) (c : ascii) : string :=
  let n := code c in
  if Ascii.eqb c q || Ascii.eqb c backslash then String backslash (String c EmptyString)
  else if (n =? 9)%N then String backslash "t"
  else if (n =? 10)%N then String backslash "n"
  else if (n =? 13)%N then String backslash "r"
  else if ((n <? 32) || (n =? 127))%N then String backslash (String "x"%char (hex2 false n))
  else if (n <? 127)%N then String c EmptyString
  else if ((n <=? 160) || (n =? 173))%N then String backslash (String "x"%char (hex2 false n))
  else String c EmptyString.

Definition repr_str (s : string) : string :=
  let q := if string_mem squote s && negb (string_mem dquote s) then dquote else squote in
  String q (string_flat_map (repr_char q) s) ++ String q EmptyString.

Fixpoint repr (v : value) : string :=
  match v with
  | PNone => "None"
  | PBool true => "True"
  | PBool false => "False"
  | PInt z => str_of_int z
  | PStr s => repr_str s
  | PList l => "[" ++ String.concat ", " (List.map repr l) ++ "]"
  | PDict kvs =>
      "{" ++ String.concat ", "
               (List.map (fun '(k, x) => repr_str k ++ ": " ++ repr x) kvs) ++ "}"
  end.

(** [str(v)], which is what an f-string placeholder prints. *)
Definition str (v : value) : string :=
  match v with
  | PStr s => s
  | _ => repr v
  end.

(** ** Dictionaries, subscripts and protocols *)

Fixpoint assoc (k : string) (kvs : list (string * value)) : option value :=
  match kvs with
  | [] => None
  | (k', v) :: rest => if String.eqb k k' then Some v else assoc k rest
  end.

(** [o[k]] with a string key. *)
Definition getitem (o : value) (k : string) : result value :=
  match o with
  | PDict kvs => match assoc k kvs with Some v => Ok v | None => Raise KeyError end
  | _ => Raise TypeError
  end.

(** [o[0]]. *)
Definition getitem0 (o : value) : result value :=
  match o with
  | PList (x :: _) => Ok x
  | PList [] => Raise IndexError
  | PStr (String c _) => Ok (PStr (String c EmptyString))
  | PStr EmptyString => Raise IndexError
  | PDict _ => Raise KeyError
  | _ => Raise TypeError
  end.

(** [o.get(k, d)]: only dicts have the method. *)
Definition dict_get (o : value) (k : string) (d : value) : result value :=
  match o with
  | PDict kvs => Ok (match assoc k kvs with Some v => v | None => d end)
  | _ => Raise AttributeError
  end.

(** [v == s] for a string literal [s]. *)
Definition eq_str (v : value) (s : string) : bool :=
  match v with
  | PStr t => String.eqb t s
  | _ => false
  end.

Definition is_substring (k s : string) : bool :=
  match String.index 0 k s with Some _ => true | None => false end.

(** [k in o] for a string literal [k]. *)
Definition contains (k : string) (o : value) : result bool :=
  match o with
  | PDict kvs => Ok (match assoc k kvs with Some _ => true | None => false end)
  | PList l => Ok (existsb (fun x => eq_str x k) l)
  | PStr s => Ok (is_substring k s)
  | _ => Raise TypeError
  end.

(** Truth value of an object in a condition. *)
Definition truthy (v : value) : bool :=
  match v with
  | PNone => false
  | PBool b => b
  | PInt z => negb (z =? 0)
  | PStr s => negb (String.eqb s "")
  | PList l => match l with [] => false | _ => true end
  | PDict kvs => match kvs with [] => false | _ => true end
  end.

(** [len(v)]. *)
Definition len (v : value) : result Z :=
  match v with
  | PStr s => Ok (len_str s)
  | PList l => Ok (Z.of_nat (List.length l))
  | PDict kvs => Ok (Z.of_nat (List.length kvs))
  | _ => Raise TypeError
  end.

Fixpoint chars (s : string) : list value :=
  match s with
  | EmptyString => []
  | String c s' => PStr (String c EmptyString) :: chars s'
  end.

(** The elements a [for] loop or a comprehension visits. *)
Definition iter (v : value) : result (list value) :=
  match v with
  | PList l => Ok l
  | PDict kvs => Ok (List.map (fun kv => PStr (fst kv)) kvs)
  | PStr s => Ok (chars s)
  | _ => Raise TypeError
  end.

(** [v.lower()]: only [str] has the method. *)
Definition lower_of (v : value) : result string :=
  match v with
  | PStr s => Ok (lower s)
  | _ => Raise AttributeError
  end.

(** [",".join(l)] and a list of strings as an object. *)
Definition join (sep : string) (l : list string) : string := String.concat sep l.
Definition str_list (l : list string) : value := PList (List.map PStr l).
Definition int_list (l : list Z) : value := PList (List.map PInt l).

End Py.

(* ================================================================== *)
(** * The HTTP primitive and tool computations *)
(* ================================================================== *)

Module Http.
Import Py.

Inductive method : Type := GET | POST.

(** The arguments of one [requests.get] / [requests.post] call. *)
Record Request : Type := mkRequest {
  meth : method;
  url : string;
  headers : list (string * string);
  params : option (list (string * value));
  json_arg : option value
}.

(** What the tools read from a [requests.Response]. *)
Record Response : Type := mkResponse {
  status_code : Z;
  reason : string;
  final_url : string;
  body : value          (* response.json() *)
}.

(** The upstream forge: given the calls issued so far and the current call,
    it either fails at transport level ([inl msg], a [RequestException] whose
    text is [msg]) or answers. *)
Definition server : Type := list Request -> Request -> string + Response.

(** What can be raised inside a tool: [RequestException] stands for
    [requests.RequestException] and all its subclasses (connection errors,
    timeouts, [HTTPError]), its argument being [str(e)]; the built-in
    exceptions are none of them; [RecursionError] is what the interpreter
    raises when calls nest too deep. *)
Inductive exn : Type :=
| RequestException (msg : string)
| Builtin (e : error)
| RecursionError.

Inductive outcome (A : Type) : Type :=
| Return (a : A)
| Throw (x : exn).
Arguments Return {A} a.
Arguments Throw {A} x.

(** A computation issues HTTP calls, which are appended to the log, and
    returns or raises. *)
Definition M (A : Type) : Type := list Request -> outcome A * list Request.

Definition ret {A} (a : A) : M A := fun log => (Return a, log).
Definition raise {A} (x : exn) : M A := fun log => (Throw x, log).

(** A computation without HTTP calls. *)
Definition lift {A} (r : result A) : M A :=
  fun log =>
    match r with
    | Ok a => (Return a, log)
    | Raise e => (Throw (Builtin e), log)
    end.

Definition bind {A B} (m : M A) (k : A -> M B) : M B :=
  fun log =>
    match m log with
    | (Return a, log') => k a log'
    | (Throw x, log') => (Throw x, log')
    end.

(** [try: body except requests.RequestException as e: handler(str(e))]. *)
Definition try_except {A} (body : M A) (handler : string -> M A) : M A :=
  fun log =>
    match body log with
    | (Throw (RequestException msg), log') => handler msg log'
    | other => other
    end.

(** The text of the [HTTPError] that [Response.raise_for_status()] of the
    requests library raises, if it raises. *)
Definition http_error (r : Response) : option string :=
  let sc := status_code r in
  if (400 <=? sc) && (sc <? 500) then
    Some (str_of_int sc ++ " Client Error: " ++ reason r ++ " for url: " ++ final_url r)
  else if (500 <=? sc) && (sc <? 600) then
    Some (str_of_int sc ++ " Server Error: " ++ reason r ++ " for url: " ++ final_url r)
  else None.

Definition raise_for_status (r : Response) : M unit :=
  match http_error r with
  | Some msg => raise (RequestException msg)
  | None => ret tt
  end.

Definition call (srv : server) (r : Request) : M Response :=
  fun log =>
    match srv log r with
    | inl msg => (Throw (RequestException msg), (log ++ [r])%list)
    | inr resp => (Return resp, (log ++ [r])%list)
    end.

(** The text a tool hands back. *)
Inductive tool_output : Type :=
| JsonText (v : value)      (* json.dumps(v, indent=2) *)
| PlainText (s : string).   (* an f-string *)

(** Evaluation of the entries of a dict display, left to right. *)
Fixpoint fields (l : list (string * result value)) : result (list (string * value)) :=
  match l with
  | [] => Ok []
  | (k, r) :: rest =>
      rbind r (fun v => rbind (fields rest) (fun kvs => Ok ((k, v) :: kvs)))
  end.

Definition dict (l : list (string * result value)) : result value :=
  rbind (fields l) (fun kvs => Ok (PDict kvs)).

(** A parameter with a default value. *)
Definition arg {A} (default : A) (given : option A) : A :=
  match given with
  | Some a => a
  | None => default
  end.

(** [[f(x) for x in v]]. *)
Definition comprehension (f : value -> result value) (v : value) : result value :=
  rbind (iter v) (fun xs => rbind (rmap f xs) (fun ys => Ok (PList ys))).

(** The outcome of [base64.b64decode(text).decode('utf-8')]. *)
Inductive decoded : Type :=
| Text (s : string)
| BadBase64                 (* binascii.Error, a ValueError *)
| NotUtf8.                  (* UnicodeDecodeError *)

End Http.

Declare Scope tool_scope.
Delimit Scope tool_scope with tool.
Notation "x <- c ;; k" := (Http.bind c (fun x => k))
  (at level 61, c at next level, right associativity) : tool_scope.
Notation "c ;;; k" := (Http.bind c (fun _ => k))
  (at level 61, right associativity) : tool_scope.
Notation "x <~ c ;; k" := (Py.rbind c (fun x => k))
  (at level 61, c at next level, right associativity) : tool_scope.

(* ================================================================== *)
(** * [list.sort(key=...)]: a stable sort on computed keys *)
(* ================================================================== *)

Module PySort.
Import Py.

Section Stable.
Context {K A : Type}.
Variable lt : K -> K -> bool.

(** [x] is put in front of the first element whose key is not smaller, so
    elements with equal keys keep their relative order. *)
Fixpoint insert (x : K * A) (l : list (K * A)) : list (K * A) :=
  match l with
  | [] => [x]
  | y :: ys => if lt (fst y) (fst x) then y :: insert x ys else x :: y :: ys
  end.

Fixpoint sort (l : list (K * A)) : list (K * A) :=
  match l with
  | [] => []
  | x :: xs => insert x (sort xs)
  end.
End Stable.

(** The keys of the two directory listings are pairs [(bool, str)]; Python
    compares tuples lexicographically, with [False < True]. *)
Definition key_lt (a b : bool * string) : bool :=
  if Bool.eqb (fst a) (fst b) then String.ltb (snd a) (snd b)
  else negb (fst a) && fst b.

(** [items.sort(key=key)]: all keys are computed first, then the list is
    sorted on them. *)
Definition sort_by_key (key : value -> result (bool * string)) (items : list value)
  : result (list value) :=
  rbind (rmap (fun x => rbind (key x) (fun k => Ok (k, x))) items)
        (fun decorated => Ok (List.map snd (sort key_lt decorated))).

(** [lambda x: (x["type"] != dirname, x["name"].lower())]. *)
Definition entry_key (dirname : string) (x : value) : result (bool * string) :=
  rbind (getitem x "type") (fun ty =>
  rbind (getitem x "name") (fun nm =>
  rbind (lower_of nm) (fun lo =>
  Ok (negb (eq_str ty dirname), lo)))).

End PySort.

(* ================================================================== *)
(** * github_mcp_server.py *)
(* ================================================================== *)

Module GitHub.
Import Py Http PySort.

Section Tools.
Local Open Scope tool_scope.

(** [os.getenv("GITHUB_TOKEN")]. *)
Variable GITHUB_TOKEN : option string.
(** The upstream API. *)
Variable srv : server.
(** [base64.b64decode(...).decode('utf-8')]. *)
Variable b64_utf8 : string -> decoded.

Definition GITHUB_API_BASE : string := "https://api.github.com".

Definition get_headers : list (string * string) :=
  [ ("Authorization", "token " ++ match GITHUB_TOKEN with Some t => t | None => "None" end);
    ("Accept", "application/vnd.github.v3+json");
    ("User-Agent", "GitHub-MCP-Server") ].

Definition get (u : string) (ps : option (list (string * value))) : M Response :=
  call srv (mkRequest GET u get_headers ps None).

Definition post (u : string) (data : value) : M Response :=
  call srv (mkRequest POST u get_headers None (Some data)).

(** ** list_repositories *)

Definition repo_summary (repo : value) : result value :=
  dict [ ("name", getitem repo "name");
         ("full_name", getitem repo "full_name");
         ("description", dict_get repo "description" (PStr ""));
         ("private", getitem repo "private");
         ("stars", getitem repo "stargazers_count");
         ("forks", getitem repo "forks_count");
         ("language", dict_get repo "language" (PStr ""));
         ("updated_at", getitem repo "updated_at") ].

Definition list_repositories (owner : string) (per_page : option Z) : M tool_output :=
  let per_page := arg 30 per_page in
  let url := GITHUB_API_BASE ++ "/users/" ++ owner ++ "/repos" in
  let params := [("per_page", PInt (Z.min per_page 100)); ("sort", PStr "updated")] in
  try_except
    (response <- get url (Some params) ;;
     raise_for_status response ;;;
     let repos := body response in
     result <- lift (xs <~ iter repos ;; rmap repo_summary xs) ;;
     ret (JsonText (PList result)))
    (fun e => ret (PlainText ("Error fetching repositories: " ++ e))).

(** ** get_repository_info *)

Definition license_name (repo_data : value) : result value :=
  l <~ dict_get repo_data "license" PNone ;;
  if truthy l then
    l' <~ dict_get repo_data "license" (PDict []) ;; dict_get l' "name" (PStr "")
  else Ok (PStr "").

Definition get_repository_info (owner repo : string) : M tool_output :=
  let url := GITHUB_API_BASE ++ "/repos/" ++ owner ++ "/" ++ repo in
  try_except
    (response <- get url None ;;
     raise_for_status response ;;;
     let repo_data := body response in
     result <- lift (dict
       [ ("name", getitem repo_data "name");
         ("full_name", getitem repo_data "full_name");
         ("description", dict_get repo_data "description" (PStr ""));
         ("private", getitem repo_data "private");
         ("stars", getitem repo_data "stargazers_count");
         ("forks", getitem repo_data "forks_count");
         ("language", dict_get repo_data "language" (PStr ""));
         ("created_at", getitem repo_data "created_at");
         ("updated_at", getitem repo_data "updated_at");
         ("default_branch", getitem repo_data "default_branch");
         ("topics", dict_get repo_data "topics" (PList []));
         ("license", license_name repo_data);
         ("clone_url", getitem repo_data "clone_url");
         ("ssh_url", getitem repo_data "ssh_url") ]) ;;
     ret (JsonText result))
    (fun e => ret (PlainText ("Error fetching repository info: " ++ e))).

(** ** list_issues *)

(** [b[:500] + "..."]. *)
Definition cut_500 (b : value) : result value :=
  match b with
  | PStr s => Ok (PStr (slice_to 500 s ++ "..."))
  | _ => Raise TypeError
  end.

(** [b[:500] + "..." if b and len(b) > 500 else b], where [b] is
    [issue.get("body", "")]. *)
Definition body_summary (b : value) : result value :=
  if truthy b then
    n <~ len b ;;
    if n >? 500 then cut_500 b else Ok b
  else Ok b.

Definition names_of (field : string) (v : value) : result value :=
  comprehension (fun x => getitem x field) v.

Definition issue_summary (issue : value) : result value :=
  dict [ ("number", getitem issue "number");
         ("title", getitem issue "title");
         ("state", getitem issue "state");
         ("user", u <~ getitem issue "user" ;; getitem u "login");
         ("created_at", getitem issue "created_at");
         ("updated_at", getitem issue "updated_at");
         ("labels", ls <~ dict_get issue "labels" (PList []) ;; names_of "name" ls);
         ("assignees", a <~ dict_get issue "assignees" (PList []) ;; names_of "login" a);
         ("comments", getitem issue "comments");
         ("body", b <~ dict_get issue "body" (PStr "") ;; body_summary b) ].

(** The loop body: pull requests are skipped, issues are appended. *)
Fixpoint issue_loop (issues : list value) : result (list value) :=
  match issues with
  | [] => Ok []
  | issue :: rest =>
      is_pr <~ contains "pull_request" issue ;;
      if is_pr then issue_loop rest
      else
        item <~ issue_summary issue ;;
        items <~ issue_loop rest ;;
        Ok (item :: items)
  end.

Definition list_issues (owner repo : string) (state : option string)
           (per_page : option Z) : M tool_output :=
  let state := arg "open" state in
  let per_page := arg 30 per_page in
  let url := GITHUB_API_BASE ++ "/repos/" ++ owner ++ "/" ++ repo ++ "/issues" in
  let params := [ ("state", PStr state);
                  ("per_page", PInt (Z.min per_page 100));
                  ("sort", PStr "updated") ] in
  try_except
    (response <- get url (Some params) ;;
     raise_for_status response ;;;
     let issues := body response in
     result <- lift (xs <~ iter issues ;; issue_loop xs) ;;
     ret (JsonText (PList result)))
    (fun e => ret (PlainText ("Error fetching issues: " ++ e))).

(** ** create_issue *)

Definition nonempty {A} (l : option (list A)) : bool :=
  match l with
  | Some (_ :: _) => true
  | _ => false
  end.

Definition create_issue_data (title body : string)
           (labels assignees : option (list string)) : list (string * value) :=
  ([ ("title", PStr title); ("body", PStr body) ]
   ++ (if nonempty labels then [("labels", str_list (arg [] labels))] else [])
   ++ (if nonempty assignees then [("assignees", str_list (arg [] assignees))] else []))%list.

Definition create_issue (owner repo title : string) (body : option string)
           (labels assignees : option (list string)) : M tool_output :=
  let body_text := arg "" body in
  let url := GITHUB_API_BASE ++ "/repos/" ++ owner ++ "/" ++ repo ++ "/issues" in
  let data := PDict (create_issue_data title body_text labels assignees) in
  try_except
    (response <- post url data ;;
     raise_for_status response ;;;
     let issue := Http.body response in
     result <- lift (dict
       [ ("number", getitem issue "number");
         ("title", getitem issue "title");
         ("url", getitem issue "html_url");
         ("state", getitem issue "state");
         ("created_at", getitem issue "created_at") ]) ;;
     ret (JsonText result))
    (fun e => ret (PlainText ("Error creating issue: " ++ e))).

(** ** get_issue *)

Definition get_issue (owner repo : string) (issue_number : Z) : M tool_output :=
  let url := GITHUB_API_BASE ++ "/repos/" ++ owner ++ "/" ++ repo
             ++ "/issues/" ++ str_of_int issue_number in
  try_except
    (response <- get url None ;;
     raise_for_status response ;;;
     let issue := body response in
     result <- lift (dict
       [ ("number", getitem issue "number");
         ("title", getitem issue "title");
         ("state", getitem issue "state");
         ("user", u <~ getitem issue "user" ;; getitem u "login");
         ("created_at", getitem issue "created_at");
         ("updated_at", getitem issue "updated_at");
         ("labels", ls <~ dict_get issue "labels" (PList []) ;; names_of "name" ls);
         ("assignees", a <~ dict_get issue "assignees" (PList []) ;; names_of "login" a);
         ("comments", getitem issue "comments");
         ("body", dict_get issue "body" (PStr ""));
         ("url", getitem issue "html_url") ]) ;;
     ret (JsonText result))
    (fun e => ret (PlainText ("Error fetching issue: " ++ e))).

(** ** get_file *)

Definition max_size : Z := 8000.

(** The text appended to a truncated file. *)
Definition truncation_note (content : string) : string :=
  nl ++ nl ++ "... (file truncated, showing first " ++ str_of_int max_size
     ++ " characters of " ++ str_of_int (len_str content) ++ " total)".

(** [if len(content) > max_size: content = content[:max_size] + f"..."]. *)
Definition limit_content (content : string) : string :=
  if len_str content >? max_size
  then slice_to max_size content ++ truncation_note content
  else content.

Definition contents_url (owner repo file_path : string) : string :=
  GITHUB_API_BASE ++ "/repos/" ++ owner ++ "/" ++ repo ++ "/contents/" ++ file_path.

Definition repo_url (owner repo : string) : string :=
  GITHUB_API_BASE ++ "/repos/" ++ owner ++ "/" ++ repo.

Definition file_not_found (owner repo file_path : string) (branch : value) : value :=
  PDict [ ("repository", PStr (owner ++ "/" ++ repo));
          ("file_path", PStr file_path);
          ("branch", branch);
          ("error", PStr ("File '" ++ file_path ++ "' not found in repository "
                          ++ owner ++ "/" ++ repo ++ " on branch " ++ str branch));
          ("suggestion", PStr "Check the file path and branch name. Use list_repository_contents to see available files.") ].

(** [base64.b64decode(c).decode('utf-8')] for the object [c = file_data["content"]]. *)
Definition decode_content (c : value) : result string :=
  match c with
  | PStr s =>
      match b64_utf8 s with
      | Text t => Ok t
      | BadBase64 => Raise ValueError
      | NotUtf8 => Raise UnicodeDecodeError
      end
  | _ => Raise TypeError
  end.

(** Everything after [response.raise_for_status()]. *)
Definition file_payload (owner repo file_path : string) (branch file_data : value)
  : result value :=
  ty <~ dict_get file_data "type" PNone ;;
  if negb (eq_str ty "file") then
    ty' <~ dict_get file_data "type" (PStr "unknown") ;;
    Ok (PDict [ ("repository", PStr (owner ++ "/" ++ repo));
                ("file_path", PStr file_path);
                ("branch", branch);
                ("error", PStr ("'" ++ file_path ++ "' is not a file (it's a " ++ str ty' ++ ")"));
                ("suggestion", PStr "Use list_repository_contents to see directory contents.") ])
  else
    c <~ getitem file_data "content" ;;
    match decode_content c with
    | Raise UnicodeDecodeError =>
        dict [ ("repository", Ok (PStr (owner ++ "/" ++ repo)));
               ("file_path", Ok (PStr file_path));
               ("branch", Ok branch);
               ("error", Ok (PStr "File appears to be binary and cannot be displayed as text"));
               ("file_info", dict [ ("size", getitem file_data "size");
                                    ("encoding", dict_get file_data "encoding" (PStr "unknown")) ]) ]
    | Raise e => Raise e
    | Ok content =>
        let content := limit_content content in
        dict [ ("repository", Ok (PStr (owner ++ "/" ++ repo)));
               ("file_path", Ok (PStr file_path));
               ("branch", Ok branch);
               ("size", getitem file_data "size");
               ("encoding", dict_get file_data "encoding" (PStr "base64"));
               ("content", Ok (PStr content));
               ("download_url", dict_get file_data "download_url" PNone);
               ("last_modified", dict_get file_data "sha" PNone) ]
    end.

(** [get_file] calls itself; [depth] is the number of nested calls the
    interpreter still allows, and running out of it is Python's
    [RecursionError].  The inner computation yields [Some out] when the
    function returns [out] from inside the fallback and [None] when control
    falls through to the not-found answer. *)
Fixpoint get_file (depth : nat) (owner repo file_path : string) (branch : option value)
  : M tool_output :=
  match depth with
  | O => raise RecursionError
  | S depth' =>
    let branch := arg (PStr "main") branch in
    let url := contents_url owner repo file_path in
    let params := [("ref", branch)] in
    try_except
      (response <- get url (Some params) ;;
       if status_code response =? 404 then
         returned <-
           (if eq_str branch "main" then
              try_except
                (repo_response <- get (repo_url owner repo) None ;;
                 if status_code repo_response =? 200 then
                   default_branch <-
                     lift (dict_get (body repo_response) "default_branch" (PStr "master")) ;;
                   if negb (eq_str default_branch "main") then
                     out <- get_file depth' owner repo file_path (Some default_branch) ;;
                     ret (Some out)
                   else ret None
                 else ret None)
                (fun _ => ret None)
            else ret None) ;;
         match returned with
         | Some out => ret out
         | None => ret (JsonText (file_not_found owner repo file_path branch))
         end
       else
         raise_for_status response ;;;
         let file_data := body response in
         result <- lift (file_payload owner repo file_path branch file_data) ;;
         ret (JsonText result))
      (fun e => ret (JsonText
         (PDict [ ("repository", PStr (owner ++ "/" ++ repo));
                  ("file_path", PStr file_path);
                  ("branch", branch);
                  ("error", PStr ("Error fetching file: " ++ e)) ])))
  end.

(** ** list_repository_contents *)

Definition or_slash (path : string) : string :=
  if String.eqb path "" then "/" else path.

Definition content_item (item : value) : result value :=
  dict [ ("name", getitem item "name");
         ("type", getitem item "type");
         ("size", ty <~ getitem item "type" ;;
                  if eq_str ty "file" then dict_get item "size" (PInt 0) else Ok PNone);
         ("path", getitem item "path") ].

Definition is_dict (v : value) : bool :=
  match v with
  | PDict _ => true
  | _ => false
  end.

Definition list_repository_contents (owner repo : string) (path branch : option string)
  : M tool_output :=
  let path := arg "" path in
  let branch := arg "main" branch in
  let url := GITHUB_API_BASE ++ "/repos/" ++ owner ++ "/" ++ repo ++ "/contents/" ++ path in
  let params := [("ref", PStr branch)] in
  let head := [ ("repository", PStr (owner ++ "/" ++ repo));
                ("path", PStr (or_slash path));
                ("branch", PStr branch) ] in
  try_except
    (response <- get url (Some params) ;;
     if status_code response =? 404 then
       ret (JsonText (PDict (head ++
         [("error", PStr ("Path '" ++ path ++ "' not found in repository "
                          ++ owner ++ "/" ++ repo ++ " on branch " ++ branch))])%list))
     else
       raise_for_status response ;;;
       let contents := body response in
       if is_dict contents then
         info <- lift (dict [ ("name", getitem contents "name");
                              ("size", getitem contents "size");
                              ("type", getitem contents "type") ]) ;;
         ret (JsonText (PDict (head ++ [("type", PStr "file"); ("file_info", info)])%list))
       else
         items <- lift (xs <~ iter contents ;; rmap content_item xs) ;;
         items <- lift (sort_by_key (entry_key "dir") items) ;;
         ret (JsonText (PDict (head ++
           [ ("total_items", PInt (Z.of_nat (List.length items)));
             ("contents", PList items) ])%list)))
    (fun e => ret (JsonText (PDict (head ++
       [("error", PStr ("Error fetching contents: " ++ e))])%list))).

(** ** search_repositories *)

Definition search_hit (repo : value) : result value :=
  dict [ ("name", getitem repo "name");
         ("full_name", getitem repo "full_name");
         ("description", dict_get repo "description" (PStr ""));
         ("stars", getitem repo "stargazers_count");
         ("forks", getitem repo "forks_count");
         ("language", dict_get repo "language" (PStr ""));
         ("updated_at", getitem repo "updated_at");
         ("url", getitem repo "html_url") ].

Definition search_repositories (query : string) (sort order : option string)
           (per_page : option Z) : M tool_output :=
  let sort := arg "stars" sort in
  let order := arg "desc" order in
  let per_page := arg 30 per_page in
  let url := GITHUB_API_BASE ++ "/search/repositories" in
  let params := [ ("q", PStr query); ("sort", PStr sort); ("order", PStr order);
                  ("per_page", PInt (Z.min per_page 100)) ] in
  try_except
    (response <- get url (Some params) ;;
     raise_for_status response ;;;
     let data := body response in
     result <- lift (items <~ getitem data "items" ;; xs <~ iter items ;; rmap search_hit xs) ;;
     total <- lift (getitem data "total_count") ;;
     ret (JsonText (PDict [ ("total_count", total); ("repositories", PList result) ])))
    (fun e => ret (PlainText ("Error searching repositories: " ++ e))).

End Tools.
End GitHub.

(* ================================================================== *)
(** * gitlab_mcp_server.py *)
(* ================================================================== *)

Module GitLab.
Import Py Http PySort.

Section Tools.
Local Open Scope tool_scope.

(** [os.getenv("GITLAB_TOKEN")] and [os.getenv("GITLAB_API_BASE")]. *)
Variable GITLAB_TOKEN : option string.
Variable GITLAB_API_BASE_env : option string.
(** The upstream API. *)
Variable srv : server.
(** [base64.b64decode(...).decode('utf-8')]. *)
Variable b64_utf8 : string -> decoded.

Definition GITLAB_API_BASE : string := arg "https://gitlab.com/api/v4" GITLAB_API_BASE_env.

Definition get_headers : list (string * string) :=
  [ ("Authorization", "Bearer " ++ match GITLAB_TOKEN with Some t => t | None => "None" end);
    ("Content-Type", "application/json");
    ("User-Agent", "GitLab-MCP-Server") ].

Definition get (u : string) (ps : option (list (string * value))) : M Response :=
  call srv (mkRequest GET u get_headers ps None).

Definition post (u : string) (data : value) : M Response :=
  call srv (mkRequest POST u get_headers None (Some data)).

(** ** list_projects *)

Definition project_summary (project : value) : result value :=
  dict [ ("id", getitem project "id");
         ("name", getitem project "name");
         ("path_with_namespace", getitem project "path_with_namespace");
         ("description", dict_get project "description" (PStr ""));
         ("visibility", getitem project "visibility");
         ("stars", getitem project "star_count");
         ("forks", getitem project "forks_count");
         ("default_branch", dict_get project "default_branch" (PStr "main"));
         ("last_activity_at", getitem project "last_activity_at");
         ("web_url", getitem project "web_url") ].

(** The owner lookup: [inl url] is the listing URL to go on with, [inr out]
    is a text the tool returns at once. *)
Definition resolve_owner (owner : string) : M (string + tool_output) :=
  try_except
    (user_response <- get (GITLAB_API_BASE ++ "/users") (Some [("username", PStr owner)]) ;;
     raise_for_status user_response ;;;
     let users := body user_response in
     if negb (truthy users) then
       group_response <- get (GITLAB_API_BASE ++ "/groups") (Some [("search", PStr owner)]) ;;
       raise_for_status group_response ;;;
       let groups := body group_response in
       if negb (truthy groups) then
         ret (inr (PlainText ("User or group '" ++ owner ++ "' not found")))
       else
         owner_id <- lift (g <~ getitem0 groups ;; getitem g "id") ;;
         ret (inl (GITLAB_API_BASE ++ "/groups/" ++ str owner_id ++ "/projects"))
     else
       owner_id <- lift (u <~ getitem0 users ;; getitem u "id") ;;
       ret (inl (GITLAB_API_BASE ++ "/users/" ++ str owner_id ++ "/projects")))
    (fun e => ret (inr (PlainText ("Error finding user/group: " ++ e)))).

Definition list_projects (owner : option string) (per_page : option Z) : M tool_output :=
  let per_page := arg 30 per_page in
  target <-
    (match owner with
     | Some o => if negb (String.eqb o "") then resolve_owner o
                 else ret (inl (GITLAB_API_BASE ++ "/projects"))
     | None => ret (inl (GITLAB_API_BASE ++ "/projects"))
     end) ;;
  match target with
  | inr out => ret out
  | inl url =>
    let params := [ ("per_page", PInt (Z.min per_page 100));
                    ("order_by", PStr "last_activity_at"); ("sort", PStr "desc") ] in
    try_except
      (response <- get url (Some params) ;;
       raise_for_status response ;;;
       let projects := body response in
       result <- lift (xs <~ iter projects ;; rmap project_summary xs) ;;
       ret (JsonText (PList result)))
      (fun e => ret (PlainText ("Error fetching projects: " ++ e)))
  end.

(** ** get_project_info *)

Definition get_project_info (project_id : string) : M tool_output :=
  let encoded_project_id := quote project_id in
  let url := GITLAB_API_BASE ++ "/projects/" ++ encoded_project_id in
  try_except
    (response <- get url None ;;
     raise_for_status response ;;;
     let project := body response in
     result <- lift (dict
       [ ("id", getitem project "id");
         ("name", getitem project "name");
         ("path_with_namespace", getitem project "path_with_namespace");
         ("description", dict_get project "description" (PStr ""));
         ("visibility", getitem project "visibility");
         ("stars", getitem project "star_count");
         ("forks", getitem project "forks_count");
         ("default_branch", dict_get project "default_branch" (PStr "main"));
         ("created_at", getitem project "created_at");
         ("last_activity_at", getitem project "last_activity_at");
         ("topics", dict_get project "topics" (PList []));
         ("http_url_to_repo", getitem project "http_url_to_repo");
         ("ssh_url_to_repo", getitem project "ssh_url_to_repo");
         ("web_url", getitem project "web_url");
         ("issues_enabled", getitem project "issues_enabled");
         ("merge_requests_enabled", getitem project "merge_requests_enabled") ]) ;;
     ret (JsonText result))
    (fun e => ret (PlainText ("Error fetching project info: " ++ e))).

(** ** gitlab_list_issues *)

(** [d[:500] + "..."]. *)
Definition cut_500 (d : value) : result value :=
  match d with
  | PStr s => Ok (PStr (slice_to 500 s ++ "..."))
  | _ => Raise TypeError
  end.

(** [d[:500] + "..." if d and len(d) > 500 else d], where [d] is
    [issue.get("description", "")]. *)
Definition description_summary (d : value) : result value :=
  if truthy d then
    n <~ len d ;;
    if n >? 500 then cut_500 d else Ok d
  else Ok d.

Definition usernames (v : value) : result value :=
  comprehension (fun x => getitem x "username") v.

Definition issue_summary (issue : value) : result value :=
  dict [ ("iid", getitem issue "iid");
         ("id", getitem issue "id");
         ("title", getitem issue "title");
         ("state", getitem issue "state");
         ("author", a <~ getitem issue "author" ;; getitem a "username");
         ("created_at", getitem issue "created_at");
         ("updated_at", getitem issue "updated_at");
         ("labels", dict_get issue "labels" (PList []));
         ("assignees", a <~ dict_get issue "assignees" (PList []) ;; usernames a);
         ("user_notes_count", getitem issue "user_notes_count");
         ("web_url", getitem issue "web_url");
         ("description", d <~ dict_get issue "description" (PStr "") ;; description_summary d) ].

Definition gitlab_list_issues (project_id : string) (state : option string)
           (per_page : option Z) : M tool_output :=
  let state := arg "opened" state in
  let per_page := arg 30 per_page in
  let encoded_project_id := quote project_id in
  let url := GITLAB_API_BASE ++ "/projects/" ++ encoded_project_id ++ "/issues" in
  let params := [ ("state", PStr state); ("per_page", PInt (Z.min per_page 100));
                  ("order_by", PStr "updated_at"); ("sort", PStr "desc") ] in
  try_except
    (response <- get url (Some params) ;;
     raise_for_status response ;;;
     let issues := body response in
     result <- lift (xs <~ iter issues ;; rmap issue_summary xs) ;;
     ret (JsonText (PList result)))
    (fun e => ret (PlainText ("Error fetching issues: " ++ e))).

(** ** gitlab_create_issue *)

Definition nonempty {A} (l : option (list A)) : bool :=
  match l with
  | Some (_ :: _) => true
  | _ => false
  end.

Definition create_issue_data (title description : string) (labels : option (list string))
           (assignee_ids : option (list Z)) : list (string * value) :=
  ([ ("title", PStr title); ("description", PStr description) ]
   ++ (if nonempty labels then [("labels", PStr (join "," (arg [] labels)))] else [])
   ++ (if nonempty assignee_ids then [("assignee_ids", int_list (arg [] assignee_ids))] else []))%list.

Definition gitlab_create_issue (project_id title : string) (description : option string)
           (labels : option (list string)) (assignee_ids : option (list Z)) : M tool_output :=
  let description := arg "" description in
  let encoded_project_id := quote project_id in
  let url := GITLAB_API_BASE ++ "/projects/" ++ encoded_project_id ++ "/issues" in
  let data := PDict (create_issue_data title description labels assignee_ids) in
  try_except
    (response <- post url data ;;
     raise_for_status response ;;;
     let issue := body response in
     result <- lift (dict
       [ ("iid", getitem issue "iid");
         ("id", getitem issue "id");
         ("title", getitem issue "title");
         ("web_url", getitem issue "web_url");
         ("state", getitem issue "state");
         ("created_at", getitem issue "created_at") ]) ;;
     ret (JsonText result))
    (fun e => ret (PlainText ("Error creating issue: " ++ e))).

(** ** gitlab_get_issue *)

Definition gitlab_get_issue (project_id : string) (issue_iid : Z) : M tool_output :=
  let encoded_project_id := quote project_id in
  let url := GITLAB_API_BASE ++ "/projects/" ++ encoded_project_id
             ++ "/issues/" ++ str_of_int issue_iid in
  try_except
    (response <- get url None ;;
     raise_for_status response ;;;
     let issue := body response in
     result <- lift (dict
       [ ("iid", getitem issue "iid");
         ("id", getitem issue "id");
         ("title", getitem issue "title");
         ("state", getitem issue "state");
         ("author", a <~ getitem issue "author" ;; getitem a "username");
         ("created_at", getitem issue "created_at");
         ("updated_at", getitem issue "updated_at");
         ("labels", dict_get issue "labels" (PList []));
         ("assignees", a <~ dict_get issue "assignees" (PList []) ;; usernames a);
         ("user_notes_count", getitem issue "user_notes_count");
         ("description", dict_get issue "description" (PStr ""));
         ("web_url", getitem issue "web_url") ]) ;;
     ret (JsonText result))
    (fun e => ret (PlainText ("Error fetching issue: " ++ e))).

(** ** gitlab_get_file *)

Definition max_size : Z := 8000.

(** The text appended to a truncated file. *)
Definition truncation_note (content : string) : string :=
  nl ++ nl ++ "... (file truncated, showing first " ++ str_of_int max_size
     ++ " characters of " ++ str_of_int (len_str content) ++ " total)".

(** [if len(content) > max_size: content = content[:max_size] + f"..."]. *)
Definition limit_content (content : string) : string :=
  if len_str content >? max_size
  then slice_to max_size content ++ truncation_note content
  else content.

Definition files_url (project_id file_path : string) : string :=
  GITLAB_API_BASE ++ "/projects/" ++ quote project_id
                  ++ "/repository/files/" ++ quote file_path.

Definition project_url (project_id : string) : string :=
  GITLAB_API_BASE ++ "/projects/" ++ quote project_id.

Definition file_not_found (project_id file_path : string) (branch : value) : value :=
  PDict [ ("project", PStr project_id);
          ("file_path", PStr file_path);
          ("branch", branch);
          ("error", PStr ("File '" ++ file_path ++ "' not found in project "
                          ++ project_id ++ " on branch " ++ str branch));
          ("suggestion", PStr "Check the file path and branch name. Use list_repository_tree to see available files.") ].

(** [base64.b64decode(c).decode('utf-8')] for the object [c = file_data["content"]]. *)
Definition decode_content (c : value) : result string :=
  match c with
  | PStr s =>
      match b64_utf8 s with
      | Text t => Ok t
      | BadBase64 => Raise ValueError
      | NotUtf8 => Raise UnicodeDecodeError
      end
  | _ => Raise TypeError
  end.

(** Everything after [response.raise_for_status()]. *)
Definition file_payload (project_id file_path : string) (branch file_data : value)
  : result value :=
  c <~ getitem file_data "content" ;;
  match decode_content c with
  | Raise UnicodeDecodeError =>
      dict [ ("project", Ok (PStr project_id));
             ("file_path", Ok (PStr file_path));
             ("branch", Ok branch);
             ("error", Ok (PStr "File appears to be binary and cannot be displayed as text"));
             ("file_info", dict [ ("size", getitem file_data "size");
                                  ("encoding", dict_get file_data "encoding" (PStr "base64")) ]) ]
  | Raise e => Raise e
  | Ok content =>
      let content := limit_content content in
      dict [ ("project", Ok (PStr project_id));
             ("file_path", Ok (PStr file_path));
             ("branch", Ok branch);
             ("size", getitem file_data "size");
             ("encoding", dict_get file_data "encoding" (PStr "base64"));
             ("content", Ok (PStr content));
             ("last_commit_id", dict_get file_data "last_commit_id" PNone) ]
  end.

(** As for the GitHub tool, [depth] bounds the nesting of the self-call and
    the inner computation yields [Some out] when the function returns from
    inside the fallback. *)
Fixpoint gitlab_get_file (depth : nat) (project_id file_path : string) (branch : option value)
  : M tool_output :=
  match depth with
  | O => raise RecursionError
  | S depth' =>
    let branch := arg (PStr "main") branch in
    let url := files_url project_id file_path in
    let params := [("ref", branch)] in
    try_except
      (response <- get url (Some params) ;;
       if status_code response =? 404 then
         returned <-
           (if eq_str branch "main" then
              try_except
                (project_response <- get (project_url project_id) None ;;
                 if status_code project_response =? 200 then
                   default_branch <-
                     lift (dict_get (body project_response) "default_branch" (PStr "master")) ;;
                   if negb (eq_str default_branch "main") then
                     out <- gitlab_get_file depth' project_id file_path (Some default_branch) ;;
                     ret (Some out)
                   else ret None
                 else ret None)
                (fun _ => ret None)
            else ret None) ;;
         match returned with
         | Some out => ret out
         | None => ret (JsonText (file_not_found project_id file_path branch))
         end
       else
         raise_for_status response ;;;
         let file_data := body response in
         result <- lift (file_payload project_id file_path branch file_data) ;;
         ret (JsonText result))
      (fun e => ret (JsonText
         (PDict [ ("project", PStr project_id);
                  ("file_path", PStr file_path);
                  ("branch", branch);
                  ("error", PStr ("Error fetching file: " ++ e)) ])))
  end.

(** ** list_repository_tree *)

Definition or_slash (path : string) : string :=
  if String.eqb path "" then "/" else path.

Definition tree_item (item : value) : result value :=
  dict [ ("name", getitem item "name");
         ("type", getitem item "type");
         ("path", getitem item "path");
         ("mode", getitem item "mode") ].

Definition list_repository_tree (project_id : string) (path branch : option string)
  : M tool_output :=
  let path := arg "" path in
  let branch := arg "main" branch in
  let url := GITLAB_API_BASE ++ "/projects/" ++ quote project_id ++ "/repository/tree" in
  let params := ([ ("ref", PStr branch); ("per_page", PInt 100) ]
                 ++ (if negb (String.eqb path "") then [("path", PStr path)] else []))%list in
  let head := [ ("project", PStr project_id);
                ("path", PStr (or_slash path));
                ("branch", PStr branch) ] in
  try_except
    (response <- get url (Some params) ;;
     if status_code response =? 404 then
       ret (JsonText (PDict (head ++
         [("error", PStr ("Path '" ++ path ++ "' not found in project "
                          ++ project_id ++ " on branch " ++ branch))])%list))
     else
       raise_for_status response ;;;
       let contents := body response in
       items <- lift (xs <~ iter contents ;; rmap tree_item xs) ;;
       items <- lift (sort_by_key (entry_key "tree") items) ;;
       ret (JsonText (PDict (head ++
         [ ("total_items", PInt (Z.of_nat (List.length items)));
           ("contents", PList items) ])%list)))
    (fun e => ret (JsonText (PDict (head ++
       [("error", PStr ("Error fetching tree: " ++ e))])%list))).

(** ** search_projects *)

Definition search_hit (project : value) : result value :=
  dict [ ("id", getitem project "id");
         ("name", getitem project "name");
         ("path_with_namespace", getitem project "path_with_namespace");
         ("description", dict_get project "description" (PStr ""));
         ("visibility", getitem project "visibility");
         ("stars", getitem project "star_count");
         ("forks", getitem project "forks_count");
         ("last_activity_at", getitem project "last_activity_at");
         ("web_url", getitem project "web_url") ].

Definition search_projects (query : string) (order_by sort : option string)
           (per_page : option Z) : M tool_output :=
  let order_by := arg "last_activity_at" order_by in
  let sort := arg "desc" sort in
  let per_page := arg 30 per_page in
  let url := GITLAB_API_BASE ++ "/projects" in
  let params := [ ("search", PStr query); ("order_by", PStr order_by); ("sort", PStr sort);
                  ("per_page", PInt (Z.min per_page 100)) ] in
  try_except
    (response <- get url (Some params) ;;
     raise_for_status response ;;;
     let projects := body response in
     result <- lift (xs <~ iter projects ;; rmap search_hit xs) ;;
     ret (JsonText (PDict [ ("total_results", PInt (Z.of_nat (List.length result)));
                            ("projects", PList result) ])))
    (fun e => ret (PlainText ("Error searching projects: " ++ e))).

(** ** list_merge_requests *)

Definition merge_request_summary (mr : value) : result value :=
  dict [ ("iid", getitem mr "iid");
         ("id", getitem mr "id");
         ("title", getitem mr "title");
         ("state", getitem mr "state");
         ("author", a <~ getitem mr "author" ;; getitem a "username");
         ("source_branch", getitem mr "source_branch");
         ("target_branch", getitem mr "target_branch");
         ("created_at", getitem mr "created_at");
         ("updated_at", getitem mr "updated_at");
         ("labels", dict_get mr "labels" (PList []));
         ("assignees", a <~ dict_get mr "assignees" (PList []) ;; usernames a);
         ("user_notes_count", getitem mr "user_notes_count");
         ("web_url", getitem mr "web_url");
         ("description", d <~ dict_get mr "description" (PStr "") ;; description_summary d) ].

Definition list_merge_requests (project_id : string) (state : option string)
           (per_page : option Z) : M tool_output :=
  let state := arg "opened" state in
  let per_page := arg 30 per_page in
  let url := GITLAB_API_BASE ++ "/projects/" ++ quote project_id ++ "/merge_requests" in
  let params := [ ("state", PStr state); ("per_page", PInt (Z.min per_page 100));
                  ("order_by", PStr "updated_at"); ("sort", PStr "desc") ] in
  try_except
    (response <- get url (Some params) ;;
     raise_for_status response ;;;
     let merge_requests := body response in
     result <- lift (xs <~ iter merge_requests ;; rmap merge_request_summary xs) ;;
     ret (JsonText (PList result)))
    (fun e => ret (PlainText ("Error fetching merge requests: " ++ e))).

(** ** Backward compatibility aliases

    Each alias has its own defaults and passes the resolved arguments on,
    positionally.  For [get_file], [depth] is the room left for the calls of
    [gitlab_get_file]. *)

Definition list_issues (project_id : string) (state : option string)
           (per_page : option Z) : M tool_output :=
  let state := arg "opened" state in
  let per_page := arg 30 per_page in
  gitlab_list_issues project_id (Some state) (Some per_page).

Definition create_issue (project_id title : string) (description : option string)
           (labels : option (list string)) (assignee_ids : option (list Z)) : M tool_output :=
  let description := arg "" description in
  gitlab_create_issue project_id title (Some description) labels assignee_ids.

Definition get_issue (project_id : string) (issue_iid : Z) : M tool_output :=
  gitlab_get_issue project_id issue_iid.

Definition get_file (depth : nat) (project_id file_path : string) (branch : option value)
  : M tool_output :=
  let branch := arg (PStr "main") branch in
  gitlab_get_file depth project_id file_path (Some branch).

End Tools.
End GitLab.

(* ================================================================== *)
(** * Text truncation *)
(* ================================================================== *)

Module TextFacts.
Import Py.

Lemma length_app (s t : string) :
  String.length (s ++ t) = (String.length s + String.length t)%nat.
Proof.
  induction s as [|c s IH]; simpl; [reflexivity | now rewrite IH].
Qed.

Lemma length_prefix_of (k : nat) (s : string) :
  String.length (String.substring 0 k s) = Nat.min k (String.length s).
Proof.
  revert s; induction k as [|k IH]; intros [|c s]; simpl; try reflexivity.
  now rewrite IH.
Qed.

Lemma prefix_splits (k : nat) (s : string) :
  exists rest, s = String.substring 0 k s ++ rest.
Proof.
  revert s; induction k as [|k IH]; intros [|c s]; simpl.
  - now exists "".
  - now exists (String c s).
  - now exists "".
  - destruct (IH s) as [rest Hrest]. exists rest. now rewrite <- Hrest.
Qed.

Lemma len_str_app (s t : string) : len_str (s ++ t) = len_str s + len_str t.
Proof. unfold len_str. rewrite length_app. lia. Qed.

Lemma len_slice_to (k : Z) (s : string) :
  0 <= k -> len_str (slice_to k s) = Z.min k (len_str s).
Proof.
  intros Hk. unfold len_str, slice_to. rewrite length_prefix_of. lia.
Qed.

Lemma slice_to_all (k : Z) (s : string) :
  len_str s <= k -> slice_to k s = s.
Proof.
  unfold len_str, slice_to. intros H.
  assert (Hn : (String.length s <= Z.to_nat k)%nat) by lia.
  clear H. revert Hn. generalize (Z.to_nat k) as n.
  induction s as [|c s IH]; intros [|n] Hn; simpl in *; try reflexivity; try lia.
  f_equal. apply IH. lia.
Qed.

Lemma truthy_long (s : string) : 0 < len_str s -> truthy (PStr s) = true.
Proof.
  destruct s; unfold len_str; simpl; [lia | reflexivity].
Qed.

End TextFacts.

Module Truncation.
Import Py TextFacts.

(** What every truncation site is meant to compute: the text itself up to
    [threshold] characters, otherwise its first [threshold] characters
    followed by [marker]. *)
Definition truncated (threshold : Z) (marker s : string) : string :=
  if len_str s <=? threshold then s else slice_to threshold s ++ marker.

Lemma truncated_short (threshold : Z) (marker s : string) :
  len_str s <= threshold -> truncated threshold marker s = s.
Proof.
  intros H. unfold truncated. destruct (Z.leb_spec (len_str s) threshold); [reflexivity | lia].
Qed.

Lemma truncated_long (threshold : Z) (marker s : string) :
  0 <= threshold < len_str s ->
  truncated threshold marker s = slice_to threshold s ++ marker
  /\ len_str (slice_to threshold s) = threshold
  /\ exists rest, s = slice_to threshold s ++ rest.
Proof.
  intros H. unfold truncated.
  destruct (Z.leb_spec (len_str s) threshold); [lia |].
  split; [reflexivity | split].
  - rewrite len_slice_to by lia. lia.
  - apply prefix_splits.
Qed.

Lemma truncated_bound (threshold : Z) (marker s : string) :
  0 <= threshold ->
  len_str (truncated threshold marker s) <= threshold + len_str marker.
Proof.
  intros H. unfold truncated.
  destruct (Z.leb_spec (len_str s) threshold).
  - unfold len_str in *. lia.
  - rewrite len_str_app, len_slice_to by lia. lia.
Qed.

Lemma summary_500 (s : string) :
  GitHub.body_summary (PStr s) = Ok (PStr (truncated 500 "..." s))
  /\ GitLab.description_summary (PStr s) = Ok (PStr (truncated 500 "..." s)).
Proof.
  unfold GitHub.body_summary, GitLab.description_summary, truncated.
  destruct (Z.leb_spec (len_str s) 500) as [Hle | Hgt].
  - destruct (truthy (PStr s)); simpl; [| now split].
    destruct (Z.gtb_spec (len_str s) 500); [lia | now split].
  - rewrite truthy_long by lia. simpl.
    destruct (Z.gtb_spec (len_str s) 500); [now split | lia].
Qed.

Lemma content_8000 (s : string) :
  GitHub.limit_content s = truncated 8000 (GitHub.truncation_note s) s
  /\ GitLab.limit_content s = truncated 8000 (GitLab.truncation_note s) s.
Proof.
  unfold GitHub.limit_content, GitLab.limit_content, truncated,
    GitHub.max_size, GitLab.max_size.
  destruct (Z.leb_spec (len_str s) 8000); destruct (Z.gtb_spec (len_str s) 8000);
    try lia; now split.
Qed.

Lemma content_8000_note (s : string) :
  let note := nl ++ nl ++ "... (file truncated, showing first 8000 characters of "
              ++ str_of_int (len_str s) ++ " total)" in
  GitHub.limit_content s = truncated 8000 note s
  /\ GitLab.limit_content s = truncated 8000 note s.
Proof. exact (content_8000 s). Qed.

(** C2.  At each truncation site -- the 500-character cut of issue bodies
    (GitHub) and of issue and merge-request descriptions (GitLab), and the
    8000-character cut of file contents on both forges -- a text of length at
    most the threshold comes back unchanged, with no marker; a longer text
    comes back as its first [threshold] characters followed by the marker;
    and the result is never longer than the threshold plus the marker.  The
    marker of the 500-character cut is ["..."]; the marker of the
    8000-character cut is, after two line breaks, the note
    ["... (file truncated, showing first 8000 characters of <n> total)"]
    with [n] the length of the whole text in decimal. *)
Theorem truncation_sites (s : string) :
  let marker := "..." in
  let note := nl ++ nl ++ "... (file truncated, showing first 8000 characters of "
              ++ str_of_int (len_str s) ++ " total)" in
  let out500 := truncated 500 marker s in
  let out8000 := truncated 8000 note s in
  (GitHub.body_summary (PStr s) = Ok (PStr out500)
   /\ GitLab.description_summary (PStr s) = Ok (PStr out500)
   /\ GitHub.limit_content s = out8000
   /\ GitLab.limit_content s = out8000)
  /\ (len_str s <= 500 -> out500 = s)
  /\ (len_str s <= 8000 -> out8000 = s)
  /\ (500 < len_str s ->
      out500 = slice_to 500 s ++ marker
      /\ len_str (slice_to 500 s) = 500
      /\ exists rest, s = slice_to 500 s ++ rest)
  /\ (8000 < len_str s ->
      out8000 = slice_to 8000 s ++ note
      /\ len_str (slice_to 8000 s) = 8000
      /\ exists rest, s = slice_to 8000 s ++ rest)
  /\ len_str out500 <= 500 + len_str marker
  /\ len_str out8000 <= 8000 + len_str note
  /\ len_str marker = 3
  /\ len_str note = 63 + len_str (str_of_int (len_str s)).
Proof.
  cbv zeta.
  pose proof (summary_500 s) as [H1 H2].
  pose proof (content_8000_note s) as [H3 H4]. cbv zeta in H3, H4.
  split; [now repeat split |].
  split; [now apply truncated_short |].
  split; [now apply truncated_short |].
  split; [intros H; apply truncated_long; lia |].
  split; [intros H; apply truncated_long; lia |].
  split; [apply truncated_bound; lia |].
  split; [apply truncated_bound; lia |].
  split; [reflexivity |].
  rewrite !len_str_app.
  change (len_str nl) with 1.
  change (len_str "... (file truncated, showing first 8000 characters of ") with 54.
  change (len_str " total)") with 7. lia.
Qed.

End Truncation.

(* ================================================================== *)
(** * Reasoning about tool computations *)
(* ================================================================== *)

Module ToolFacts.
Import Py Http.

(** A computation is quiet when it issues no HTTP call. *)
Definition quiet {A} (m : M A) : Prop := forall log, snd (m log) = log.

Lemma quiet_ret {A} (a : A) : quiet (ret a).
Proof. intros log; reflexivity. Qed.

Lemma quiet_raise {A} (x : exn) : quiet (@raise A x).
Proof. intros log; reflexivity. Qed.

Lemma quiet_lift {A} (r : result A) : quiet (lift r).
Proof. intros log; unfold lift; now destruct r. Qed.

Lemma quiet_raise_for_status (r : Response) : quiet (raise_for_status r).
Proof. intros log; unfold raise_for_status; now destruct (http_error r). Qed.

Lemma quiet_bind {A B} (m : M A) (k : A -> M B) :
  quiet m -> (forall a, quiet (k a)) -> quiet (bind m k).
Proof.
  intros Hm Hk log. unfold bind.
  specialize (Hm log). destruct (m log) as [[a | x] log']; simpl in Hm; subst.
  - apply Hk.
  - reflexivity.
Qed.

Lemma quiet_try {A} (m : M A) (h : string -> M A) :
  quiet m -> (forall e, quiet (h e)) -> quiet (try_except m h).
Proof.
  intros Hm Hh log. unfold try_except.
  specialize (Hm log). destruct (m log) as [[a | [msg | e |]] log']; simpl in Hm; subst;
    try reflexivity.
  apply Hh.
Qed.

Lemma quiet_if {A} (b : bool) (m1 m2 : M A) :
  quiet m1 -> quiet m2 -> quiet (if b then m1 else m2).
Proof. now destruct b. Qed.

Create HintDb quiet.

#[export] Hint Resolve quiet_ret quiet_raise quiet_lift quiet_raise_for_status
  quiet_bind quiet_try quiet_if : quiet.

Ltac quiet_tac :=
  repeat (intros;
          first [ apply quiet_ret | apply quiet_raise | apply quiet_lift
                | apply quiet_raise_for_status | apply quiet_bind
                | apply quiet_try | apply quiet_if ]).

(** The usual shape of a tool: one call inside a [try], nothing but
    computation after it. *)
Lemma one_call_log {A} (srv : server) (r : Request) (k : Response -> M A)
      (h : string -> M A) (log : list Request) :
  (forall resp, quiet (k resp)) -> (forall e, quiet (h e)) ->
  snd (try_except (bind (call srv r) k) h log) = (log ++ [r])%list.
Proof.
  intros Hk Hh. unfold try_except, bind, call.
  destruct (srv log r) as [msg | resp].
  - apply Hh.
  - specialize (Hk resp (log ++ [r])%list).
    destruct (k resp (log ++ [r])%list) as [[a | [msg | e |]] log']; simpl in *; subst;
      try reflexivity.
    apply Hh.
Qed.

(** The upstream answers with a status that [raise_for_status] rejects: the
    handler runs, after exactly that call. *)
Lemma one_call_http_error {A} (srv : server) (r : Request) (k : Response -> M A)
      (h : string -> M A) (log : list Request) (resp : Response) (detail : string) :
  srv log r = inr resp -> http_error resp = Some detail ->
  try_except (bind (call srv r) (fun response => bind (raise_for_status response)
                                                    (fun _ => k response))) h log
  = h detail (log ++ [r])%list.
Proof.
  intros Hsrv Herr. unfold try_except, bind, call, raise_for_status, raise.
  now rewrite Hsrv, Herr.
Qed.

(** The upstream answers with an accepted status: the rest of the body runs. *)
Lemma one_call_accepted {A} (srv : server) (r : Request) (k : Response -> M A)
      (h : string -> M A) (log : list Request) (resp : Response) :
  srv log r = inr resp -> http_error resp = None ->
  try_except (bind (call srv r) (fun response => bind (raise_for_status response)
                                                    (fun _ => k response))) h log
  = try_except (k resp) h (log ++ [r])%list.
Proof.
  intros Hsrv Herr. unfold try_except, bind, call, raise_for_status, ret.
  now rewrite Hsrv, Herr.
Qed.

Lemma bind_run {A B} (m : M A) (k : A -> M B) (log : list Request) :
  bind m k log
  = match m log with
    | (Return a, log') => k a log'
    | (Throw x, log') => (Throw x, log')
    end.
Proof. reflexivity. Qed.

(** A pure step followed by a return never reaches the handler. *)
Lemma finish_pure {A B} (r : result A) (f : A -> B) (h : string -> M B)
      (log : list Request) :
  try_except (bind (lift r) (fun a => ret (f a))) h log
  = (match r with Ok a => Return (f a) | Raise e => Throw (Builtin e) end, log).
Proof. unfold try_except, bind, lift, ret. now destruct r. Qed.

Lemma http_error_range (resp : Response) :
  400 <= status_code resp < 600 -> exists detail, http_error resp = Some detail.
Proof.
  intros H. unfold http_error.
  destruct (Z.leb_spec 400 (status_code resp)); [| lia].
  destruct (Z.ltb_spec (status_code resp) 500); simpl; [eauto |].
  destruct (Z.leb_spec 500 (status_code resp)); [| lia].
  destruct (Z.ltb_spec (status_code resp) 600); simpl; [eauto | lia].
Qed.

Lemma http_error_none (resp : Response) :
  200 <= status_code resp < 300 -> http_error resp = None.
Proof.
  intros H. unfold http_error.
  destruct (Z.leb_spec 400 (status_code resp)); [lia |].
  destruct (Z.leb_spec 500 (status_code resp)); [lia |].
  reflexivity.
Qed.

(** A computation stays within the allowed call depth when it never ends in
    [RecursionError]. *)
Definition within_depth {A} (m : M A) : Prop :=
  forall log, fst (m log) <> Throw RecursionError.

Lemma within_ret {A} (a : A) : within_depth (ret a).
Proof. intros log; discriminate. Qed.

Lemma within_lift {A} (r : result A) : within_depth (lift r).
Proof. intros log; unfold lift; destruct r; discriminate. Qed.

Lemma within_raise_for_status (r : Response) : within_depth (raise_for_status r).
Proof. intros log; unfold raise_for_status; destruct (http_error r); discriminate. Qed.

Lemma within_call (srv : server) (r : Request) : within_depth (call srv r).
Proof. intros log; unfold call; destruct (srv log r); discriminate. Qed.

Lemma within_bind {A B} (m : M A) (k : A -> M B) :
  within_depth m -> (forall a, within_depth (k a)) -> within_depth (bind m k).
Proof.
  intros Hm Hk log. rewrite bind_run. specialize (Hm log).
  destruct (m log) as [[a | x] log']; [apply Hk |].
  simpl in *. intros E. apply Hm. now injection E as ->.
Qed.

Lemma within_try {A} (m : M A) (h : string -> M A) :
  within_depth m -> (forall e, within_depth (h e)) -> within_depth (try_except m h).
Proof.
  intros Hm Hh log. unfold try_except. specialize (Hm log).
  destruct (m log) as [[a | [msg | e |]] log']; try exact Hm. apply Hh.
Qed.

Lemma within_if {A} (b : bool) (m1 m2 : M A) :
  within_depth m1 -> within_depth m2 -> within_depth (if b then m1 else m2).
Proof. now destruct b. Qed.

Ltac within_tac :=
  repeat (intros;
          first [ apply within_ret | apply within_lift | apply within_raise_for_status
                | apply within_call | apply within_bind | apply within_try
                | apply within_if ]).

(** Two computations that behave alike on every log. *)
Definition same {A} (m1 m2 : M A) : Prop := forall log, m1 log = m2 log.

Lemma same_refl {A} (m : M A) : same m m.
Proof. intros log; reflexivity. Qed.

Lemma same_bind {A B} (m1 m2 : M A) (k1 k2 : A -> M B) :
  same m1 m2 -> (forall a, same (k1 a) (k2 a)) -> same (bind m1 k1) (bind m2 k2).
Proof.
  intros Hm Hk log. rewrite !bind_run, Hm.
  destruct (m2 log) as [[a | x] log']; [apply Hk | reflexivity].
Qed.

Lemma same_try {A} (m1 m2 : M A) (h : string -> M A) :
  same m1 m2 -> same (try_except m1 h) (try_except m2 h).
Proof. intros Hm log. unfold try_except. now rewrite Hm. Qed.

Lemma same_if {A} (b : bool) (m1 m2 n1 n2 : M A) :
  same m1 m2 -> same n1 n2 -> same (if b then m1 else n1) (if b then m2 else n2).
Proof. now destruct b. Qed.

(** A [try] whose handler returns never lets a [RequestException] out. *)
Lemma try_ret_never_request {A} (m : M A) (f : string -> A) (log : list Request)
      (msg : string) :
  fst (try_except m (fun e => ret (f e)) log) <> Throw (RequestException msg).
Proof.
  unfold try_except, ret. destruct (m log) as [[a | [e | e |]] log']; simpl; discriminate.
Qed.

End ToolFacts.

(* ================================================================== *)
(** * Page sizes *)
(* ================================================================== *)

Module Pagination.
Import Py Http ToolFacts.

(** The [per_page] query parameters carried by the calls of a log. *)
Definition page_size_of (r : Request) : list value :=
  match params r with
  | Some ps => match assoc "per_page" ps with Some v => [v] | None => [] end
  | None => []
  end.

Definition page_sizes (log : list Request) : list value := flat_map page_size_of log.

(** The page size as the specification words it: the argument clamped to
    the interval from 1 to 100. *)
Definition clamped_page_size (per_page : Z) : Z := Z.max 1 (Z.min per_page 100).

(** The page size the tools compute: [min(per_page, 100)], with 30 for an
    omitted argument. *)
Definition sent_page_size (per_page : option Z) : value :=
  PInt (Z.min (arg 30 per_page) 100).

Lemma page_sizes_app (l1 l2 : list Request) :
  page_sizes (l1 ++ l2) = (page_sizes l1 ++ page_sizes l2)%list.
Proof. apply flat_map_app. Qed.

Section Sent.
Variables (hub_token lab_token lab_base : option string).
Variable srv : server.

Lemma resolve_owner_sends_no_page_size (owner : string) (log : list Request) :
  page_sizes (snd (GitLab.resolve_owner lab_token lab_base srv owner log)) = page_sizes log.
Proof.
  unfold GitLab.resolve_owner, GitLab.get, try_except, bind, call, raise_for_status,
    raise, ret, lift.
  destruct (srv log _) as [msg | resp]; simpl.
  - rewrite page_sizes_app. simpl. now rewrite app_nil_r.
  - destruct (http_error resp); simpl.
    + rewrite page_sizes_app. simpl. now rewrite app_nil_r.
    + destruct (truthy (body resp)); simpl.
      * destruct (getitem0 (body resp)) as [u | e]; simpl;
          [destruct (getitem u "id"); simpl |];
          rewrite page_sizes_app; simpl; now rewrite app_nil_r.
      * destruct (srv _ _) as [msg | resp2]; simpl.
        -- rewrite !page_sizes_app. simpl. now rewrite !app_nil_r.
        -- destruct (http_error resp2); simpl.
           ++ rewrite !page_sizes_app. simpl. now rewrite !app_nil_r.
           ++ destruct (truthy (body resp2)); simpl.
              ** destruct (getitem0 (body resp2)) as [g | e]; simpl;
                   [destruct (getitem g "id"); simpl |];
                   rewrite !page_sizes_app; simpl; now rewrite !app_nil_r.
              ** rewrite !page_sizes_app. simpl. now rewrite !app_nil_r.
Qed.

Lemma listing_stage_page_size {A} (url : string) (hs : list (string * string))
      (ps : list (string * value)) (v : value)
      (k : Response -> M A) (h : string -> M A) (log : list Request) :
  assoc "per_page" ps = Some v ->
  (forall resp, quiet (k resp)) -> (forall e, quiet (h e)) ->
  page_sizes (snd (try_except (bind (call srv (mkRequest GET url hs (Some ps) None)) k) h log))
  = (page_sizes log ++ [v])%list.
Proof.
  intros Hps Hk Hh. rewrite one_call_log by assumption.
  rewrite page_sizes_app. f_equal.
  unfold page_sizes, page_size_of. simpl. now rewrite Hps.
Qed.

Lemma list_projects_page_size (owner : option string) (per_page : option Z)
      (log : list Request) :
  let sizes := page_sizes (snd (GitLab.list_projects lab_token lab_base srv owner per_page log)) in
  (sizes = page_sizes log \/ sizes = (page_sizes log ++ [sent_page_size per_page])%list)
  /\ (owner = None -> sizes = (page_sizes log ++ [sent_page_size per_page])%list).
Proof.
  cbv zeta.
  assert (Hlist : forall url log',
    page_sizes (snd (try_except
      (bind (GitLab.get lab_token srv url
               (Some [ ("per_page", PInt (Z.min (arg 30 per_page) 100));
                       ("order_by", PStr "last_activity_at"); ("sort", PStr "desc") ]))
            (fun response => bind (raise_for_status response) (fun _ =>
               bind (lift (rbind (iter (body response))
                                 (fun xs => rmap GitLab.project_summary xs)))
                    (fun result => ret (JsonText (PList result))))))
      (fun e => ret (PlainText ("Error fetching projects: " ++ e))) log'))
    = (page_sizes log' ++ [sent_page_size per_page])%list).
  { intros url log'. unfold GitLab.get.
    apply listing_stage_page_size; [reflexivity | quiet_tac | quiet_tac]. }
  unfold GitLab.list_projects. cbv zeta. rewrite bind_run.
  split.
  - destruct owner as [o |]; [destruct (String.eqb o "") eqn:Ho |]; cbv [negb ret].
    + right. apply Hlist.
    + pose proof (resolve_owner_sends_no_page_size o log) as Hres.
      destruct (GitLab.resolve_owner lab_token lab_base srv o log) as [[[url | out] | x] log'];
        simpl in Hres.
      * right. rewrite Hlist. now rewrite Hres.
      * left. exact Hres.
      * left. exact Hres.
    + right. apply Hlist.
  - intros ->. apply Hlist.
Qed.

(** C8 (as amended).  Every listing tool that takes [per_page] sends
    [min(per_page, 100)], with 30 for an omitted argument: a value above 100
    is lowered to 100, any other value -- zero and negative ones included --
    is sent as it is.  [list_projects] sends it in its listing call, which is
    its only call when no owner is given. *)
Theorem page_size_sent (owner repo query project_id : string) (st o1 o2 : option string)
        (lab_owner : option string) (per_page : option Z) (log : list Request) :
  let sent := (page_sizes log ++ [sent_page_size per_page])%list in
  page_sizes (snd (GitHub.list_repositories hub_token srv owner per_page log)) = sent
  /\ page_sizes (snd (GitHub.list_issues hub_token srv owner repo st per_page log)) = sent
  /\ page_sizes (snd (GitHub.search_repositories hub_token srv query o1 o2 per_page log)) = sent
  /\ page_sizes (snd (GitLab.gitlab_list_issues lab_token lab_base srv project_id st per_page log)) = sent
  /\ page_sizes (snd (GitLab.list_issues lab_token lab_base srv project_id st per_page log)) = sent
  /\ page_sizes (snd (GitLab.search_projects lab_token lab_base srv query o1 o2 per_page log)) = sent
  /\ page_sizes (snd (GitLab.list_merge_requests lab_token lab_base srv project_id st per_page log)) = sent
  /\ (let sizes := page_sizes (snd (GitLab.list_projects lab_token lab_base srv lab_owner per_page log)) in
      (sizes = page_sizes log \/ sizes = sent) /\ (lab_owner = None -> sizes = sent))
  /\ (forall p, p <= 100 -> sent_page_size (Some p) = PInt p)
  /\ (forall p, 100 < p -> sent_page_size (Some p) = PInt 100)
  /\ sent_page_size None = PInt 30.
Proof.
  cbv zeta.
  repeat match goal with |- _ /\ _ => split end.
  - unfold GitHub.list_repositories, GitHub.get.
    apply listing_stage_page_size; [reflexivity | quiet_tac | quiet_tac].
  - unfold GitHub.list_issues, GitHub.get.
    apply listing_stage_page_size; [reflexivity | quiet_tac | quiet_tac].
  - unfold GitHub.search_repositories, GitHub.get.
    apply listing_stage_page_size; [reflexivity | quiet_tac | quiet_tac].
  - unfold GitLab.gitlab_list_issues, GitLab.get.
    apply listing_stage_page_size; [reflexivity | quiet_tac | quiet_tac].
  - unfold GitLab.list_issues, GitLab.gitlab_list_issues, GitLab.get.
    destruct per_page; apply listing_stage_page_size; (reflexivity || quiet_tac).
  - unfold GitLab.search_projects, GitLab.get.
    apply listing_stage_page_size; [reflexivity | quiet_tac | quiet_tac].
  - unfold GitLab.list_merge_requests, GitLab.get.
    apply listing_stage_page_size; [reflexivity | quiet_tac | quiet_tac].
  - apply list_projects_page_size.
  - apply list_projects_page_size.
  - intros p Hp. unfold sent_page_size. simpl. f_equal. lia.
  - intros p Hp. unfold sent_page_size. simpl. f_equal. lia.
  - reflexivity.
Qed.

End Sent.

(** A stub forge that answers every call with an empty list. *)
Definition empty_forge : server :=
  fun _ _ => inr (mkResponse 200 "OK" "" (PList [])).

(** C8 fails as stated: asked for a page size of 0, [list_repositories]
    sends 0, whereas the interval from 1 to 100 would require 1. *)
Lemma page_size_zero_not_raised :
  page_sizes (snd (GitHub.list_repositories None empty_forge "octo" (Some 0) [])) = [PInt 0]
  /\ page_sizes (snd (GitHub.list_repositories None empty_forge "octo" (Some 0) []))
     <> [PInt (clamped_page_size 0)].
Proof.
  split; [reflexivity |].
  vm_compute. discriminate.
Qed.

End Pagination.

(* ================================================================== *)
(** * Issue creation *)
(* ================================================================== *)

Module IssueCreation.
Import Py Http ToolFacts.

Section Posted.
Variables (hub_token lab_token lab_base : option string).
Variable srv : server.

(** The single call of each creation tool. *)
Definition hub_post (owner repo title : string) (body : option string)
           (labels assignees : option (list string)) : Request :=
  mkRequest POST
    (GitHub.GITHUB_API_BASE ++ "/repos/" ++ owner ++ "/" ++ repo ++ "/issues")
    (GitHub.get_headers hub_token) None
    (Some (PDict (GitHub.create_issue_data title (arg "" body) labels assignees))).

Definition lab_post (project_id title : string) (description : option string)
           (labels : option (list string)) (assignee_ids : option (list Z)) : Request :=
  mkRequest POST
    (GitLab.GITLAB_API_BASE lab_base ++ "/projects/" ++ quote project_id ++ "/issues")
    (GitLab.get_headers lab_token) None
    (Some (PDict (GitLab.create_issue_data title (arg "" description) labels assignee_ids))).

Lemma hub_create_issue_log owner repo title body labels assignees log :
  snd (GitHub.create_issue hub_token srv owner repo title body labels assignees log)
  = (log ++ [hub_post owner repo title body labels assignees])%list.
Proof.
  unfold GitHub.create_issue, GitHub.post, hub_post.
  apply one_call_log; quiet_tac.
Qed.

Lemma lab_create_issue_log project_id title description labels assignee_ids log :
  snd (GitLab.gitlab_create_issue lab_token lab_base srv project_id title description
         labels assignee_ids log)
  = (log ++ [lab_post project_id title description labels assignee_ids])%list.
Proof.
  unfold GitLab.gitlab_create_issue, GitLab.post, lab_post.
  apply one_call_log; quiet_tac.
Qed.

(** C10.  Both creation tools issue exactly one POST.  In its JSON body the
    key [labels] (and [assignees] on GitHub, [assignee_ids] on GitLab) is
    absent when the argument is [None] or an empty list; non-empty labels go
    out as a JSON array on GitHub and as one comma-joined string on GitLab. *)
Theorem optional_issue_fields (owner repo project_id title : string)
        (body : option string) (labels assignees : option (list string))
        (assignee_ids : option (list Z)) (log : list Request) :
  let hub := GitHub.create_issue_data title (arg "" body) labels assignees in
  let lab := GitLab.create_issue_data title (arg "" body) labels assignee_ids in
  snd (GitHub.create_issue hub_token srv owner repo title body labels assignees log)
  = (log ++ [mkRequest POST
               (GitHub.GITHUB_API_BASE ++ "/repos/" ++ owner ++ "/" ++ repo ++ "/issues")
               (GitHub.get_headers hub_token) None (Some (PDict hub))])%list
  /\ snd (GitLab.gitlab_create_issue lab_token lab_base srv project_id title body
            labels assignee_ids log)
     = (log ++ [mkRequest POST
                  (GitLab.GITLAB_API_BASE lab_base ++ "/projects/" ++ quote project_id ++ "/issues")
                  (GitLab.get_headers lab_token) None (Some (PDict lab))])%list
  /\ assoc "labels" hub
     = match labels with
       | Some (l :: ls) => Some (PList (List.map PStr (l :: ls)))
       | _ => None
       end
  /\ assoc "assignees" hub
     = match assignees with
       | Some (a :: others) => Some (PList (List.map PStr (a :: others)))
       | _ => None
       end
  /\ assoc "labels" lab
     = match labels with
       | Some (l :: ls) => Some (PStr (String.concat "," (l :: ls)))
       | _ => None
       end
  /\ assoc "assignee_ids" lab
     = match assignee_ids with
       | Some (a :: others) => Some (PList (List.map PInt (a :: others)))
       | _ => None
       end.
Proof.
  cbv zeta.
  split; [apply hub_create_issue_log |].
  split; [apply lab_create_issue_log |].
  unfold GitHub.create_issue_data, GitLab.create_issue_data.
  repeat split.
  - destruct labels as [[| l ls] |]; destruct assignees as [[| a os] |]; reflexivity.
  - destruct labels as [[| l ls] |]; destruct assignees as [[| a os] |]; reflexivity.
  - destruct labels as [[| l ls] |]; destruct assignee_ids as [[| a os] |]; reflexivity.
  - destruct labels as [[| l ls] |]; destruct assignee_ids as [[| a os] |]; reflexivity.
Qed.

End Posted.
End IssueCreation.

(* ================================================================== *)
(** * GitLab aliases *)
(* ================================================================== *)

Module Aliases.
Import Py Http.

(** C5.  Each generic GitLab tool name computes exactly what its prefixed
    counterpart computes on the same arguments, omitted ones included: same
    calls, same text, same exception if any, against every upstream. *)
Theorem alias_same_output (lab_token lab_base : option string) (srv : server)
        (b64_utf8 : string -> decoded)
        (project_id title file_path : string) (state description : option string)
        (per_page : option Z) (labels : option (list string))
        (assignee_ids : option (list Z)) (issue_iid : Z) (depth : nat)
        (branch : option value) (log : list Request) :
  GitLab.list_issues lab_token lab_base srv project_id state per_page log
  = GitLab.gitlab_list_issues lab_token lab_base srv project_id state per_page log
  /\ GitLab.create_issue lab_token lab_base srv project_id title description labels
       assignee_ids log
     = GitLab.gitlab_create_issue lab_token lab_base srv project_id title description labels
         assignee_ids log
  /\ GitLab.get_issue lab_token lab_base srv project_id issue_iid log
     = GitLab.gitlab_get_issue lab_token lab_base srv project_id issue_iid log
  /\ GitLab.get_file lab_token lab_base srv b64_utf8 depth project_id file_path branch log
     = GitLab.gitlab_get_file lab_token lab_base srv b64_utf8 depth project_id file_path
         branch log.
Proof.
  split; [reflexivity |].
  split; [reflexivity |].
  split; [reflexivity |].
  unfold GitLab.get_file. destruct depth; reflexivity.
Qed.

End Aliases.

(* ================================================================== *)
(** * Listing tools *)
(* ================================================================== *)

Module Listing.
Import Py Http ToolFacts.

(** A JSON object that carries an [error] text. *)
Definition error_envelope (out : tool_output) : Prop :=
  exists kvs msg, out = JsonText (PDict kvs) /\ assoc "error" kvs = Some (PStr msg).

(** Does a JSON object have this key? *)
Definition has_key (k : string) (item : value) : bool :=
  match item with
  | PDict kvs => match assoc k kvs with Some _ => true | None => false end
  | _ => false
  end.

Definition is_object (item : value) : Prop :=
  match item with
  | PDict _ => True
  | _ => False
  end.

Definition not_pull_request (item : value) : bool := negb (has_key "pull_request" item).

(** How a listing tool ends once the items are projected: the JSON text of
    the list, or the built-in exception a projection raised. *)
Definition deliver (r : result (list value)) : outcome tool_output :=
  match r with
  | Ok l => Return (JsonText (PList l))
  | Raise e => Throw (Builtin e)
  end.

Section Calls.
Variables (hub_token lab_token lab_base : option string).
Variable srv : server.

(** The listing call of each tool. *)
Definition hub_repositories_call (owner : string) (per_page : option Z) : Request :=
  mkRequest GET (GitHub.GITHUB_API_BASE ++ "/users/" ++ owner ++ "/repos")
    (GitHub.get_headers hub_token)
    (Some [("per_page", PInt (Z.min (arg 30 per_page) 100)); ("sort", PStr "updated")]) None.

Definition hub_issues_call (owner repo : string) (state : option string)
           (per_page : option Z) : Request :=
  mkRequest GET (GitHub.GITHUB_API_BASE ++ "/repos/" ++ owner ++ "/" ++ repo ++ "/issues")
    (GitHub.get_headers hub_token)
    (Some [ ("state", PStr (arg "open" state));
            ("per_page", PInt (Z.min (arg 30 per_page) 100));
            ("sort", PStr "updated") ]) None.

Definition hub_search_call (query : string) (sort order : option string)
           (per_page : option Z) : Request :=
  mkRequest GET (GitHub.GITHUB_API_BASE ++ "/search/repositories")
    (GitHub.get_headers hub_token)
    (Some [ ("q", PStr query); ("sort", PStr (arg "stars" sort));
            ("order", PStr (arg "desc" order));
            ("per_page", PInt (Z.min (arg 30 per_page) 100)) ]) None.

Definition lab_projects_call (per_page : option Z) : Request :=
  mkRequest GET (GitLab.GITLAB_API_BASE lab_base ++ "/projects")
    (GitLab.get_headers lab_token)
    (Some [ ("per_page", PInt (Z.min (arg 30 per_page) 100));
            ("order_by", PStr "last_activity_at"); ("sort", PStr "desc") ]) None.

Definition lab_issues_call (project_id : string) (state : option string)
           (per_page : option Z) : Request :=
  mkRequest GET (GitLab.GITLAB_API_BASE lab_base ++ "/projects/" ++ quote project_id ++ "/issues")
    (GitLab.get_headers lab_token)
    (Some [ ("state", PStr (arg "opened" state));
            ("per_page", PInt (Z.min (arg 30 per_page) 100));
            ("order_by", PStr "updated_at"); ("sort", PStr "desc") ]) None.

Definition lab_search_call (query : string) (order_by sort : option string)
           (per_page : option Z) : Request :=
  mkRequest GET (GitLab.GITLAB_API_BASE lab_base ++ "/projects")
    (GitLab.get_headers lab_token)
    (Some [ ("search", PStr query); ("order_by", PStr (arg "last_activity_at" order_by));
            ("sort", PStr (arg "desc" sort));
            ("per_page", PInt (Z.min (arg 30 per_page) 100)) ]) None.

Definition lab_merge_requests_call (project_id : string) (state : option string)
           (per_page : option Z) : Request :=
  mkRequest GET
    (GitLab.GITLAB_API_BASE lab_base ++ "/projects/" ++ quote project_id ++ "/merge_requests")
    (GitLab.get_headers lab_token)
    (Some [ ("state", PStr (arg "opened" state));
            ("per_page", PInt (Z.min (arg 30 per_page) 100));
            ("order_by", PStr "updated_at"); ("sort", PStr "desc") ]) None.

Definition lab_user_lookup_call (owner : string) : Request :=
  mkRequest GET (GitLab.GITLAB_API_BASE lab_base ++ "/users")
    (GitLab.get_headers lab_token) (Some [("username", PStr owner)]) None.

Definition lab_owner_projects_call (url : string) (per_page : option Z) : Request :=
  mkRequest GET url (GitLab.get_headers lab_token)
    (Some [ ("per_page", PInt (Z.min (arg 30 per_page) 100));
            ("order_by", PStr "last_activity_at"); ("sort", PStr "desc") ]) None.

(** C7 (as amended).  When the upstream answers the listing call with a
    status that [raise_for_status] rejects (400 to 599), every listing tool
    returns the plain text ["Error <doing>: <detail>"], where [<detail>] is
    the text of the HTTP error; the rejected call is the tool's last call
    (no retry) and no item is projected.  The text is not a JSON envelope.
    [list_projects] with an owner first looks the owner up: a rejected
    lookup ends the tool in the same way, and so does a rejected listing
    call after a successful lookup. *)
Theorem listing_http_error (resp : Response) (log : list Request)
        (owner repo query project_id : string) (state o1 o2 : option string)
        (per_page : option Z) :
  400 <= status_code resp < 600 ->
  exists detail,
    http_error resp = Some detail
    /\ (forall r, r = hub_repositories_call owner per_page -> srv log r = inr resp ->
        GitHub.list_repositories hub_token srv owner per_page log
        = (Return (PlainText ("Error fetching repositories: " ++ detail)), (log ++ [r])%list))
    /\ (forall r, r = hub_issues_call owner repo state per_page -> srv log r = inr resp ->
        GitHub.list_issues hub_token srv owner repo state per_page log
        = (Return (PlainText ("Error fetching issues: " ++ detail)), (log ++ [r])%list))
    /\ (forall r, r = hub_search_call query o1 o2 per_page -> srv log r = inr resp ->
        GitHub.search_repositories hub_token srv query o1 o2 per_page log
        = (Return (PlainText ("Error searching repositories: " ++ detail)), (log ++ [r])%list))
    /\ (forall r, r = lab_projects_call per_page -> srv log r = inr resp ->
        GitLab.list_projects lab_token lab_base srv None per_page log
        = (Return (PlainText ("Error fetching projects: " ++ detail)), (log ++ [r])%list))
    /\ (forall r, r = lab_issues_call project_id state per_page -> srv log r = inr resp ->
        GitLab.gitlab_list_issues lab_token lab_base srv project_id state per_page log
        = (Return (PlainText ("Error fetching issues: " ++ detail)), (log ++ [r])%list))
    /\ (forall r, r = lab_search_call query o1 o2 per_page -> srv log r = inr resp ->
        GitLab.search_projects lab_token lab_base srv query o1 o2 per_page log
        = (Return (PlainText ("Error searching projects: " ++ detail)), (log ++ [r])%list))
    /\ (forall r, r = lab_merge_requests_call project_id state per_page -> srv log r = inr resp ->
        GitLab.list_merge_requests lab_token lab_base srv project_id state per_page log
        = (Return (PlainText ("Error fetching merge requests: " ++ detail)), (log ++ [r])%list))
    /\ (forall lab_owner r, lab_owner <> "" -> r = lab_user_lookup_call lab_owner ->
        srv log r = inr resp ->
        GitLab.list_projects lab_token lab_base srv (Some lab_owner) per_page log
        = (Return (PlainText ("Error finding user/group: " ++ detail)), (log ++ [r])%list))
    /\ (forall lab_owner url looked_up r, lab_owner <> "" ->
        GitLab.resolve_owner lab_token lab_base srv lab_owner log = (Return (inl url), looked_up) ->
        r = lab_owner_projects_call url per_page -> srv looked_up r = inr resp ->
        GitLab.list_projects lab_token lab_base srv (Some lab_owner) per_page log
        = (Return (PlainText ("Error fetching projects: " ++ detail)), (looked_up ++ [r])%list)).
Proof.
  intros Hstatus.
  destruct (http_error_range resp Hstatus) as [detail Hdetail].
  exists detail. split; [exact Hdetail |].
  repeat match goal with |- _ /\ _ => split end;
    [intros r -> Hsrv .. | intros o r Ho -> Hsrv | intros o url log1 r Ho Hres -> Hsrv].
  - unfold GitHub.list_repositories, GitHub.get.
    now rewrite (one_call_http_error _ _ _ _ _ resp detail).
  - unfold GitHub.list_issues, GitHub.get.
    now rewrite (one_call_http_error _ _ _ _ _ resp detail).
  - unfold GitHub.search_repositories, GitHub.get.
    now rewrite (one_call_http_error _ _ _ _ _ resp detail).
  - unfold GitLab.list_projects, GitLab.get. cbv zeta. rewrite bind_run. cbv [ret].
    now rewrite (one_call_http_error _ _ _ _ _ resp detail).
  - unfold GitLab.gitlab_list_issues, GitLab.get.
    now rewrite (one_call_http_error _ _ _ _ _ resp detail).
  - unfold GitLab.search_projects, GitLab.get.
    now rewrite (one_call_http_error _ _ _ _ _ resp detail).
  - unfold GitLab.list_merge_requests, GitLab.get.
    now rewrite (one_call_http_error _ _ _ _ _ resp detail).
  - apply String.eqb_neq in Ho.
    unfold GitLab.list_projects. cbv zeta. rewrite bind_run, Ho. cbn [negb].
    unfold GitLab.resolve_owner, GitLab.get.
    now rewrite (one_call_http_error _ _ _ _ _ resp detail).
  - apply String.eqb_neq in Ho.
    unfold GitLab.list_projects. cbv zeta. rewrite bind_run, Ho. cbn [negb].
    rewrite Hres. unfold GitLab.get.
    now rewrite (one_call_http_error _ _ _ _ _ resp detail).
Qed.

Lemma issue_loop_filters (items : list value) :
  Forall is_object items ->
  GitHub.issue_loop items = rmap GitHub.issue_summary (filter not_pull_request items).
Proof.
  induction 1 as [| item items Hitem _ IH]; [reflexivity |].
  destruct item as [| | | | | kvs]; try contradiction.
  cbn [GitHub.issue_loop filter]. unfold not_pull_request, has_key, contains, rbind at 1.
  destruct (assoc "pull_request" kvs); cbn [negb].
  - exact IH.
  - cbn [rmap]. now rewrite IH.
Qed.

(** C4.  On an accepted answer whose body is a list of JSON objects, the
    GitHub issue listing projects exactly the items without a
    [pull_request] key, in upstream order, and leaves every item with that
    key out; the GitLab issue listing projects every item. *)
Theorem issue_listing_filter (resp : Response) (items : list value) (log : list Request)
        (owner repo project_id : string) (state : option string) (per_page : option Z) :
  http_error resp = None ->
  body resp = PList items ->
  Forall is_object items ->
  (srv log (hub_issues_call owner repo state per_page) = inr resp ->
   GitHub.list_issues hub_token srv owner repo state per_page log
   = (deliver (rmap GitHub.issue_summary (filter not_pull_request items)),
      (log ++ [hub_issues_call owner repo state per_page])%list))
  /\ (srv log (lab_issues_call project_id state per_page) = inr resp ->
      GitLab.gitlab_list_issues lab_token lab_base srv project_id state per_page log
      = (deliver (rmap GitLab.issue_summary items),
         (log ++ [lab_issues_call project_id state per_page])%list)).
Proof.
  intros Hok Hbody Hobjects. split; intros Hsrv.
  - unfold GitHub.list_issues, GitHub.get.
    rewrite (one_call_accepted _ _ _ _ _ resp) by assumption.
    rewrite finish_pure, Hbody. cbn [iter rbind].
    now rewrite issue_loop_filters.
  - unfold GitLab.gitlab_list_issues, GitLab.get.
    rewrite (one_call_accepted _ _ _ _ _ resp) by assumption.
    rewrite finish_pure, Hbody. reflexivity.
Qed.

End Calls.
End Listing.

(* ================================================================== *)
(** * Listing tools on stub forges *)
(* ================================================================== *)

Module ListingExamples.
Import Py Http ToolFacts Listing.

Definition server_error : Response :=
  mkResponse 500 "Internal Server Error" "https://forge.example/api" PNone.

(** A forge that answers every call with status 500. *)
Definition failing_forge : server := fun _ _ => inr server_error.

Definition server_error_text : string :=
  "500 Server Error: Internal Server Error for url: https://forge.example/api".

(** An item of an issue listing with the fields both forges' projections
    read; [pr] adds the [pull_request] key. *)
Definition sample_item (n : Z) (title : string) (pr : bool) : value :=
  PDict ([ ("number", PInt n); ("iid", PInt n); ("id", PInt (1000 + n));
           ("title", PStr title); ("state", PStr "open");
           ("user", PDict [("login", PStr "octo")]);
           ("author", PDict [("username", PStr "octo")]);
           ("created_at", PStr "2024-01-01T00:00:00Z");
           ("updated_at", PStr "2024-01-02T00:00:00Z");
           ("labels", PList []); ("assignees", PList []);
           ("comments", PInt 0); ("user_notes_count", PInt 0);
           ("web_url", PStr "https://forge.example/issue");
           ("body", PNone) ]
         ++ (if pr then [("pull_request", PDict [])] else []))%list.

Definition sample_items : list value :=
  [ sample_item 1 "first" false; sample_item 2 "a pull request" true;
    sample_item 3 "third" false; sample_item 4 "fourth" false ].

Definition issues_page : Response :=
  mkResponse 200 "OK" "https://forge.example/api" (PList sample_items).

(** A forge that answers every call with that page. *)
Definition issue_forge : server := fun _ _ => inr issues_page.

Definition hub_summary (n : Z) (title : string) : value :=
  PDict [ ("number", PInt n); ("title", PStr title); ("state", PStr "open");
          ("user", PStr "octo");
          ("created_at", PStr "2024-01-01T00:00:00Z");
          ("updated_at", PStr "2024-01-02T00:00:00Z");
          ("labels", PList []); ("assignees", PList []);
          ("comments", PInt 0); ("body", PNone) ].

(** C7 fails as stated: on status 500 [list_repositories] returns a plain
    text, which is not a JSON object with an [error] key. *)
Lemma listing_error_is_plain_text :
  exists out,
    fst (GitHub.list_repositories None failing_forge "octo" None []) = Return out
    /\ out = PlainText ("Error fetching repositories: " ++ server_error_text)
    /\ ~ error_envelope out.
Proof.
  eexists. split; [reflexivity |]. split; [reflexivity |].
  intros (kvs & msg & Heq & _). discriminate Heq.
Qed.

Lemma listing_http_error_on_500 :
  GitHub.list_repositories None failing_forge "octo" None []
  = (Return (PlainText ("Error fetching repositories: " ++ server_error_text)),
     [hub_repositories_call None "octo" None])
  /\ GitLab.list_merge_requests None None failing_forge "group/project" None None []
     = (Return (PlainText ("Error fetching merge requests: " ++ server_error_text)),
        [lab_merge_requests_call None None "group/project" None None]).
Proof.
  destruct (listing_http_error None None None failing_forge server_error []
              "octo" "demo" "query" "group/project" None None None None)
    as (detail & Hdetail & Hrepos & _ & _ & _ & _ & _ & Hmr & _).
  - simpl. lia.
  - assert (Hd : Some detail = Some server_error_text) by (rewrite <- Hdetail; reflexivity).
    injection Hd as ->.
    split.
    + exact (Hrepos _ eq_refl eq_refl).
    + exact (Hmr _ eq_refl eq_refl).
Defined.

Lemma issue_listing_on_sample :
  GitHub.list_issues None issue_forge "octo" "demo" (Some "open") None []
  = (Return (JsonText (PList [ hub_summary 1 "first"; hub_summary 3 "third";
                               hub_summary 4 "fourth" ])),
     [hub_issues_call None "octo" "demo" (Some "open") None])
  /\ exists projected,
       fst (GitLab.gitlab_list_issues None None issue_forge "group/project" None None [])
       = Return (JsonText (PList projected))
       /\ List.length projected = 4%nat.
Proof.
  destruct (issue_listing_filter None None None issue_forge issues_page sample_items []
              "octo" "demo" "group/project" (Some "open") None eq_refl eq_refl)
    as [Hhub _].
  - repeat constructor.
  - destruct (issue_listing_filter None None None issue_forge issues_page sample_items []
                "octo" "demo" "group/project" None None eq_refl eq_refl)
      as [_ Hlab].
    + repeat constructor.
    + split.
      * rewrite (Hhub eq_refl). reflexivity.
      * rewrite (Hlab eq_refl). eexists. split; reflexivity.
Defined.

End ListingExamples.

(* ================================================================== *)
(** * File fetch and its default-branch fallback *)
(* ================================================================== *)

Module FileFetch.
Import Py Http ToolFacts TextFacts.

(** The fallback is due when the requested branch is ["main"] and the first
    content request is answered with status 404. *)
Definition fires (branch : value) (first : string + Response) : Prop :=
  branch = PStr "main" /\ exists resp, first = inr resp /\ status_code resp = 404.

Definition answered_404 (answer : string + Response) : bool :=
  match answer with
  | inr resp => status_code resp =? 404
  | inl _ => false
  end.

Definition fallback_fires (branch : value) (first : string + Response) : bool :=
  eq_str branch "main" && answered_404 first.

(** The branch of the second content request, if the metadata answer leads
    to one: status 200 and a default branch other than ["main"]. *)
Definition retry_branch (metadata : string + Response) : option value :=
  match metadata with
  | inr resp =>
      if status_code resp =? 200 then
        match dict_get (body resp) "default_branch" (PStr "master") with
        | Ok default_branch =>
            if negb (eq_str default_branch "main") then Some default_branch else None
        | Raise _ => None
        end
      else None
  | inl _ => None
  end.

(** The calls of a log that go to a given URL. *)
Definition fetches (u : string) (calls : list Request) : nat :=
  List.length (filter (fun r => String.eqb (url r) u) calls).

Lemma eq_str_true (v : value) (s : string) : eq_str v s = true <-> v = PStr s.
Proof.
  destruct v; simpl; try (split; [discriminate | intros [=]]).
  rewrite String.eqb_eq. split; [now intros -> | now intros [= ->]].
Qed.

Lemma fallback_fires_spec (branch : value) (first : string + Response) :
  fallback_fires branch first = true <-> fires branch first.
Proof.
  unfold fallback_fires, fires. rewrite andb_true_iff, eq_str_true.
  split.
  - intros [Hb H404]. split; [exact Hb |].
    destruct first as [msg | resp]; [discriminate |].
    exists resp. split; [reflexivity | now apply Z.eqb_eq].
  - intros [Hb (resp & -> & H404)]. split; [exact Hb |]. now apply Z.eqb_eq.
Qed.

Lemma retry_branch_not_main (metadata : string + Response) (b : value) :
  retry_branch metadata = Some b -> eq_str b "main" = false.
Proof.
  unfold retry_branch. destruct metadata as [msg | resp]; [discriminate |].
  destruct (status_code resp =? 200); [| discriminate].
  destruct (dict_get _ _ _) as [db | e]; [| discriminate].
  destruct (eq_str db "main") eqn:Hdb; simpl; [discriminate |].
  now intros [= <-].
Qed.

Lemma longer_differs (s t : string) : t <> "" -> s <> s ++ t.
Proof.
  intros Ht E. apply (f_equal String.length) in E. rewrite length_app in E.
  destruct t; [now apply Ht | simpl in E; lia].
Qed.

Lemma app_cancel_l (p s t : string) : p ++ s = p ++ t -> s = t.
Proof. induction p as [| c p IH]; simpl; [auto | intros [= E]; auto]. Qed.

Section Fetch.
Variables (hub_token lab_token lab_base : option string).
Variable srv : server.
Variable b64_utf8 : string -> decoded.

(** ** GitHub *)

Definition hub_content_call (owner repo file_path : string) (branch : value) : Request :=
  mkRequest GET (GitHub.contents_url owner repo file_path) (GitHub.get_headers hub_token)
    (Some [("ref", branch)]) None.

Definition hub_metadata_call (owner repo : string) : Request :=
  mkRequest GET (GitHub.repo_url owner repo) (GitHub.get_headers hub_token) None None.

(** The calls [get_file] is expected to issue. *)
Definition hub_calls (owner repo file_path : string) (branch : value) (log : list Request)
  : list Request :=
  let c := hub_content_call owner repo file_path branch in
  if fallback_fires branch (srv log c) then
    let m := hub_metadata_call owner repo in
    c :: m :: match retry_branch (srv (log ++ [c])%list m) with
              | Some default_branch => [hub_content_call owner repo file_path default_branch]
              | None => []
              end
  else [c].

Lemma hub_urls_differ (owner repo file_path : string) :
  GitHub.repo_url owner repo <> GitHub.contents_url owner repo file_path.
Proof.
  unfold GitHub.repo_url, GitHub.contents_url. intros E.
  do 4 apply app_cancel_l in E.
  now apply (longer_differs repo ("/contents/" ++ file_path)) in E.
Qed.

Lemma hub_get_file_never_request d owner repo file_path branch log msg :
  fst (GitHub.get_file hub_token srv b64_utf8 d owner repo file_path branch log)
  <> Throw (RequestException msg).
Proof.
  destruct d; [discriminate |]. cbn [GitHub.get_file]. apply try_ret_never_request.
Qed.

Lemma hub_other_branch_log d owner repo file_path branch log :
  eq_str branch "main" = false ->
  snd (GitHub.get_file hub_token srv b64_utf8 (S d) owner repo file_path (Some branch) log)
  = (log ++ [hub_content_call owner repo file_path branch])%list.
Proof.
  intros Hb. cbn [GitHub.get_file arg]. unfold GitHub.get.
  apply one_call_log; [| quiet_tac].
  intros resp. rewrite Hb. quiet_tac.
Qed.

Lemma hub_get_file_log d owner repo file_path branch log :
  snd (GitHub.get_file hub_token srv b64_utf8 (S (S d)) owner repo file_path (Some branch) log)
  = (log ++ hub_calls owner repo file_path branch log)%list.
Proof.
  unfold hub_calls, fallback_fires.
  destruct (eq_str branch "main") eqn:Hb; cbn [andb].
  2:{ now apply hub_other_branch_log. }
  remember (S d) as d' eqn:Hd.
  cbn [GitHub.get_file arg]. rewrite Hb.
  unfold GitHub.get at 1. fold (hub_content_call owner repo file_path branch).
  unfold try_except at 1. rewrite bind_run. unfold call at 1.
  destruct (srv log (hub_content_call owner repo file_path branch)) as [msg | resp];
    cbn [answered_404].
  { reflexivity. }
  destruct (status_code resp =? 404) eqn:H404.
  2:{ set (k := bind _ _). assert (Hq : quiet k) by (subst k; quiet_tac).
      specialize (Hq (log ++ [hub_content_call owner repo file_path branch])%list).
      destruct (k _) as [[a | [e | e |]] log']; simpl in *; now subst. }
  rewrite bind_run. unfold try_except at 1. rewrite bind_run.
  unfold GitHub.get at 1. fold (hub_metadata_call owner repo). unfold call at 1.
  rewrite <- app_assoc. cbn [app].
  destruct (srv _ (hub_metadata_call owner repo)) as [msg | meta]; cbn [retry_branch].
  { reflexivity. }
  destruct (status_code meta =? 200).
  2:{ reflexivity. }
  rewrite bind_run. unfold lift at 1.
  destruct (dict_get (body meta) "default_branch" (PStr "master")) as [db | e].
  2:{ reflexivity. }
  destruct (eq_str db "main") eqn:Hdb; cbn [negb].
  { reflexivity. }
  rewrite bind_run.
  pose proof (hub_other_branch_log d owner repo file_path db
    (log ++ [hub_content_call owner repo file_path branch; hub_metadata_call owner repo])%list
    Hdb) as Hlog.
  pose proof (hub_get_file_never_request d' owner repo file_path (Some db)
    (log ++ [hub_content_call owner repo file_path branch; hub_metadata_call owner repo])%list)
    as Hnr.
  subst d'.
  destruct (GitHub.get_file _ _ _ _ _ _ _ _ _) as [[out | [msg | e |]] log'].
  - simpl in *. subst log'. now rewrite <- app_assoc.
  - now elim (Hnr msg).
  - simpl in *. subst log'. now rewrite <- app_assoc.
  - simpl in *. subst log'. now rewrite <- app_assoc.
Qed.

Lemma hub_calls_spec owner repo file_path branch log :
  let c := hub_content_call owner repo file_path branch in
  let m := hub_metadata_call owner repo in
  let calls := hub_calls owner repo file_path branch log in
  (In m calls <-> fires branch (srv log c))
  /\ (~ fires branch (srv log c) -> calls = [c])
  /\ (fetches (url c) calls <= 2)%nat.
Proof.
  cbv zeta. unfold hub_calls.
  rewrite <- fallback_fires_spec.
  destruct (fallback_fires branch _).
  - split; [split; [reflexivity | intros _; right; now left] |].
    split; [intros H; now elim H |].
    unfold fetches. cbn [filter url hub_content_call hub_metadata_call].
    rewrite String.eqb_refl.
    destruct (String.eqb_spec (GitHub.repo_url owner repo)
                (GitHub.contents_url owner repo file_path)) as [E | _];
      [now apply hub_urls_differ in E |].
    destruct (retry_branch _); cbn [filter url]; [rewrite String.eqb_refl |]; simpl; lia.
  - split; [split; [| discriminate] |].
    + intros [E | []]. discriminate E.
    + split; [reflexivity |].
      unfold fetches. cbn [filter url hub_content_call]. rewrite String.eqb_refl. simpl. lia.
Qed.

(** After the first content request there is at most one more, and only
    for another branch than ["main"] when ["main"] was asked for. *)
Lemma hub_calls_shape owner repo file_path branch log :
  exists rest,
    hub_calls owner repo file_path branch log
    = hub_content_call owner repo file_path branch :: rest
    /\ (fetches (GitHub.contents_url owner repo file_path) rest <= 1)%nat
    /\ forall r, In r rest -> url r = GitHub.contents_url owner repo file_path ->
         branch = PStr "main"
         /\ exists retried,
              r = hub_content_call owner repo file_path retried /\ retried <> PStr "main".
Proof.
  unfold hub_calls. destruct (fallback_fires branch _) eqn:Hf.
  2:{ exists []. split; [reflexivity |]. split; [unfold fetches; simpl; lia | intros r []]. }
  apply fallback_fires_spec in Hf. destruct Hf as [Hb _].
  eexists. split; [reflexivity |].
  assert (Hm : String.eqb (url (hub_metadata_call owner repo))
                 (GitHub.contents_url owner repo file_path) = false).
  { apply String.eqb_neq. apply hub_urls_differ. }
  destruct (retry_branch _) as [db |] eqn:Hdb.
  - split.
    + unfold fetches. cbn [filter]. rewrite Hm. cbn [url hub_content_call].
      rewrite String.eqb_refl. simpl. lia.
    + intros r [<- | [<- | []]] Hu.
      * now elim (hub_urls_differ owner repo file_path).
      * split; [exact Hb |]. exists db. split; [reflexivity |].
        apply retry_branch_not_main in Hdb. intros ->. discriminate Hdb.
  - split.
    + unfold fetches. cbn [filter]. rewrite Hm. simpl. lia.
    + intros r [<- | []] Hu. now elim (hub_urls_differ owner repo file_path).
Qed.

Lemma hub_other_branch_depth d owner repo file_path branch :
  eq_str branch "main" = false ->
  same (GitHub.get_file hub_token srv b64_utf8 (S d) owner repo file_path (Some branch))
       (GitHub.get_file hub_token srv b64_utf8 1 owner repo file_path (Some branch)).
Proof.
  intros Hb log. cbn [GitHub.get_file arg]. rewrite Hb. reflexivity.
Qed.

Lemma hub_other_branch_within d owner repo file_path branch :
  eq_str branch "main" = false ->
  within_depth (GitHub.get_file hub_token srv b64_utf8 (S d) owner repo file_path (Some branch)).
Proof.
  intros Hb. cbn [GitHub.get_file arg]. rewrite Hb. unfold GitHub.get.
  within_tac.
Qed.

Lemma hub_depth_two d owner repo file_path branch :
  same (GitHub.get_file hub_token srv b64_utf8 (S (S d)) owner repo file_path branch)
       (GitHub.get_file hub_token srv b64_utf8 2 owner repo file_path branch).
Proof.
  change 2%nat with (S 1). remember (S d) as d1 eqn:Hd1. remember 1%nat as d2 eqn:Hd2.
  cbn [GitHub.get_file].
  apply same_try, same_bind; [apply same_refl | intros resp].
  apply same_if; [| apply same_refl].
  apply same_bind; [| intros returned; apply same_refl].
  apply same_if; [| apply same_refl].
  apply same_try, same_bind; [apply same_refl | intros meta].
  apply same_if; [| apply same_refl].
  apply same_bind; [apply same_refl | intros db].
  destruct (eq_str db "main") eqn:Hdb; cbn [negb]; [apply same_refl |].
  apply same_bind; [| intros out; apply same_refl].
  subst d1 d2. now apply hub_other_branch_depth.
Qed.

Lemma hub_within_depth d owner repo file_path branch :
  within_depth (GitHub.get_file hub_token srv b64_utf8 (S (S d)) owner repo file_path branch).
Proof.
  remember (S d) as d1 eqn:Hd1. cbn [GitHub.get_file]. unfold GitHub.get.
  apply within_try; [| within_tac].
  apply within_bind; [apply within_call | intros resp].
  apply within_if; [| within_tac].
  apply within_bind; [| intros [out |]; apply within_ret].
  apply within_if; [| apply within_ret].
  apply within_try; [| within_tac].
  apply within_bind; [apply within_call | intros meta].
  apply within_if; [| apply within_ret].
  apply within_bind; [apply within_lift | intros db].
  destruct (eq_str db "main") eqn:Hdb; cbn [negb]; [apply within_ret |].
  apply within_bind; [| within_tac].
  subst d1. now apply hub_other_branch_within.
Qed.

(** ** GitLab *)

Definition lab_content_call (project_id file_path : string) (branch : value) : Request :=
  mkRequest GET (GitLab.files_url lab_base project_id file_path) (GitLab.get_headers lab_token)
    (Some [("ref", branch)]) None.

Definition lab_metadata_call (project_id : string) : Request :=
  mkRequest GET (GitLab.project_url lab_base project_id) (GitLab.get_headers lab_token) None None.

(** The calls [gitlab_get_file] is expected to issue. *)
Definition lab_calls (project_id file_path : string) (branch : value) (log : list Request)
  : list Request :=
  let c := lab_content_call project_id file_path branch in
  if fallback_fires branch (srv log c) then
    let m := lab_metadata_call project_id in
    c :: m :: match retry_branch (srv (log ++ [c])%list m) with
              | Some default_branch => [lab_content_call project_id file_path default_branch]
              | None => []
              end
  else [c].

Lemma lab_urls_differ (project_id file_path : string) :
  GitLab.project_url lab_base project_id <> GitLab.files_url lab_base project_id file_path.
Proof.
  unfold GitLab.project_url, GitLab.files_url. intros E.
  do 2 apply app_cancel_l in E.
  now apply (longer_differs (quote project_id) ("/repository/files/" ++ quote file_path)) in E.
Qed.

Lemma lab_get_file_never_request d project_id file_path branch log msg :
  fst (GitLab.gitlab_get_file lab_token lab_base srv b64_utf8 d project_id file_path branch log)
  <> Throw (RequestException msg).
Proof.
  destruct d; [discriminate |]. cbn [GitLab.gitlab_get_file]. apply try_ret_never_request.
Qed.

Lemma lab_other_branch_log d project_id file_path branch log :
  eq_str branch "main" = false ->
  snd (GitLab.gitlab_get_file lab_token lab_base srv b64_utf8 (S d) project_id file_path (Some branch) log)
  = (log ++ [lab_content_call project_id file_path branch])%list.
Proof.
  intros Hb. cbn [GitLab.gitlab_get_file arg]. unfold GitLab.get.
  apply one_call_log; [| quiet_tac].
  intros resp. rewrite Hb. quiet_tac.
Qed.

Lemma lab_get_file_log d project_id file_path branch log :
  snd (GitLab.gitlab_get_file lab_token lab_base srv b64_utf8 (S (S d)) project_id file_path (Some branch) log)
  = (log ++ lab_calls project_id file_path branch log)%list.
Proof.
  unfold lab_calls, fallback_fires.
  destruct (eq_str branch "main") eqn:Hb; cbn [andb].
  2:{ now apply lab_other_branch_log. }
  remember (S d) as d' eqn:Hd.
  cbn [GitLab.gitlab_get_file arg]. rewrite Hb.
  unfold GitLab.get at 1. fold (lab_content_call project_id file_path branch).
  unfold try_except at 1. rewrite bind_run. unfold call at 1.
  destruct (srv log (lab_content_call project_id file_path branch)) as [msg | resp];
    cbn [answered_404].
  { reflexivity. }
  destruct (status_code resp =? 404) eqn:H404.
  2:{ set (k := bind _ _). assert (Hq : quiet k) by (subst k; quiet_tac).
      specialize (Hq (log ++ [lab_content_call project_id file_path branch])%list).
      destruct (k _) as [[a | [e | e |]] log']; simpl in *; now subst. }
  rewrite bind_run. unfold try_except at 1. rewrite bind_run.
  unfold GitLab.get at 1. fold (lab_metadata_call project_id). unfold call at 1.
  rewrite <- app_assoc. cbn [app].
  destruct (srv _ (lab_metadata_call project_id)) as [msg | meta]; cbn [retry_branch].
  { reflexivity. }
  destruct (status_code meta =? 200).
  2:{ reflexivity. }
  rewrite bind_run. unfold lift at 1.
  destruct (dict_get (body meta) "default_branch" (PStr "master")) as [db | e].
  2:{ reflexivity. }
  destruct (eq_str db "main") eqn:Hdb; cbn [negb].
  { reflexivity. }
  rewrite bind_run.
  pose proof (lab_other_branch_log d project_id file_path db
    (log ++ [lab_content_call project_id file_path branch; lab_metadata_call project_id])%list
    Hdb) as Hlog.
  pose proof (lab_get_file_never_request d' project_id file_path (Some db)
    (log ++ [lab_content_call project_id file_path branch; lab_metadata_call project_id])%list)
    as Hnr.
  subst d'.
  destruct (GitLab.gitlab_get_file _ _ _ _ _ _ _ _ _) as [[out | [msg | e |]] log'].
  - simpl in *. subst log'. now rewrite <- app_assoc.
  - now elim (Hnr msg).
  - simpl in *. subst log'. now rewrite <- app_assoc.
  - simpl in *. subst log'. now rewrite <- app_assoc.
Qed.

Lemma lab_calls_spec project_id file_path branch log :
  let c := lab_content_call project_id file_path branch in
  let m := lab_metadata_call project_id in
  let calls := lab_calls project_id file_path branch log in
  (In m calls <-> fires branch (srv log c))
  /\ (~ fires branch (srv log c) -> calls = [c])
  /\ (fetches (url c) calls <= 2)%nat.
Proof.
  cbv zeta. unfold lab_calls.
  rewrite <- fallback_fires_spec.
  destruct (fallback_fires branch _).
  - split; [split; [reflexivity | intros _; right; now left] |].
    split; [intros H; now elim H |].
    unfold fetches. cbn [filter url lab_content_call lab_metadata_call].
    rewrite String.eqb_refl.
    destruct (String.eqb_spec (GitLab.project_url lab_base project_id)
                (GitLab.files_url lab_base project_id file_path)) as [E | _];
      [now apply lab_urls_differ in E |].
    destruct (retry_branch _); cbn [filter url]; [rewrite String.eqb_refl |]; simpl; lia.
  - split; [split; [| discriminate] |].
    + intros [E | []]. discriminate E.
    + split; [reflexivity |].
      unfold fetches. cbn [filter url lab_content_call]. rewrite String.eqb_refl. simpl. lia.
Qed.

Lemma lab_calls_shape project_id file_path branch log :
  exists rest,
    lab_calls project_id file_path branch log
    = lab_content_call project_id file_path branch :: rest
    /\ (fetches (GitLab.files_url lab_base project_id file_path) rest <= 1)%nat
    /\ forall r, In r rest -> url r = GitLab.files_url lab_base project_id file_path ->
         branch = PStr "main"
         /\ exists retried,
              r = lab_content_call project_id file_path retried /\ retried <> PStr "main".
Proof.
  unfold lab_calls. destruct (fallback_fires branch _) eqn:Hf.
  2:{ exists []. split; [reflexivity |]. split; [unfold fetches; simpl; lia | intros r []]. }
  apply fallback_fires_spec in Hf. destruct Hf as [Hb _].
  eexists. split; [reflexivity |].
  assert (Hm : String.eqb (url (lab_metadata_call project_id))
                 (GitLab.files_url lab_base project_id file_path) = false).
  { apply String.eqb_neq. apply lab_urls_differ. }
  destruct (retry_branch _) as [db |] eqn:Hdb.
  - split.
    + unfold fetches. cbn [filter]. rewrite Hm. cbn [url lab_content_call].
      rewrite String.eqb_refl. simpl. lia.
    + intros r [<- | [<- | []]] Hu.
      * now elim (lab_urls_differ project_id file_path).
      * split; [exact Hb |]. exists db. split; [reflexivity |].
        apply retry_branch_not_main in Hdb. intros ->. discriminate Hdb.
  - split.
    + unfold fetches. cbn [filter]. rewrite Hm. simpl. lia.
    + intros r [<- | []] Hu. now elim (lab_urls_differ project_id file_path).
Qed.

Lemma lab_other_branch_depth d project_id file_path branch :
  eq_str branch "main" = false ->
  same (GitLab.gitlab_get_file lab_token lab_base srv b64_utf8 (S d) project_id file_path (Some branch))
       (GitLab.gitlab_get_file lab_token lab_base srv b64_utf8 1 project_id file_path (Some branch)).
Proof.
  intros Hb log. cbn [GitLab.gitlab_get_file arg]. rewrite Hb. reflexivity.
Qed.

Lemma lab_other_branch_within d project_id file_path branch :
  eq_str branch "main" = false ->
  within_depth (GitLab.gitlab_get_file lab_token lab_base srv b64_utf8 (S d) project_id file_path (Some branch)).
Proof.
  intros Hb. cbn [GitLab.gitlab_get_file arg]. rewrite Hb. unfold GitLab.get.
  within_tac.
Qed.

Lemma lab_depth_two d project_id file_path branch :
  same (GitLab.gitlab_get_file lab_token lab_base srv b64_utf8 (S (S d)) project_id file_path branch)
       (GitLab.gitlab_get_file lab_token lab_base srv b64_utf8 2 project_id file_path branch).
Proof.
  change 2%nat with (S 1). remember (S d) as d1 eqn:Hd1. remember 1%nat as d2 eqn:Hd2.
  cbn [GitLab.gitlab_get_file].
  apply same_try, same_bind; [apply same_refl | intros resp].
  apply same_if; [| apply same_refl].
  apply same_bind; [| intros returned; apply same_refl].
  apply same_if; [| apply same_refl].
  apply same_try, same_bind; [apply same_refl | intros meta].
  apply same_if; [| apply same_refl].
  apply same_bind; [apply same_refl | intros db].
  destruct (eq_str db "main") eqn:Hdb; cbn [negb]; [apply same_refl |].
  apply same_bind; [| intros out; apply same_refl].
  subst d1 d2. now apply lab_other_branch_depth.
Qed.

Lemma lab_within_depth d project_id file_path branch :
  within_depth (GitLab.gitlab_get_file lab_token lab_base srv b64_utf8 (S (S d)) project_id file_path branch).
Proof.
  remember (S d) as d1 eqn:Hd1. cbn [GitLab.gitlab_get_file]. unfold GitLab.get.
  apply within_try; [| within_tac].
  apply within_bind; [apply within_call | intros resp].
  apply within_if; [| within_tac].
  apply within_bind; [| intros [out |]; apply within_ret].
  apply within_if; [| apply within_ret].
  apply within_try; [| within_tac].
  apply within_bind; [apply within_call | intros meta].
  apply within_if; [| apply within_ret].
  apply within_bind; [apply within_lift | intros db].
  destruct (eq_str db "main") eqn:Hdb; cbn [negb]; [apply within_ret |].
  apply within_bind; [| within_tac].
  subst d1. now apply lab_other_branch_within.
Qed.

(** ** The two claims *)

(** C1.  With room for one nested call, the calls of the file-fetch tools
    are exactly: the content request; then, if and only if the requested
    branch is ["main"] and that request was answered with 404, the metadata
    lookup, followed by a second content request when the lookup yields a
    default branch other than ["main"].  When the branch is not ["main"], or
    the first request fails at transport level or gets any status other than
    404, the content request is the only call. *)
Theorem fallback_exactly_on_main_404 (d : nat) (owner repo project_id file_path : string)
        (branch : option value) (log : list Request) :
  let b := arg (PStr "main") branch in
  let hub_c := hub_content_call owner repo file_path b in
  let lab_c := lab_content_call project_id file_path b in
  let hub := hub_calls owner repo file_path b log in
  let lab := lab_calls project_id file_path b log in
  (snd (GitHub.get_file hub_token srv b64_utf8 (S (S d)) owner repo file_path branch log)
   = (log ++ hub)%list
   /\ (In (hub_metadata_call owner repo) hub <-> fires b (srv log hub_c))
   /\ (~ fires b (srv log hub_c) -> hub = [hub_c]))
  /\ (snd (GitLab.gitlab_get_file lab_token lab_base srv b64_utf8 (S (S d)) project_id
             file_path branch log)
      = (log ++ lab)%list
      /\ (In (lab_metadata_call project_id) lab <-> fires b (srv log lab_c))
      /\ (~ fires b (srv log lab_c) -> lab = [lab_c])).
Proof.
  cbv zeta. split.
  - split.
    + rewrite <- (hub_get_file_log d). now destruct branch.
    + pose proof (hub_calls_spec owner repo file_path (arg (PStr "main") branch) log) as H.
      cbv zeta in H. tauto.
  - split.
    + rewrite <- (lab_get_file_log d). now destruct branch.
    + pose proof (lab_calls_spec project_id file_path (arg (PStr "main") branch) log) as H.
      cbv zeta in H. tauto.
Qed.

(** C9.  The self-call of the file-fetch tools nests at most once, so the
    tools end on every input: with room for one nested call they never run
    out of depth, and more room changes nothing.  The calls they issue start
    with the content request for the requested branch; among the calls after
    it at most one more goes to the content URL, and such a call occurs only
    when the requested branch is ["main"] and asks for a branch other than
    ["main"].  So there is no third content fetch, also when the second one
    is answered with 404. *)
Theorem one_retry_at_most (d : nat) (owner repo project_id file_path : string)
        (branch : option value) (log : list Request) :
  let b := arg (PStr "main") branch in
  (GitHub.get_file hub_token srv b64_utf8 (S (S d)) owner repo file_path branch log
   = GitHub.get_file hub_token srv b64_utf8 2 owner repo file_path branch log
   /\ fst (GitHub.get_file hub_token srv b64_utf8 2 owner repo file_path branch log)
      <> Throw RecursionError
   /\ exists rest,
        snd (GitHub.get_file hub_token srv b64_utf8 2 owner repo file_path branch log)
        = (log ++ hub_content_call owner repo file_path b :: rest)%list
        /\ (fetches (GitHub.contents_url owner repo file_path) rest <= 1)%nat
        /\ forall r, In r rest -> url r = GitHub.contents_url owner repo file_path ->
             b = PStr "main"
             /\ exists retried,
                  r = hub_content_call owner repo file_path retried
                  /\ retried <> PStr "main")
  /\ (GitLab.gitlab_get_file lab_token lab_base srv b64_utf8 (S (S d)) project_id file_path
        branch log
      = GitLab.gitlab_get_file lab_token lab_base srv b64_utf8 2 project_id file_path branch log
      /\ fst (GitLab.gitlab_get_file lab_token lab_base srv b64_utf8 2 project_id file_path
                branch log)
         <> Throw RecursionError
      /\ exists rest,
           snd (GitLab.gitlab_get_file lab_token lab_base srv b64_utf8 2 project_id file_path
                  branch log)
           = (log ++ lab_content_call project_id file_path b :: rest)%list
           /\ (fetches (GitLab.files_url lab_base project_id file_path) rest <= 1)%nat
           /\ forall r, In r rest -> url r = GitLab.files_url lab_base project_id file_path ->
                b = PStr "main"
                /\ exists retried,
                     r = lab_content_call project_id file_path retried
                     /\ retried <> PStr "main").
Proof.
  cbv zeta. split.
  - split; [apply hub_depth_two |]. split; [apply (hub_within_depth 0) |].
    destruct (hub_calls_shape owner repo file_path (arg (PStr "main") branch) log)
      as (rest & E & Hn & Hr).
    exists rest. split; [| split; assumption].
    rewrite <- E, <- (hub_get_file_log 0). now destruct branch.
  - split; [apply lab_depth_two |]. split; [apply (lab_within_depth 0) |].
    destruct (lab_calls_shape project_id file_path (arg (PStr "main") branch) log)
      as (rest & E & Hn & Hr).
    exists rest. split; [| split; assumption].
    rewrite <- E, <- (lab_get_file_log 0). now destruct branch.
Qed.

End Fetch.
End FileFetch.

(* ================================================================== *)
(** * Stable insertion sort *)
(* ================================================================== *)

Module SortFacts.
Import PySort.

Section Generic.
Context {K A : Type}.
Variable lt : K -> K -> bool.
Hypothesis lt_asym : forall a b, lt a b = true -> lt b a = false.
Hypothesis le_trans : forall a b c, lt b a = false -> lt c b = false -> lt c a = false.

(** [p] may stand before [q]. *)
Definition before (p q : K * A) : Prop := lt (fst q) (fst p) = false.

Lemma insert_perm (x : K * A) (l : list (K * A)) : Permutation (x :: l) (insert lt x l).
Proof.
  induction l as [| y ys IH]; simpl; [reflexivity |].
  destruct (lt (fst y) (fst x)); [| reflexivity].
  rewrite perm_swap. now apply perm_skip.
Qed.

Lemma sort_perm (l : list (K * A)) : Permutation l (sort lt l).
Proof.
  induction l as [| x xs IH]; simpl; [reflexivity |].
  rewrite <- insert_perm. now apply perm_skip.
Qed.

Lemma insert_sorted (x : K * A) (l : list (K * A)) :
  StronglySorted before l -> StronglySorted before (insert lt x l).
Proof.
  induction 1 as [| y ys Hys IH Hy]; simpl.
  - repeat constructor.
  - destruct (lt (fst y) (fst x)) eqn:Hyx.
    + constructor; [exact IH |].
      apply (Permutation_Forall (insert_perm x ys)).
      constructor; [| exact Hy].
      unfold before. now apply lt_asym.
    + constructor; [now constructor |].
      constructor; [exact Hyx |].
      eapply Forall_impl; [| exact Hy].
      intros z Hz. unfold before in *. now apply (le_trans _ (fst y)).
Qed.

Lemma sort_sorted (l : list (K * A)) : StronglySorted before (sort lt l).
Proof.
  induction l as [| x xs IH]; simpl; [constructor | now apply insert_sorted].
Qed.

Lemma sort_of_sorted (l : list (K * A)) : StronglySorted before l -> sort lt l = l.
Proof.
  induction 1 as [| x xs Hxs IH Hx]; simpl; [reflexivity |].
  rewrite IH. destruct xs as [| y ys]; simpl; [reflexivity |].
  inversion Hx as [| ? ? Hxy _]; subst. unfold before in Hxy. now rewrite Hxy.
Qed.

Lemma sort_idempotent (l : list (K * A)) : sort lt (sort lt l) = sort lt l.
Proof. apply sort_of_sorted, sort_sorted. Qed.

End Generic.

Lemma sorted_positions {X : Type} (R : X -> X -> Prop) (l : list X) :
  StronglySorted R l ->
  forall i j x y, (i < j)%nat -> nth_error l i = Some x -> nth_error l j = Some y -> R x y.
Proof.
  induction 1 as [| z zs Hzs IH Hz]; intros i j x y Hij Hi Hj.
  - destruct i; discriminate.
  - destruct j as [| j]; [lia |]. simpl in Hj.
    destruct i as [| i]; simpl in Hi.
    + injection Hi as <-. rewrite Forall_forall in Hz. apply Hz.
      eapply nth_error_In; eassumption.
    + apply (IH i j); [lia | assumption | assumption].
Qed.

Lemma sorted_map {X Y : Type} (f : X -> Y) (R : Y -> Y -> Prop) (l : list X) :
  StronglySorted (fun a b => R (f a) (f b)) l -> StronglySorted R (List.map f l).
Proof.
  induction 1 as [| x xs Hxs IH Hx]; simpl; constructor; [exact IH |].
  rewrite Forall_map. exact Hx.
Qed.

(** ** The order on keys *)

Lemma compare_refl (s : string) : String.compare s s = Eq.
Proof.
  pose proof (String.compare_antisym s s) as H.
  destruct (String.compare s s); simpl in H; congruence.
Qed.

Lemma ltb_lt (s t : string) : String.ltb s t = true <-> String_as_OT.lt s t.
Proof.
  unfold String.ltb. rewrite <- String_as_OT.cmp_lt. unfold String_as_OT.cmp.
  destruct (String.compare s t); split; congruence.
Qed.

Lemma ltb_irrefl (s : string) : String.ltb s s = false.
Proof. unfold String.ltb. now rewrite compare_refl. Qed.

Lemma ltb_asym (s t : string) : String.ltb s t = true -> String.ltb t s = false.
Proof.
  unfold String.ltb. rewrite (String.compare_antisym t s).
  destruct (String.compare s t); simpl; congruence.
Qed.

Lemma ltb_trans (s t u : string) :
  String.ltb s t = true -> String.ltb t u = true -> String.ltb s u = true.
Proof. rewrite !ltb_lt. apply String_as_OT.lt_trans. Qed.

Lemma ltb_connected (s t : string) :
  String.ltb s t = false -> String.ltb t s = false -> s = t.
Proof.
  unfold String.ltb. rewrite (String.compare_antisym t s).
  destruct (String.compare s t) eqn:E; simpl; try congruence.
  intros _ _. now apply String.compare_eq_iff.
Qed.

Lemma leb_trans_neg (a b c : string) :
  String.ltb b a = false -> String.ltb c b = false -> String.ltb c a = false.
Proof.
  intros Hba Hcb. destruct (String.ltb c a) eqn:Hca; [| reflexivity].
  destruct (String.ltb a b) eqn:Hab.
  - now rewrite (ltb_trans c a b) in Hcb.
  - assert (a = b) by now apply ltb_connected. subst. congruence.
Qed.

Lemma key_lt_irrefl (a : bool * string) : key_lt a a = false.
Proof. unfold key_lt. rewrite Bool.eqb_reflx. apply ltb_irrefl. Qed.

Lemma key_lt_asym (a b : bool * string) : key_lt a b = true -> key_lt b a = false.
Proof.
  destruct a as [[|] s], b as [[|] t]; unfold key_lt; simpl; auto using ltb_asym.
Qed.

Lemma key_le_trans (a b c : bool * string) :
  key_lt b a = false -> key_lt c b = false -> key_lt c a = false.
Proof.
  destruct a as [[|] s], b as [[|] t], c as [[|] u]; unfold key_lt; simpl;
    try congruence; apply leb_trans_neg.
Qed.

Lemma key_le_total (a b : bool * string) : key_lt a b = false \/ key_lt b a = false.
Proof.
  destruct (key_lt a b) eqn:E; [right; now apply key_lt_asym | now left].
Qed.

Lemma key_equal_iff (a b : bool * string) :
  key_lt a b = false /\ key_lt b a = false <-> a = b.
Proof.
  split.
  - destruct a as [[|] s], b as [[|] t]; unfold key_lt; simpl; intros [H1 H2];
      try congruence; f_equal; now apply ltb_connected.
  - intros ->. split; apply key_lt_irrefl.
Qed.

End SortFacts.

(* ================================================================== *)
(** * Directory listings *)
(* ================================================================== *)

Module DirectorySort.
Import Py PySort SortFacts.

(** An entry as the listing tools build it: a dict with a [type] and a
    string [name]. *)
Definition listed (x : value) : Prop :=
  exists ty nm, getitem x "type" = Ok ty /\ getitem x "name" = Ok (PStr nm).

(** Is the entry of the directory kind (["dir"] on GitHub, ["tree"] on
    GitLab)? *)
Definition is_directory (dirname : string) (x : value) : bool :=
  match getitem x "type" with
  | Ok ty => eq_str ty dirname
  | Raise _ => false
  end.

(** The name of the entry, lowercased. *)
Definition lowered_name (x : value) : string :=
  match getitem x "name" with
  | Ok (PStr nm) => lower nm
  | _ => ""
  end.

(** The sort key of an entry. *)
Definition key_of (dirname : string) (x : value) : bool * string :=
  (negb (is_directory dirname x), lowered_name x).

(** [x] may stand before [y] in a sorted listing. *)
Definition entry_le (dirname : string) (x y : value) : Prop :=
  key_lt (key_of dirname y) (key_of dirname x) = false.

Definition decorate (dirname : string) (items : list value) : list ((bool * string) * value) :=
  List.map (fun x => (key_of dirname x, x)) items.

Definition sorted_listing (dirname : string) (items : list value) : list value :=
  List.map snd (sort key_lt (decorate dirname items)).

Section Order.
Variable dirname : string.

Lemma entry_key_listed (x : value) :
  listed x -> entry_key dirname x = Ok (key_of dirname x).
Proof.
  intros (ty & nm & Hty & Hnm).
  unfold entry_key, key_of, is_directory, lowered_name. now rewrite Hty, Hnm.
Qed.

Lemma decorate_ok (items : list value) :
  Forall listed items ->
  rmap (fun x => rbind (entry_key dirname x) (fun k => Ok (k, x))) items
  = Ok (decorate dirname items).
Proof.
  induction 1 as [| x xs Hx _ IH]; [reflexivity |].
  cbn [rmap]. rewrite (entry_key_listed x Hx), IH. reflexivity.
Qed.

Lemma sort_by_key_listed (items : list value) :
  Forall listed items ->
  sort_by_key (entry_key dirname) items = Ok (sorted_listing dirname items).
Proof.
  intros H. unfold sort_by_key. now rewrite decorate_ok.
Qed.

Lemma undecorate (items : list value) : List.map snd (decorate dirname items) = items.
Proof.
  unfold decorate. rewrite map_map. simpl. apply map_id.
Qed.

Lemma sorted_listing_perm (items : list value) :
  Permutation items (sorted_listing dirname items).
Proof.
  unfold sorted_listing. rewrite <- (undecorate items) at 1.
  apply Permutation_map, sort_perm.
Qed.

(** Every pair of a decorated list carries the key of its entry. *)
Definition keyed (p : (bool * string) * value) : Prop := fst p = key_of dirname (snd p).

Lemma decorate_keyed (items : list value) : Forall keyed (decorate dirname items).
Proof.
  unfold decorate. rewrite Forall_map. apply Forall_forall. now intros x _.
Qed.

Lemma redecorate (l : list ((bool * string) * value)) :
  Forall keyed l -> decorate dirname (List.map snd l) = l.
Proof.
  induction 1 as [| [k x] l Hk _ IH]; [reflexivity |].
  unfold keyed in Hk. simpl in *. now rewrite IH, Hk.
Qed.

Lemma sorted_keyed (items : list value) :
  Forall keyed (sort key_lt (decorate dirname items)).
Proof.
  apply (Permutation_Forall (sort_perm key_lt _)), decorate_keyed.
Qed.

Lemma sorted_listing_idempotent (items : list value) :
  sorted_listing dirname (sorted_listing dirname items) = sorted_listing dirname items.
Proof.
  unfold sorted_listing at 1 2.
  rewrite redecorate by apply sorted_keyed.
  rewrite (sort_idempotent key_lt key_lt_asym key_le_trans). reflexivity.
Qed.

Lemma sorted_listing_sorted (items : list value) :
  StronglySorted (entry_le dirname) (sorted_listing dirname items).
Proof.
  unfold sorted_listing. apply sorted_map.
  pose proof (sort_sorted key_lt key_lt_asym key_le_trans (decorate dirname items)) as Hs.
  pose proof (sorted_keyed items) as Hk.
  induction Hs as [| p l Hl IH Hp]; [constructor |].
  inversion Hk as [| ? ? Hkp Hkl]; subst.
  constructor; [now apply IH |].
  rewrite Forall_forall in *. intros q Hq.
  unfold entry_le. rewrite <- Hkp, <- (Hkl q Hq). now apply Hp.
Qed.

Lemma entry_le_total (x y : value) : entry_le dirname x y \/ entry_le dirname y x.
Proof. unfold entry_le. destruct (key_le_total (key_of dirname y) (key_of dirname x)); auto. Qed.

Lemma entry_le_trans (x y z : value) :
  entry_le dirname x y -> entry_le dirname y z -> entry_le dirname x z.
Proof. unfold entry_le. intros Hxy Hyz. now apply (key_le_trans _ (key_of dirname y)). Qed.

Lemma entry_le_both_ways (x y : value) :
  entry_le dirname x y /\ entry_le dirname y x
  <-> is_directory dirname x = is_directory dirname y /\ lowered_name x = lowered_name y.
Proof.
  unfold entry_le. rewrite (and_comm (key_lt _ _ = false)), key_equal_iff. unfold key_of.
  split.
  - intros [= H1 H2]. split; [| exact H2].
    destruct (is_directory dirname x), (is_directory dirname y); simpl in H1; congruence.
  - intros [-> ->]. reflexivity.
Qed.

Lemma not_ltb_leb (s t : string) : String.ltb t s = false -> String.leb s t = true.
Proof.
  unfold String.ltb, String.leb. rewrite (String.compare_antisym t s).
  destruct (String.compare s t); simpl; congruence.
Qed.

(** C3 (as amended).  The order the listings are sorted by is a total
    preorder on entries -- total and transitive, two entries being
    equivalent exactly when both or neither are of the directory kind and
    their names are equal without regard to case.  Sorting a list of entries
    succeeds, permutes it, and is idempotent; in the result every entry of
    the directory kind stands before every other entry, and entries of the
    same kind are in ascending order of their lowercased names. *)
Theorem directory_order (items : list value) :
  Forall listed items ->
  exists out,
    sort_by_key (entry_key dirname) items = Ok out
    /\ Permutation items out
    /\ sort_by_key (entry_key dirname) out = Ok out
    /\ (forall i j d f,
           nth_error out i = Some d -> nth_error out j = Some f ->
           is_directory dirname d = true -> is_directory dirname f = false ->
           (i < j)%nat)
    /\ (forall i j x y,
           (i < j)%nat -> nth_error out i = Some x -> nth_error out j = Some y ->
           is_directory dirname x = is_directory dirname y ->
           String.leb (lowered_name x) (lowered_name y) = true)
    /\ (forall x y, entry_le dirname x y \/ entry_le dirname y x)
    /\ (forall x y z, entry_le dirname x y -> entry_le dirname y z -> entry_le dirname x z)
    /\ (forall x y,
           entry_le dirname x y /\ entry_le dirname y x
           <-> is_directory dirname x = is_directory dirname y
               /\ lowered_name x = lowered_name y).
Proof.
  intros Hitems. exists (sorted_listing dirname items).
  pose proof (sorted_listing_sorted items) as Hsorted.
  pose proof (sorted_positions _ _ Hsorted) as Hpos.
  split; [now apply sort_by_key_listed |].
  split; [apply sorted_listing_perm |].
  split.
  { rewrite sort_by_key_listed.
    - now rewrite sorted_listing_idempotent.
    - apply (Permutation_Forall (sorted_listing_perm items) Hitems). }
  split.
  { intros i j d f Hd Hf Hdir Hfile.
    destruct (Nat.lt_trichotomy i j) as [Hlt | [Heq | Hgt]]; [exact Hlt | |].
    - subst j. rewrite Hd in Hf. injection Hf as ->. congruence.
    - specialize (Hpos j i f d Hgt Hf Hd).
      unfold entry_le, key_of, key_lt in Hpos. rewrite Hdir, Hfile in Hpos.
      simpl in Hpos. discriminate. }
  split.
  { intros i j x y Hij Hx Hy Hkind.
    specialize (Hpos i j x y Hij Hx Hy).
    unfold entry_le, key_of, key_lt in Hpos. rewrite Hkind in Hpos. simpl in Hpos.
    rewrite Bool.eqb_reflx in Hpos. now apply not_ltb_leb. }
  split; [apply entry_le_total |].
  split; [apply entry_le_trans | apply entry_le_both_ways].
Qed.

End Order.

(** ** The listing tools deliver the sorted entries *)

Section Tools.
Import Http ToolFacts.
Variables (hub_token lab_token lab_base : option string).
Variable srv : server.

Definition hub_contents_call (owner repo path branch : string) : Request :=
  mkRequest GET
    (GitHub.GITHUB_API_BASE ++ "/repos/" ++ owner ++ "/" ++ repo ++ "/contents/" ++ path)
    (GitHub.get_headers hub_token) (Some [("ref", PStr branch)]) None.

Definition lab_tree_call (project_id path branch : string) : Request :=
  mkRequest GET
    (GitLab.GITLAB_API_BASE lab_base ++ "/projects/" ++ quote project_id ++ "/repository/tree")
    (GitLab.get_headers lab_token)
    (Some ([ ("ref", PStr branch); ("per_page", PInt 100) ]
           ++ (if negb (String.eqb path "") then [("path", PStr path)] else []))%list) None.

Lemma hub_contents_sorted (owner repo path branch : string) (resp : Response)
      (contents items : list value) (log : list Request) :
  srv log (hub_contents_call owner repo path branch) = inr resp ->
  200 <= status_code resp < 300 ->
  body resp = PList contents ->
  rmap GitHub.content_item contents = Ok items ->
  Forall listed items ->
  GitHub.list_repository_contents hub_token srv owner repo (Some path) (Some branch) log
  = (Return (JsonText (PDict
       [ ("repository", PStr (owner ++ "/" ++ repo));
         ("path", PStr (GitHub.or_slash path));
         ("branch", PStr branch);
         ("total_items", PInt (Z.of_nat (List.length (sorted_listing "dir" items))));
         ("contents", PList (sorted_listing "dir" items)) ])),
     (log ++ [hub_contents_call owner repo path branch])%list).
Proof.
  intros Hsrv Hstatus Hbody Hitems Hlisted.
  unfold GitHub.list_repository_contents, GitHub.get. cbn [arg].
  fold (hub_contents_call owner repo path branch).
  unfold try_except at 1. rewrite bind_run. unfold call at 1. rewrite Hsrv.
  destruct (Z.eqb_spec (status_code resp) 404) as [E | _]; [lia |].
  rewrite bind_run. unfold raise_for_status. rewrite http_error_none by exact Hstatus.
  unfold ret at 1. rewrite Hbody. cbn [GitHub.is_dict iter rbind].
  rewrite Hitems, bind_run. cbn [lift]. rewrite bind_run.
  rewrite (sort_by_key_listed "dir" items Hlisted). reflexivity.
Qed.

Lemma lab_tree_sorted (project_id path branch : string) (resp : Response)
      (contents items : list value) (log : list Request) :
  srv log (lab_tree_call project_id path branch) = inr resp ->
  200 <= status_code resp < 300 ->
  body resp = PList contents ->
  rmap GitLab.tree_item contents = Ok items ->
  Forall listed items ->
  GitLab.list_repository_tree lab_token lab_base srv project_id (Some path) (Some branch) log
  = (Return (JsonText (PDict
       [ ("project", PStr project_id);
         ("path", PStr (GitLab.or_slash path));
         ("branch", PStr branch);
         ("total_items", PInt (Z.of_nat (List.length (sorted_listing "tree" items))));
         ("contents", PList (sorted_listing "tree" items)) ])),
     (log ++ [lab_tree_call project_id path branch])%list).
Proof.
  intros Hsrv Hstatus Hbody Hitems Hlisted.
  unfold GitLab.list_repository_tree, GitLab.get. cbn [arg].
  fold (lab_tree_call project_id path branch).
  unfold try_except at 1. rewrite bind_run. unfold call at 1. rewrite Hsrv.
  destruct (Z.eqb_spec (status_code resp) 404) as [E | _]; [lia |].
  rewrite bind_run. unfold raise_for_status. rewrite http_error_none by exact Hstatus.
  unfold ret at 1. rewrite Hbody. cbn [iter rbind].
  rewrite Hitems, bind_run. cbn [lift]. rewrite bind_run.
  rewrite (sort_by_key_listed "tree" items Hlisted). reflexivity.
Qed.

End Tools.

(** ** Entries whose names differ only by case *)

Definition entry (name kind : string) : value :=
  PDict [ ("name", PStr name); ("type", PStr kind); ("size", PInt 0); ("path", PStr name) ].

(** C3 fails as stated: two files named README and readme are distinct and
    have different names, yet neither is before the other in the order, and
    the sort leaves them in whichever order the upstream sent them. *)
Lemma case_variants_compare_equal :
  let upper := entry "README" "file" in
  let lower := entry "readme" "file" in
  upper <> lower
  /\ getitem upper "name" <> getitem lower "name"
  /\ getitem upper "type" = getitem lower "type"
  /\ (exists k, entry_key "dir" upper = Ok k /\ entry_key "dir" lower = Ok k
                /\ key_lt k k = false)
  /\ sort_by_key (entry_key "dir") [upper; lower] = Ok [upper; lower]
  /\ sort_by_key (entry_key "dir") [lower; upper] = Ok [lower; upper].
Proof.
  cbv zeta. split; [discriminate |]. split; [discriminate |]. split; [reflexivity |].
  split; [| split; reflexivity].
  eexists. split; [reflexivity |]. split; reflexivity.
Qed.

Definition sample_listing : list value :=
  [ entry "zeta.txt" "file"; entry "src" "dir"; entry "Alpha.md" "file"; entry "Docs" "dir" ].

Definition sample_sorted : list value :=
  [ entry "Docs" "dir"; entry "src" "dir"; entry "Alpha.md" "file"; entry "zeta.txt" "file" ].

Lemma directory_order_on_sample :
  Forall listed sample_listing
  /\ exists out,
       sort_by_key (entry_key "dir") sample_listing = Ok out
       /\ out = sample_sorted
       /\ sort_by_key (entry_key "dir") out = Ok out.
Proof.
  assert (Hlisted : Forall listed sample_listing).
  { repeat constructor; unfold listed; simpl; eauto. }
  split; [exact Hlisted |].
  destruct (directory_order "dir" sample_listing Hlisted) as (out & Hout & _ & Hidem & _).
  exists out. split; [exact Hout |]. split; [| exact Hidem].
  assert (E : Ok out = Ok sample_sorted) by (rewrite <- Hout; reflexivity).
  now injection E.
Defined.

End DirectorySort.

(* ================================================================== *)
(** * Failures that leave a tool as exceptions *)
(* ================================================================== *)

Module Failures.
Import Py Http ToolFacts FileFetch.

(** C6, evaluated where it fails.  For a path that is a directory the
    GitHub contents endpoint answers 200 with a JSON array.  [get_file] then
    evaluates [file_data.get("type")] on a list, which raises
    [AttributeError]; the surrounding [try] only catches
    [requests.RequestException], so the exception leaves the tool. *)
Theorem directory_answer_escapes (hub_token : option string) (srv : server)
        (b64_utf8 : string -> decoded) (d : nat) (owner repo file_path : string)
        (branch : option value) (resp : Response) (entries : list value)
        (log : list Request) :
  let c := hub_content_call hub_token owner repo file_path (arg (PStr "main") branch) in
  srv log c = inr resp ->
  status_code resp = 200 ->
  body resp = PList entries ->
  GitHub.get_file hub_token srv b64_utf8 (S d) owner repo file_path branch log
  = (Throw (Builtin AttributeError), (log ++ [c])%list).
Proof.
  cbv zeta. intros Hsrv Hstatus Hbody.
  cbn [GitHub.get_file]. unfold GitHub.get. fold (hub_content_call hub_token owner repo
    file_path (arg (PStr "main") branch)).
  unfold try_except at 1. rewrite bind_run. unfold call at 1. rewrite Hsrv, Hstatus.
  cbn [Z.eqb Pos.eqb]. rewrite bind_run.
  unfold raise_for_status. rewrite http_error_none by lia.
  unfold ret at 1. rewrite bind_run, Hbody. reflexivity.
Qed.

(** The answer of the contents endpoint for a directory with two entries. *)
Definition directory_answer : Response :=
  mkResponse 200 "OK" "https://api.github.com/repos/octo/demo/contents/src?ref=main"
    (PList [ PDict [ ("name", PStr "index.js"); ("type", PStr "file");
                     ("size", PInt 120); ("path", PStr "src/index.js") ];
             PDict [ ("name", PStr "lib"); ("type", PStr "dir");
                     ("size", PInt 0); ("path", PStr "src/lib") ] ]).

Definition directory_forge : server := fun _ _ => inr directory_answer.

Lemma directory_answer_escapes_on_src :
  GitHub.get_file None directory_forge (fun _ => Text "") 2 "octo" "demo" "src" None []
  = (Throw (Builtin AttributeError),
     [hub_content_call None "octo" "demo" "src" (PStr "main")]).
Proof.
  exact (directory_answer_escapes None directory_forge (fun _ => Text "") 1 "octo" "demo"
           "src" None directory_answer _ [] eq_refl eq_refl eq_refl).
Defined.

End Failures.

(* ================================================================== *)
(** * Transport failures *)
(* ================================================================== *)

Module Transport.
Import Py Http ToolFacts.

(** A computation that never ends in a [RequestException]. *)
Definition contained {A} (m : M A) : Prop :=
  forall log msg, fst (m log) <> Throw (RequestException msg).

Lemma contained_ret {A} (a : A) : contained (ret a).
Proof. intros log msg; discriminate. Qed.

Lemma contained_try {A} (m : M A) (f : string -> A) :
  contained (try_except m (fun e => ret (f e))).
Proof. intros log msg. apply try_ret_never_request. Qed.

Lemma contained_bind {A B} (m : M A) (k : A -> M B) :
  contained m -> (forall a, contained (k a)) -> contained (bind m k).
Proof.
  intros Hm Hk log msg. rewrite bind_run. specialize (Hm log).
  destruct (m log) as [[a | x] log']; [apply Hk |].
  simpl in *. intros E. apply (Hm msg). now injection E as ->.
Qed.

(** The one call fails at transport level: the handler runs on the text of
    the failure. *)
Lemma one_call_transport {A} (srv : server) (r : Request) (k : Response -> M A)
      (h : string -> M A) (log : list Request) (msg : string) :
  srv log r = inl msg ->
  try_except (bind (call srv r) k) h log = h msg (log ++ [r])%list.
Proof.
  intros Hsrv. unfold try_except, bind, call. now rewrite Hsrv.
Qed.

Section Tools.
Variables (hub_token lab_token lab_base : option string).
Variable srv : server.
Variable b64_utf8 : string -> decoded.

Lemma hub_get_file_contained d owner repo file_path branch :
  contained (GitHub.get_file hub_token srv b64_utf8 d owner repo file_path branch).
Proof.
  destruct d; [intros log msg; discriminate |].
  cbn [GitHub.get_file]. apply contained_try.
Qed.

Lemma lab_get_file_contained d project_id file_path branch :
  contained (GitLab.gitlab_get_file lab_token lab_base srv b64_utf8 d project_id file_path
               branch).
Proof.
  destruct d; [intros log msg; discriminate |].
  cbn [GitLab.gitlab_get_file]. apply contained_try.
Qed.

(** X1.  Whatever the upstream does -- transport failures, any status, any
    JSON body -- no tool of either server ends in a
    [requests.RequestException]: every one of them is caught inside the
    tool. *)
Theorem request_exceptions_never_escape
        (owner repo query project_id title file_path : string)
        (state o1 o2 body path branch lab_owner : option string)
        (per_page : option Z) (labels assignees : option (list string))
        (assignee_ids : option (list Z)) (number : Z) (d : nat)
        (ref : option value) :
  (contained (GitHub.list_repositories hub_token srv owner per_page)
   /\ contained (GitHub.get_repository_info hub_token srv owner repo)
   /\ contained (GitHub.list_issues hub_token srv owner repo state per_page)
   /\ contained (GitHub.create_issue hub_token srv owner repo title body labels assignees)
   /\ contained (GitHub.get_issue hub_token srv owner repo number)
   /\ contained (GitHub.get_file hub_token srv b64_utf8 d owner repo file_path ref)
   /\ contained (GitHub.list_repository_contents hub_token srv owner repo path branch)
   /\ contained (GitHub.search_repositories hub_token srv query o1 o2 per_page))
  /\ (contained (GitLab.list_projects lab_token lab_base srv lab_owner per_page)
      /\ contained (GitLab.get_project_info lab_token lab_base srv project_id)
      /\ contained (GitLab.gitlab_list_issues lab_token lab_base srv project_id state per_page)
      /\ contained (GitLab.gitlab_create_issue lab_token lab_base srv project_id title body
                      labels assignee_ids)
      /\ contained (GitLab.gitlab_get_issue lab_token lab_base srv project_id number)
      /\ contained (GitLab.gitlab_get_file lab_token lab_base srv b64_utf8 d project_id
                      file_path ref)
      /\ contained (GitLab.list_repository_tree lab_token lab_base srv project_id path branch)
      /\ contained (GitLab.search_projects lab_token lab_base srv query o1 o2 per_page)
      /\ contained (GitLab.list_merge_requests lab_token lab_base srv project_id state
                      per_page)).
Proof.
  split.
  - repeat split; try apply contained_try. apply hub_get_file_contained.
  - repeat split; try apply contained_try; try apply lab_get_file_contained.
    unfold GitLab.list_projects. cbv zeta.
    apply contained_bind.
    + destruct lab_owner as [o |]; [destruct (negb (String.eqb o "")) |];
        try apply contained_ret.
      apply contained_try.
    + intros [url | out]; [apply contained_try | apply contained_ret].
Qed.

(** X2.  When the call a tool issues fails at transport level with the
    text [msg], the tool stops after that one call and reports the failure:
    the listing, detail, creation and search tools as the plain text
    ["Error <doing>: <msg>"], the file and directory tools as a JSON object
    whose [error] is ["Error fetching file|contents|tree: <msg>"].
    [list_projects] with an owner fails in the owner lookup. *)
Theorem transport_failure_reported (msg : string) (log : list Request)
        (owner repo query project_id title file_path lab_owner : string)
        (state o1 o2 body path branch : option string)
        (per_page : option Z) (labels assignees : option (list string))
        (assignee_ids : option (list Z)) (number : Z) (d : nat)
        (ref : option value) :
  (forall r, srv log r = inl msg) ->
  let plain (doing : string) (run : outcome tool_output * list Request) :=
    exists r, run = (Return (PlainText ("Error " ++ doing ++ ": " ++ msg)), (log ++ [r])%list) in
  let object (kvs : list (string * value)) (run : outcome tool_output * list Request) :=
    exists r, run = (Return (JsonText (PDict kvs)), (log ++ [r])%list) in
  (plain "fetching repositories" (GitHub.list_repositories hub_token srv owner per_page log)
   /\ plain "fetching repository info" (GitHub.get_repository_info hub_token srv owner repo log)
   /\ plain "fetching issues" (GitHub.list_issues hub_token srv owner repo state per_page log)
   /\ plain "creating issue"
        (GitHub.create_issue hub_token srv owner repo title body labels assignees log)
   /\ plain "fetching issue" (GitHub.get_issue hub_token srv owner repo number log)
   /\ plain "searching repositories"
        (GitHub.search_repositories hub_token srv query o1 o2 per_page log)
   /\ object [ ("repository", PStr (owner ++ "/" ++ repo));
               ("file_path", PStr file_path);
               ("branch", arg (PStr "main") ref);
               ("error", PStr ("Error fetching file: " ++ msg)) ]
        (GitHub.get_file hub_token srv b64_utf8 (S d) owner repo file_path ref log)
   /\ object [ ("repository", PStr (owner ++ "/" ++ repo));
               ("path", PStr (GitHub.or_slash (arg "" path)));
               ("branch", PStr (arg "main" branch));
               ("error", PStr ("Error fetching contents: " ++ msg)) ]
        (GitHub.list_repository_contents hub_token srv owner repo path branch log))
  /\ (plain "fetching projects" (GitLab.list_projects lab_token lab_base srv None per_page log)
      /\ (lab_owner <> "" ->
          plain "finding user/group"
            (GitLab.list_projects lab_token lab_base srv (Some lab_owner) per_page log))
      /\ plain "fetching project info" (GitLab.get_project_info lab_token lab_base srv project_id log)
      /\ plain "fetching issues"
           (GitLab.gitlab_list_issues lab_token lab_base srv project_id state per_page log)
      /\ plain "creating issue"
           (GitLab.gitlab_create_issue lab_token lab_base srv project_id title body labels
              assignee_ids log)
      /\ plain "fetching issue" (GitLab.gitlab_get_issue lab_token lab_base srv project_id number log)
      /\ plain "searching projects"
           (GitLab.search_projects lab_token lab_base srv query o1 o2 per_page log)
      /\ plain "fetching merge requests"
           (GitLab.list_merge_requests lab_token lab_base srv project_id state per_page log)
      /\ object [ ("project", PStr project_id);
                  ("file_path", PStr file_path);
                  ("branch", arg (PStr "main") ref);
                  ("error", PStr ("Error fetching file: " ++ msg)) ]
           (GitLab.gitlab_get_file lab_token lab_base srv b64_utf8 (S d) project_id file_path
              ref log)
      /\ object [ ("project", PStr project_id);
                  ("path", PStr (GitLab.or_slash (arg "" path)));
                  ("branch", PStr (arg "main" branch));
                  ("error", PStr ("Error fetching tree: " ++ msg)) ]
           (GitLab.list_repository_tree lab_token lab_base srv project_id path branch log)).
Proof.
  intros Hdown. cbv zeta.
  assert (Hone : forall A (r : Request) (k : Response -> M A) (h : string -> M A),
             try_except (bind (call srv r) k) h log = h msg (log ++ [r])%list).
  { intros. apply one_call_transport, Hdown. }
  split.
  - repeat match goal with |- _ /\ _ => split end; eexists.
    + unfold GitHub.list_repositories, GitHub.get. now rewrite Hone.
    + unfold GitHub.get_repository_info, GitHub.get. now rewrite Hone.
    + unfold GitHub.list_issues, GitHub.get. now rewrite Hone.
    + unfold GitHub.create_issue, GitHub.post. now rewrite Hone.
    + unfold GitHub.get_issue, GitHub.get. now rewrite Hone.
    + unfold GitHub.search_repositories, GitHub.get. now rewrite Hone.
    + cbn [GitHub.get_file]. unfold GitHub.get. now rewrite Hone.
    + unfold GitHub.list_repository_contents, GitHub.get. now rewrite Hone.
  - repeat match goal with |- _ /\ _ => split end; try intros Hne; eexists.
    + unfold GitLab.list_projects, GitLab.get. cbv zeta. rewrite bind_run. cbn [ret].
      now rewrite Hone.
    + apply String.eqb_neq in Hne.
      unfold GitLab.list_projects. cbv zeta. rewrite bind_run, Hne. cbn [negb].
      unfold GitLab.resolve_owner, GitLab.get. now rewrite Hone.
    + unfold GitLab.get_project_info, GitLab.get. now rewrite Hone.
    + unfold GitLab.gitlab_list_issues, GitLab.get. now rewrite Hone.
    + unfold GitLab.gitlab_create_issue, GitLab.post. now rewrite Hone.
    + unfold GitLab.gitlab_get_issue, GitLab.get. now rewrite Hone.
    + unfold GitLab.search_projects, GitLab.get. now rewrite Hone.
    + unfold GitLab.list_merge_requests, GitLab.get. now rewrite Hone.
    + cbn [GitLab.gitlab_get_file]. unfold GitLab.get. now rewrite Hone.
    + unfold GitLab.list_repository_tree, GitLab.get. now rewrite Hone.
Qed.

End Tools.

(** A forge that cannot be reached. *)
Definition unreachable : server := fun _ _ => inl "Connection refused".

Lemma transport_failure_on_unreachable :
  (exists r, GitHub.get_issue None unreachable "octo" "demo" 7 []
             = (Return (PlainText "Error fetching issue: Connection refused"), [r]))
  /\ (exists r, GitLab.gitlab_get_file None None unreachable (fun _ => Text "") 2
                  "group/project" "README.md" None []
                = (Return (JsonText (PDict
                     [ ("project", PStr "group/project");
                       ("file_path", PStr "README.md");
                       ("branch", PStr "main");
                       ("error", PStr "Error fetching file: Connection refused") ])), [r])).
Proof.
  pose proof (transport_failure_reported None None None unreachable (fun _ => Text "")
                "Connection refused" [] "octo" "demo" "q" "group/project" "t" "README.md"
                "someone" None None None None None None None None None None 7 1 None
                (fun _ => eq_refl)) as H.
  cbv zeta in H.
  destruct H as [(_ & _ & _ & _ & Hissue & _) (_ & _ & _ & _ & _ & _ & _ & _ & Hfile & _)].
  split; [exact Hissue | exact Hfile].
Defined.

End Transport.

(* ================================================================== *)
(** * What the tools send *)
(* ================================================================== *)

Module CallDiscipline.
Import Py Http ToolFacts.

(** A computation that appends at least [lo] and at most [hi] calls to the
    log, all of them satisfying [P], and leaves the earlier calls as they
    are. *)
Definition emits (P : Request -> Prop) (lo hi : nat) {A} (m : M A) : Prop :=
  forall log, exists new,
    snd (m log) = (log ++ new)%list /\ Forall P new
    /\ (lo <= List.length new <= hi)%nat.

Lemma emits_quiet (P : Request -> Prop) {A} (m : M A) : quiet m -> emits P 0 0 m.
Proof.
  intros Hq log. exists []. rewrite Hq, app_nil_r. repeat split; [constructor | simpl; lia ..].
Qed.

Lemma emits_weaken (P : Request -> Prop) (lo hi lo' hi' : nat) {A} (m : M A) :
  (lo' <= lo)%nat -> (hi <= hi')%nat -> emits P lo hi m -> emits P lo' hi' m.
Proof.
  intros Hlo Hhi Hm log. destruct (Hm log) as (new & H1 & H2 & H3).
  exists new. repeat split; [assumption | assumption | lia ..].
Qed.

Lemma emits_call (P : Request -> Prop) (srv : server) (r : Request) :
  P r -> emits P 1 1 (call srv r).
Proof.
  intros Hr log. exists [r]. unfold call.
  destruct (srv log r); simpl; repeat split; auto.
Qed.

(** What follows a computation adds to its calls, and is skipped when the
    computation raises: the lower bound is that of the first part. *)
Lemma emits_bind (P : Request -> Prop) (lo hi lo' hi' : nat) {A B} (m : M A) (f : A -> M B) :
  emits P lo hi m -> (forall a, emits P lo' hi' (f a)) -> emits P lo (hi + hi') (bind m f).
Proof.
  intros Hm Hf log. rewrite bind_run.
  destruct (Hm log) as (new & H1 & H2 & H3).
  destruct (m log) as [[a | x] log']; simpl in H1; subst log'.
  - destruct (Hf a (log ++ new)%list) as (new' & H1' & H2' & H3').
    exists (new ++ new')%list. rewrite H1', app_assoc.
    repeat split; [now apply Forall_app | rewrite length_app; lia ..].
  - exists new. repeat split; [assumption | lia ..].
Qed.

Lemma emits_try (P : Request -> Prop) (lo hi lo' hi' : nat) {A} (m : M A) (h : string -> M A) :
  emits P lo hi m -> (forall e, emits P lo' hi' (h e)) -> emits P lo (hi + hi') (try_except m h).
Proof.
  intros Hm Hh log. unfold try_except.
  destruct (Hm log) as (new & H1 & H2 & H3).
  destruct (m log) as [[a | [msg | e |]] log']; simpl in H1; subst log';
    try (exists new; repeat split; [assumption | lia ..]).
  destruct (Hh msg (log ++ new)%list) as (new' & H1' & H2' & H3').
  exists (new ++ new')%list. rewrite H1', app_assoc.
  repeat split; [now apply Forall_app | rewrite length_app; lia ..].
Qed.

(** One call inside a [try], computation only around it: exactly one call,
    whether it is answered or fails. *)
Lemma emits_one_call (P : Request -> Prop) {A} (srv : server) (r : Request)
      (k : Response -> M A) (h : string -> M A) :
  P r -> (forall resp, quiet (k resp)) -> (forall e, quiet (h e)) ->
  emits P 1 1 (try_except (bind (call srv r) k) h).
Proof.
  intros Hr Hk Hh log. exists [r]. rewrite one_call_log by assumption.
  repeat split; auto.
Qed.

(** The address is below the API base. *)
Definition under (base u : string) : Prop := exists rest, u = base ++ rest.

Lemma under_app (base rest : string) : under base (base ++ rest).
Proof. now exists rest. Qed.

Lemma emits_if (P : Request -> Prop) (lo hi : nat) {A} (b : bool) (m1 m2 : M A) :
  emits P lo hi m1 -> emits P lo hi m2 -> emits P lo hi (if b then m1 else m2).
Proof. now destruct b. Qed.

Ltac emits_nothing :=
  apply emits_weaken with (lo := 0%nat) (hi := 0%nat);
  [lia | lia | apply emits_quiet; quiet_tac].

Section GitHubCalls.
Variable hub_token : option string.
Variable srv : server.
Variable b64_utf8 : string -> decoded.

(** A read: a GET under the API base, with the server's headers and no
    JSON body. *)
Definition hub_read (r : Request) : Prop :=
  meth r = GET /\ headers r = GitHub.get_headers hub_token
  /\ under GitHub.GITHUB_API_BASE (url r) /\ json_arg r = None.

(** A write: a POST under the API base, with the server's headers. *)
Definition hub_write (r : Request) : Prop :=
  meth r = POST /\ headers r = GitHub.get_headers hub_token
  /\ under GitHub.GITHUB_API_BASE (url r) /\ params r = None.

Lemma hub_get_reads (rest : string) (ps : option (list (string * value))) :
  hub_read (mkRequest GET (GitHub.GITHUB_API_BASE ++ rest) (GitHub.get_headers hub_token)
              ps None).
Proof. repeat split. apply under_app. Qed.

Lemma hub_get_file_other_emits d owner repo file_path branch :
  eq_str branch "main" = false ->
  emits hub_read 0 1 (GitHub.get_file hub_token srv b64_utf8 d owner repo file_path (Some branch)).
Proof.
  intros Hb. destruct d; [emits_nothing |].
  cbn [GitHub.get_file arg]. unfold GitHub.get, GitHub.contents_url. rewrite Hb.
  apply emits_weaken with (lo := 1%nat) (hi := 1%nat); [lia | lia |].
  apply emits_one_call; [apply hub_get_reads | quiet_tac | quiet_tac].
Qed.

Lemma hub_get_file_emits d owner repo file_path branch :
  emits hub_read 1 3 (GitHub.get_file hub_token srv b64_utf8 (S d) owner repo file_path branch).
Proof.
  cbn [GitHub.get_file]. unfold GitHub.get, GitHub.contents_url, GitHub.repo_url.
  apply emits_weaken with (lo := 1%nat) (hi := (1 + 2 + 0)%nat); [lia | lia |].
  apply emits_try with (lo' := 0%nat); [| intros; apply emits_quiet; quiet_tac].
  apply emits_bind with (lo' := 0%nat); [apply emits_call, hub_get_reads | intros resp].
  apply emits_if; [| emits_nothing].
  apply emits_weaken with (lo := 0%nat) (hi := (2 + 0)%nat); [lia | lia |].
  apply emits_bind with (lo' := 0%nat); [| intros [out |]; apply emits_quiet; quiet_tac].
  apply emits_if; [| emits_nothing].
  apply emits_weaken with (lo := 1%nat) (hi := (1 + 1 + 0)%nat); [lia | lia |].
  apply emits_try with (lo' := 0%nat); [| intros; apply emits_quiet; quiet_tac].
  apply emits_bind with (lo' := 0%nat); [apply emits_call, hub_get_reads | intros meta].
  apply emits_if; [| emits_nothing].
  apply emits_weaken with (lo := 0%nat) (hi := (0 + 1)%nat); [lia | lia |].
  apply emits_bind with (lo' := 0%nat); [apply emits_quiet; quiet_tac | intros db].
  destruct (eq_str db "main") eqn:Hdb; cbn [negb]; [emits_nothing |].
  apply emits_weaken with (lo := 0%nat) (hi := (1 + 0)%nat); [lia | lia |].
  apply emits_bind with (lo' := 0%nat); [| intros; apply emits_quiet; quiet_tac].
  now apply hub_get_file_other_emits.
Qed.

(** X3.  Every call of every GitHub tool goes to an address below
    [https://api.github.com] and carries the server's headers.  Each reading
    tool issues exactly one call, a GET without a JSON body, whether the
    call is answered or fails; [get_file] issues at least one and at most
    three such calls, whatever room it has for its self-call; and
    [create_issue] issues exactly one call, a POST.  No tool removes or
    alters earlier calls. *)
Theorem github_call_discipline (owner repo query title file_path : string)
        (state o1 o2 body path branch : option string) (per_page : option Z)
        (labels assignees : option (list string)) (number : Z) (d : nat)
        (ref : option value) :
  emits hub_read 1 1 (GitHub.list_repositories hub_token srv owner per_page)
  /\ emits hub_read 1 1 (GitHub.get_repository_info hub_token srv owner repo)
  /\ emits hub_read 1 1 (GitHub.list_issues hub_token srv owner repo state per_page)
  /\ emits hub_write 1 1
       (GitHub.create_issue hub_token srv owner repo title body labels assignees)
  /\ emits hub_read 1 1 (GitHub.get_issue hub_token srv owner repo number)
  /\ emits hub_read 1 3 (GitHub.get_file hub_token srv b64_utf8 (S d) owner repo file_path ref)
  /\ emits hub_read 1 1 (GitHub.list_repository_contents hub_token srv owner repo path branch)
  /\ emits hub_read 1 1 (GitHub.search_repositories hub_token srv query o1 o2 per_page).
Proof.
  repeat match goal with |- _ /\ _ => split end.
  - unfold GitHub.list_repositories, GitHub.get.
    apply emits_one_call; [apply hub_get_reads | quiet_tac | quiet_tac].
  - unfold GitHub.get_repository_info, GitHub.get.
    apply emits_one_call; [apply hub_get_reads | quiet_tac | quiet_tac].
  - unfold GitHub.list_issues, GitHub.get.
    apply emits_one_call; [apply hub_get_reads | quiet_tac | quiet_tac].
  - unfold GitHub.create_issue, GitHub.post.
    apply emits_one_call; [| quiet_tac | quiet_tac].
    repeat split. apply under_app.
  - unfold GitHub.get_issue, GitHub.get.
    apply emits_one_call; [apply hub_get_reads | quiet_tac | quiet_tac].
  - apply hub_get_file_emits.
  - unfold GitHub.list_repository_contents, GitHub.get.
    apply emits_one_call; [apply hub_get_reads | quiet_tac | quiet_tac].
  - unfold GitHub.search_repositories, GitHub.get.
    apply emits_one_call; [apply hub_get_reads | quiet_tac | quiet_tac].
Qed.

End GitHubCalls.

Section GitLabCalls.
Variables (lab_token lab_base : option string).
Variable srv : server.
Variable b64_utf8 : string -> decoded.

Definition lab_read (r : Request) : Prop :=
  meth r = GET /\ headers r = GitLab.get_headers lab_token
  /\ under (GitLab.GITLAB_API_BASE lab_base) (url r) /\ json_arg r = None.

Definition lab_write (r : Request) : Prop :=
  meth r = POST /\ headers r = GitLab.get_headers lab_token
  /\ under (GitLab.GITLAB_API_BASE lab_base) (url r) /\ params r = None.

Lemma lab_get_reads (rest : string) (ps : option (list (string * value))) :
  lab_read (mkRequest GET (GitLab.GITLAB_API_BASE lab_base ++ rest)
              (GitLab.get_headers lab_token) ps None).
Proof. repeat split. apply under_app. Qed.

(** The owner lookup issues one or two reads, and the address it yields is
    below the API base. *)
Lemma resolve_owner_emits (owner : string) (log : list Request) :
  exists new,
    snd (GitLab.resolve_owner lab_token lab_base srv owner log) = (log ++ new)%list
    /\ Forall lab_read new /\ (1 <= List.length new)%nat /\ (List.length new <= 2)%nat
    /\ forall url,
         fst (GitLab.resolve_owner lab_token lab_base srv owner log) = Return (inl url) ->
         under (GitLab.GITLAB_API_BASE lab_base) url.
Proof.
  set (u := mkRequest GET (GitLab.GITLAB_API_BASE lab_base ++ "/users")
              (GitLab.get_headers lab_token) (Some [("username", PStr owner)]) None).
  set (g := mkRequest GET (GitLab.GITLAB_API_BASE lab_base ++ "/groups")
              (GitLab.get_headers lab_token) (Some [("search", PStr owner)]) None).
  assert (Hu : lab_read u) by apply lab_get_reads.
  assert (Hg : lab_read g) by apply lab_get_reads.
  assert (One : exists new, (log ++ [u])%list = (log ++ new)%list
                            /\ Forall lab_read new
                            /\ (1 <= List.length new)%nat /\ (List.length new <= 2)%nat).
  { exists [u]. repeat split; auto; simpl; lia. }
  assert (Two : exists new, ((log ++ [u]) ++ [g])%list = (log ++ new)%list
                            /\ Forall lab_read new
                            /\ (1 <= List.length new)%nat /\ (List.length new <= 2)%nat).
  { exists [u; g]. rewrite <- app_assoc. repeat split; auto; simpl; lia. }
  unfold GitLab.resolve_owner, GitLab.get, try_except, bind, call, raise_for_status,
    raise, ret, lift. fold u. fold g.
  destruct (srv log u) as [msg | resp]; simpl.
  { destruct One as (new & E & HP & HL & HU). exists new. repeat split; auto. discriminate. }
  destruct (http_error resp); simpl.
  { destruct One as (new & E & HP & HL & HU). exists new. repeat split; auto. discriminate. }
  destruct (truthy (body resp)); simpl.
  { destruct One as (new & E & HP & HL & HU). exists new.
    destruct (getitem0 (body resp)) as [x | e]; simpl;
      [destruct (getitem x "id"); simpl |];
      repeat split; auto; try discriminate.
    intros url [= <-]. apply under_app. }
  destruct (srv _ g) as [msg | resp2]; simpl.
  { destruct Two as (new & E & HP & HL & HU). exists new. repeat split; auto. discriminate. }
  destruct (http_error resp2); simpl.
  { destruct Two as (new & E & HP & HL & HU). exists new. repeat split; auto. discriminate. }
  destruct (truthy (body resp2)); simpl.
  - destruct Two as (new & E & HP & HL & HU). exists new.
    destruct (getitem0 (body resp2)) as [x | e]; simpl;
      [destruct (getitem x "id"); simpl |];
      repeat split; auto; try discriminate.
    intros url [= <-]. apply under_app.
  - destruct Two as (new & E & HP & HL & HU). exists new. repeat split; auto. discriminate.
Qed.

(** The listing request of [list_projects], once the address is known. *)
Lemma projects_request_emits (per_page : option Z) (url : string) :
  under (GitLab.GITLAB_API_BASE lab_base) url ->
  emits lab_read 1 1 (try_except
    (bind (GitLab.get lab_token srv url
             (Some [ ("per_page", PInt (Z.min (arg 30 per_page) 100));
                     ("order_by", PStr "last_activity_at"); ("sort", PStr "desc") ]))
          (fun response => bind (raise_for_status response) (fun _ =>
             bind (lift (rbind (iter (body response))
                               (fun xs => rmap GitLab.project_summary xs)))
                  (fun result => ret (JsonText (PList result))))))
    (fun e => ret (PlainText ("Error fetching projects: " ++ e)))).
Proof.
  intros [rest ->]. unfold GitLab.get.
  apply emits_one_call; [apply lab_get_reads | quiet_tac | quiet_tac].
Qed.

Lemma list_projects_all_emits (per_page : option Z) :
  emits lab_read 1 1 (GitLab.list_projects lab_token lab_base srv None per_page).
Proof.
  intros log. unfold GitLab.list_projects. cbv zeta. rewrite bind_run. cbn [ret].
  apply (projects_request_emits per_page _ (under_app _ "/projects") log).
Qed.

Lemma list_projects_emits (owner : option string) (per_page : option Z) :
  emits lab_read 1 3 (GitLab.list_projects lab_token lab_base srv owner per_page).
Proof.
  assert (Hdirect : emits lab_read 1 3
            (GitLab.list_projects lab_token lab_base srv None per_page)).
  { apply emits_weaken with (lo := 1%nat) (hi := 1%nat); [lia | lia |].
    apply list_projects_all_emits. }
  destruct owner as [o |]; [| exact Hdirect].
  intros log. specialize (Hdirect log).
  unfold GitLab.list_projects in *. cbv zeta in *. rewrite bind_run in *.
  destruct (String.eqb o ""); cbn [negb ret] in *; [exact Hdirect |].
  destruct (resolve_owner_emits o log) as (new & E & HP & HL & HU & Hurl).
  destruct (GitLab.resolve_owner lab_token lab_base srv o log) as [[[url | out] | x] log'];
    simpl in E; subst log'.
  - destruct (projects_request_emits per_page url (Hurl url eq_refl) (log ++ new)%list)
      as (new' & E' & HP' & HL').
    exists (new ++ new')%list. rewrite E', app_assoc.
    repeat split; [now apply Forall_app | rewrite length_app; lia ..].
  - exists new. repeat split; [assumption | lia ..].
  - exists new. repeat split; [assumption | lia ..].
Qed.

Lemma lab_get_file_other_emits d project_id file_path branch :
  eq_str branch "main" = false ->
  emits lab_read 0 1 (GitLab.gitlab_get_file lab_token lab_base srv b64_utf8 d project_id
                        file_path (Some branch)).
Proof.
  intros Hb. destruct d; [emits_nothing |].
  cbn [GitLab.gitlab_get_file arg]. unfold GitLab.get, GitLab.files_url. rewrite Hb.
  apply emits_weaken with (lo := 1%nat) (hi := 1%nat); [lia | lia |].
  apply emits_one_call; [apply lab_get_reads | quiet_tac | quiet_tac].
Qed.

Lemma lab_get_file_emits d project_id file_path branch :
  emits lab_read 1 3 (GitLab.gitlab_get_file lab_token lab_base srv b64_utf8 (S d) project_id
                        file_path branch).
Proof.
  cbn [GitLab.gitlab_get_file]. unfold GitLab.get, GitLab.files_url, GitLab.project_url.
  apply emits_weaken with (lo := 1%nat) (hi := (1 + 2 + 0)%nat); [lia | lia |].
  apply emits_try with (lo' := 0%nat); [| intros; apply emits_quiet; quiet_tac].
  apply emits_bind with (lo' := 0%nat); [apply emits_call, lab_get_reads | intros resp].
  apply emits_if; [| emits_nothing].
  apply emits_weaken with (lo := 0%nat) (hi := (2 + 0)%nat); [lia | lia |].
  apply emits_bind with (lo' := 0%nat); [| intros [out |]; apply emits_quiet; quiet_tac].
  apply emits_if; [| emits_nothing].
  apply emits_weaken with (lo := 1%nat) (hi := (1 + 1 + 0)%nat); [lia | lia |].
  apply emits_try with (lo' := 0%nat); [| intros; apply emits_quiet; quiet_tac].
  apply emits_bind with (lo' := 0%nat); [apply emits_call, lab_get_reads | intros meta].
  apply emits_if; [| emits_nothing].
  apply emits_weaken with (lo := 0%nat) (hi := (0 + 1)%nat); [lia | lia |].
  apply emits_bind with (lo' := 0%nat); [apply emits_quiet; quiet_tac | intros db].
  destruct (eq_str db "main") eqn:Hdb; cbn [negb]; [emits_nothing |].
  apply emits_weaken with (lo := 0%nat) (hi := (1 + 0)%nat); [lia | lia |].
  apply emits_bind with (lo' := 0%nat); [| intros; apply emits_quiet; quiet_tac].
  now apply lab_get_file_other_emits.
Qed.

(** X4.  Every call of every GitLab tool, aliases included, goes to an
    address below the configured API base and carries the server's headers.
    Each reading tool issues exactly one call, a GET without a JSON body,
    whether the call is answered or fails; [list_projects] issues exactly
    one when no owner is given and otherwise at least one and at most three
    (up to two for the owner lookup); [gitlab_get_file] issues at least one
    and at most three, whatever room it has for its self-call; and
    [gitlab_create_issue] issues exactly one call, a POST.  No tool removes
    or alters earlier calls. *)
Theorem gitlab_call_discipline (query project_id title file_path : string)
        (state o1 o2 description path branch owner : option string) (per_page : option Z)
        (labels : option (list string)) (assignee_ids : option (list Z)) (issue_iid : Z)
        (d : nat) (ref : option value) :
  emits lab_read 1 3 (GitLab.list_projects lab_token lab_base srv owner per_page)
  /\ emits lab_read 1 1 (GitLab.list_projects lab_token lab_base srv None per_page)
  /\ emits lab_read 1 1 (GitLab.get_project_info lab_token lab_base srv project_id)
  /\ emits lab_read 1 1
       (GitLab.gitlab_list_issues lab_token lab_base srv project_id state per_page)
  /\ emits lab_write 1 1 (GitLab.gitlab_create_issue lab_token lab_base srv project_id title
                            description labels assignee_ids)
  /\ emits lab_read 1 1 (GitLab.gitlab_get_issue lab_token lab_base srv project_id issue_iid)
  /\ emits lab_read 1 3 (GitLab.gitlab_get_file lab_token lab_base srv b64_utf8 (S d)
                           project_id file_path ref)
  /\ emits lab_read 1 1
       (GitLab.list_repository_tree lab_token lab_base srv project_id path branch)
  /\ emits lab_read 1 1 (GitLab.search_projects lab_token lab_base srv query o1 o2 per_page)
  /\ emits lab_read 1 1
       (GitLab.list_merge_requests lab_token lab_base srv project_id state per_page)
  /\ emits lab_read 1 1 (GitLab.list_issues lab_token lab_base srv project_id state per_page)
  /\ emits lab_write 1 1 (GitLab.create_issue lab_token lab_base srv project_id title
                            description labels assignee_ids)
  /\ emits lab_read 1 1 (GitLab.get_issue lab_token lab_base srv project_id issue_iid)
  /\ emits lab_read 1 3 (GitLab.get_file lab_token lab_base srv b64_utf8 (S d) project_id
                           file_path ref).
Proof.
  assert (Hissues : forall st pp,
    emits lab_read 1 1 (GitLab.gitlab_list_issues lab_token lab_base srv project_id st pp)).
  { intros. unfold GitLab.gitlab_list_issues, GitLab.get.
    apply emits_one_call; [apply lab_get_reads | quiet_tac | quiet_tac]. }
  assert (Hcreate : forall de,
    emits lab_write 1 1 (GitLab.gitlab_create_issue lab_token lab_base srv project_id title
                           de labels assignee_ids)).
  { intros. unfold GitLab.gitlab_create_issue, GitLab.post.
    apply emits_one_call; [| quiet_tac | quiet_tac].
    repeat split. apply under_app. }
  assert (Hissue : emits lab_read 1 1
    (GitLab.gitlab_get_issue lab_token lab_base srv project_id issue_iid)).
  { unfold GitLab.gitlab_get_issue, GitLab.get.
    apply emits_one_call; [apply lab_get_reads | quiet_tac | quiet_tac]. }
  repeat match goal with |- _ /\ _ => split end.
  - apply list_projects_emits.
  - apply list_projects_all_emits.
  - unfold GitLab.get_project_info, GitLab.get.
    apply emits_one_call; [apply lab_get_reads | quiet_tac | quiet_tac].
  - apply Hissues.
  - apply Hcreate.
  - exact Hissue.
  - apply lab_get_file_emits.
  - unfold GitLab.list_repository_tree, GitLab.get.
    apply emits_one_call; [apply lab_get_reads | quiet_tac | quiet_tac].
  - unfold GitLab.search_projects, GitLab.get.
    apply emits_one_call; [apply lab_get_reads | quiet_tac | quiet_tac].
  - unfold GitLab.list_merge_requests, GitLab.get.
    apply emits_one_call; [apply lab_get_reads | quiet_tac | quiet_tac].
  - apply Hissues.
  - apply Hcreate.
  - exact Hissue.
  - apply lab_get_file_emits.
Qed.

End GitLabCalls.

End CallDiscipline.

(* ================================================================== *)
(** * What the file tools answer *)
(* ================================================================== *)

Module FileOutcomes.
Import Py Http ToolFacts FileFetch Transport.

(** How a file tool ends once the answer is turned into a payload. *)
Definition deliver_object (r : result value) : outcome tool_output :=
  match r with
  | Ok v => Return (JsonText v)
  | Raise e => Throw (Builtin e)
  end.

(** A metadata answer that leads to no retry: the lookup failed, was not
    answered with 200, or names ["main"] as the default branch. *)
Definition no_other_branch (metadata : string + Response) : Prop :=
  match metadata with
  | inl _ => True
  | inr resp =>
      status_code resp <> 200
      \/ dict_get (body resp) "default_branch" (PStr "master") = Ok (PStr "main")
  end.

Section Outcomes.
Variables (hub_token lab_token lab_base : option string).
Variable srv : server.
Variable b64_utf8 : string -> decoded.

Local Abbreviation hub_c := (hub_content_call hub_token).
Local Abbreviation hub_m := (hub_metadata_call hub_token).
Local Abbreviation lab_c := (lab_content_call lab_token lab_base).
Local Abbreviation lab_m := (lab_metadata_call lab_token lab_base).

Lemma hub_file_answer d owner repo file_path branch resp log :
  srv log (hub_c owner repo file_path (arg (PStr "main") branch)) = inr resp ->
  200 <= status_code resp < 300 ->
  GitHub.get_file hub_token srv b64_utf8 (S d) owner repo file_path branch log
  = (deliver_object (GitHub.file_payload b64_utf8 owner repo file_path
                       (arg (PStr "main") branch) (body resp)),
     (log ++ [hub_c owner repo file_path (arg (PStr "main") branch)])%list).
Proof.
  intros Hsrv Hstatus. cbn [GitHub.get_file]. unfold GitHub.get.
  fold (hub_c owner repo file_path (arg (PStr "main") branch)).
  unfold try_except at 1. rewrite bind_run. unfold call at 1. rewrite Hsrv.
  destruct (Z.eqb_spec (status_code resp) 404) as [E | _]; [lia |].
  rewrite bind_run. unfold raise_for_status. rewrite http_error_none by exact Hstatus.
  unfold ret at 1. rewrite bind_run. unfold lift, deliver_object.
  now destruct (GitHub.file_payload _ _ _ _ _ _).
Qed.

Lemma lab_file_answer d project_id file_path branch resp log :
  srv log (lab_c project_id file_path (arg (PStr "main") branch)) = inr resp ->
  200 <= status_code resp < 300 ->
  GitLab.gitlab_get_file lab_token lab_base srv b64_utf8 (S d) project_id file_path branch log
  = (deliver_object (GitLab.file_payload b64_utf8 project_id file_path
                       (arg (PStr "main") branch) (body resp)),
     (log ++ [lab_c project_id file_path (arg (PStr "main") branch)])%list).
Proof.
  intros Hsrv Hstatus. cbn [GitLab.gitlab_get_file]. unfold GitLab.get.
  fold (lab_c project_id file_path (arg (PStr "main") branch)).
  unfold try_except at 1. rewrite bind_run. unfold call at 1. rewrite Hsrv.
  destruct (Z.eqb_spec (status_code resp) 404) as [E | _]; [lia |].
  rewrite bind_run. unfold raise_for_status. rewrite http_error_none by exact Hstatus.
  unfold ret at 1. rewrite bind_run. unfold lift, deliver_object.
  now destruct (GitLab.file_payload _ _ _ _ _).
Qed.

Lemma hub_other_branch_404 d owner repo file_path branch resp log :
  arg (PStr "main") branch <> PStr "main" ->
  srv log (hub_c owner repo file_path (arg (PStr "main") branch)) = inr resp ->
  status_code resp = 404 ->
  GitHub.get_file hub_token srv b64_utf8 (S d) owner repo file_path branch log
  = (Return (JsonText (GitHub.file_not_found owner repo file_path (arg (PStr "main") branch))),
     (log ++ [hub_c owner repo file_path (arg (PStr "main") branch)])%list).
Proof.
  intros Hb Hsrv Hstatus.
  assert (Hb' : eq_str (arg (PStr "main") branch) "main" = false).
  { destruct (eq_str _ "main") eqn:E; [apply eq_str_true in E; contradiction | reflexivity]. }
  cbn [GitHub.get_file]. unfold GitHub.get.
  fold (hub_c owner repo file_path (arg (PStr "main") branch)).
  unfold try_except at 1. rewrite bind_run. unfold call at 1.
  rewrite Hsrv, Hstatus, Hb'. reflexivity.
Qed.

Lemma lab_other_branch_404 d project_id file_path branch resp log :
  arg (PStr "main") branch <> PStr "main" ->
  srv log (lab_c project_id file_path (arg (PStr "main") branch)) = inr resp ->
  status_code resp = 404 ->
  GitLab.gitlab_get_file lab_token lab_base srv b64_utf8 (S d) project_id file_path branch log
  = (Return (JsonText (GitLab.file_not_found project_id file_path (arg (PStr "main") branch))),
     (log ++ [lab_c project_id file_path (arg (PStr "main") branch)])%list).
Proof.
  intros Hb Hsrv Hstatus.
  assert (Hb' : eq_str (arg (PStr "main") branch) "main" = false).
  { destruct (eq_str _ "main") eqn:E; [apply eq_str_true in E; contradiction | reflexivity]. }
  cbn [GitLab.gitlab_get_file]. unfold GitLab.get.
  fold (lab_c project_id file_path (arg (PStr "main") branch)).
  unfold try_except at 1. rewrite bind_run. unfold call at 1.
  rewrite Hsrv, Hstatus, Hb'. reflexivity.
Qed.

Lemma hub_fallback_step d owner repo file_path branch first meta b log :
  arg (PStr "main") branch = PStr "main" ->
  srv log (hub_c owner repo file_path (PStr "main")) = inr first ->
  status_code first = 404 ->
  srv (log ++ [hub_c owner repo file_path (PStr "main")])%list (hub_m owner repo) = inr meta ->
  status_code meta = 200 ->
  dict_get (body meta) "default_branch" (PStr "master") = Ok b ->
  b <> PStr "main" ->
  GitHub.get_file hub_token srv b64_utf8 (S (S d)) owner repo file_path branch log
  = GitHub.get_file hub_token srv b64_utf8 (S d) owner repo file_path (Some b)
      (log ++ [hub_c owner repo file_path (PStr "main"); hub_m owner repo])%list.
Proof.
  intros Harg Hfirst H404 Hmeta H200 Hdb Hb.
  assert (Hb' : eq_str b "main" = false).
  { destruct (eq_str b "main") eqn:E; [apply eq_str_true in E; contradiction | reflexivity]. }
  remember (S d) as d' eqn:Hd.
  cbn [GitHub.get_file]. rewrite Harg. unfold GitHub.get at 1.
  fold (hub_c owner repo file_path (PStr "main")).
  unfold try_except at 1. rewrite bind_run. unfold call at 1. rewrite Hfirst, H404.
  cbn [Z.eqb Pos.eqb eq_str String.eqb Ascii.eqb Bool.eqb].
  rewrite bind_run. unfold try_except at 1. rewrite bind_run.
  unfold GitHub.get at 1. fold (hub_m owner repo). unfold call at 1.
  rewrite Hmeta, H200. cbn [Z.eqb Pos.eqb].
  rewrite bind_run, Hdb. cbn [lift]. rewrite Hb'. cbn [negb]. rewrite bind_run.
  rewrite <- app_assoc. cbn [app].
  pose proof (hub_get_file_contained hub_token srv b64_utf8 d' owner repo file_path (Some b)
    (log ++ [hub_c owner repo file_path (PStr "main"); hub_m owner repo])%list) as Hnr.
  destruct (GitHub.get_file _ _ _ _ _ _ _ _ _) as [[out | [msg | e |]] log'];
    try reflexivity.
  now elim (Hnr msg).
Qed.

Lemma hub_main_no_retry d owner repo file_path branch first log :
  arg (PStr "main") branch = PStr "main" ->
  srv log (hub_c owner repo file_path (PStr "main")) = inr first ->
  status_code first = 404 ->
  no_other_branch (srv (log ++ [hub_c owner repo file_path (PStr "main")])%list
                       (hub_m owner repo)) ->
  GitHub.get_file hub_token srv b64_utf8 (S d) owner repo file_path branch log
  = (Return (JsonText (GitHub.file_not_found owner repo file_path (PStr "main"))),
     (log ++ [hub_c owner repo file_path (PStr "main"); hub_m owner repo])%list).
Proof.
  intros Harg Hfirst H404 Hmeta.
  cbn [GitHub.get_file]. rewrite Harg. unfold GitHub.get at 1.
  fold (hub_c owner repo file_path (PStr "main")).
  unfold try_except at 1. rewrite bind_run. unfold call at 1. rewrite Hfirst, H404.
  cbn [Z.eqb Pos.eqb eq_str String.eqb Ascii.eqb Bool.eqb].
  rewrite bind_run. unfold try_except at 1. rewrite bind_run.
  unfold GitHub.get at 1. fold (hub_m owner repo). unfold call at 1.
  rewrite <- app_assoc. cbn [app].
  destruct (srv _ (hub_m owner repo)) as [msg | meta]; [reflexivity |].
  destruct Hmeta as [Hne | Hmain].
  - destruct (Z.eqb_spec (status_code meta) 200) as [E | _]; [contradiction | reflexivity].
  - destruct (status_code meta =? 200); [| reflexivity].
    rewrite bind_run, Hmain. reflexivity.
Qed.

Lemma lab_fallback_step d project_id file_path branch first meta b log :
  arg (PStr "main") branch = PStr "main" ->
  srv log (lab_c project_id file_path (PStr "main")) = inr first ->
  status_code first = 404 ->
  srv (log ++ [lab_c project_id file_path (PStr "main")])%list (lab_m project_id) = inr meta ->
  status_code meta = 200 ->
  dict_get (body meta) "default_branch" (PStr "master") = Ok b ->
  b <> PStr "main" ->
  GitLab.gitlab_get_file lab_token lab_base srv b64_utf8 (S (S d)) project_id file_path branch log
  = GitLab.gitlab_get_file lab_token lab_base srv b64_utf8 (S d) project_id file_path (Some b)
      (log ++ [lab_c project_id file_path (PStr "main"); lab_m project_id])%list.
Proof.
  intros Harg Hfirst H404 Hmeta H200 Hdb Hb.
  assert (Hb' : eq_str b "main" = false).
  { destruct (eq_str b "main") eqn:E; [apply eq_str_true in E; contradiction | reflexivity]. }
  remember (S d) as d' eqn:Hd.
  cbn [GitLab.gitlab_get_file]. rewrite Harg. unfold GitLab.get at 1.
  fold (lab_c project_id file_path (PStr "main")).
  unfold try_except at 1. rewrite bind_run. unfold call at 1. rewrite Hfirst, H404.
  cbn [Z.eqb Pos.eqb eq_str String.eqb Ascii.eqb Bool.eqb].
  rewrite bind_run. unfold try_except at 1. rewrite bind_run.
  unfold GitLab.get at 1. fold (lab_m project_id). unfold call at 1.
  rewrite Hmeta, H200. cbn [Z.eqb Pos.eqb].
  rewrite bind_run, Hdb. cbn [lift]. rewrite Hb'. cbn [negb]. rewrite bind_run.
  rewrite <- app_assoc. cbn [app].
  pose proof (lab_get_file_contained lab_token lab_base srv b64_utf8 d' project_id file_path (Some b)
    (log ++ [lab_c project_id file_path (PStr "main"); lab_m project_id])%list) as Hnr.
  destruct (GitLab.gitlab_get_file _ _ _ _ _ _ _ _ _) as [[out | [msg | e |]] log'];
    try reflexivity.
  now elim (Hnr msg).
Qed.

Lemma lab_main_no_retry d project_id file_path branch first log :
  arg (PStr "main") branch = PStr "main" ->
  srv log (lab_c project_id file_path (PStr "main")) = inr first ->
  status_code first = 404 ->
  no_other_branch (srv (log ++ [lab_c project_id file_path (PStr "main")])%list
                       (lab_m project_id)) ->
  GitLab.gitlab_get_file lab_token lab_base srv b64_utf8 (S d) project_id file_path branch log
  = (Return (JsonText (GitLab.file_not_found project_id file_path (PStr "main"))),
     (log ++ [lab_c project_id file_path (PStr "main"); lab_m project_id])%list).
Proof.
  intros Harg Hfirst H404 Hmeta.
  cbn [GitLab.gitlab_get_file]. rewrite Harg. unfold GitLab.get at 1.
  fold (lab_c project_id file_path (PStr "main")).
  unfold try_except at 1. rewrite bind_run. unfold call at 1. rewrite Hfirst, H404.
  cbn [Z.eqb Pos.eqb eq_str String.eqb Ascii.eqb Bool.eqb].
  rewrite bind_run. unfold try_except at 1. rewrite bind_run.
  unfold GitLab.get at 1. fold (lab_m project_id). unfold call at 1.
  rewrite <- app_assoc. cbn [app].
  destruct (srv _ (lab_m project_id)) as [msg | meta]; [reflexivity |].
  destruct Hmeta as [Hne | Hmain].
  - destruct (Z.eqb_spec (status_code meta) 200) as [E | _]; [contradiction | reflexivity].
  - destruct (status_code meta =? 200); [| reflexivity].
    rewrite bind_run, Hmain. reflexivity.
Qed.

(** X5.  The fallback delivers what the default branch holds: when the
    branch is ["main"] (given or by default), the content request is
    answered with 404 and the metadata lookup with 200 and a default branch
    [b] other than ["main"] (["master"] when the metadata has no
    [default_branch]), the tool ends exactly as a fetch of branch [b] issued
    after these two calls -- same text or exception, same further calls.
    In particular a second 404 is reported for branch [b], not for
    ["main"]. *)
Theorem fallback_reads_default_branch (d : nat) (owner repo project_id file_path : string)
        (branch : option value) (first meta : Response) (b : value) (log : list Request) :
  arg (PStr "main") branch = PStr "main" ->
  status_code first = 404 ->
  status_code meta = 200 ->
  dict_get (body meta) "default_branch" (PStr "master") = Ok b ->
  b <> PStr "main" ->
  (let c := hub_c owner repo file_path (PStr "main") in
   let m := hub_m owner repo in
   let cb := hub_c owner repo file_path b in
   srv log c = inr first -> srv (log ++ [c])%list m = inr meta ->
   GitHub.get_file hub_token srv b64_utf8 (S (S d)) owner repo file_path branch log
   = GitHub.get_file hub_token srv b64_utf8 (S d) owner repo file_path (Some b)
       (log ++ [c; m])%list
   /\ (srv (log ++ [c; m])%list cb = inr first ->
       GitHub.get_file hub_token srv b64_utf8 (S (S d)) owner repo file_path branch log
       = (Return (JsonText (GitHub.file_not_found owner repo file_path b)),
          (log ++ [c; m; cb])%list)))
  /\ (let c := lab_c project_id file_path (PStr "main") in
      let m := lab_m project_id in
      let cb := lab_c project_id file_path b in
      srv log c = inr first -> srv (log ++ [c])%list m = inr meta ->
      GitLab.gitlab_get_file lab_token lab_base srv b64_utf8 (S (S d)) project_id file_path
        branch log
      = GitLab.gitlab_get_file lab_token lab_base srv b64_utf8 (S d) project_id file_path
          (Some b) (log ++ [c; m])%list
      /\ (srv (log ++ [c; m])%list cb = inr first ->
          GitLab.gitlab_get_file lab_token lab_base srv b64_utf8 (S (S d)) project_id
            file_path branch log
          = (Return (JsonText (GitLab.file_not_found project_id file_path b)),
             (log ++ [c; m; cb])%list))).
Proof.
  intros Harg H404 H200 Hdb Hb. cbv zeta. split; intros Hfirst Hmeta.
  - pose proof (hub_fallback_step d owner repo file_path branch first meta b log
                  Harg Hfirst H404 Hmeta H200 Hdb Hb) as Hstep.
    split; [exact Hstep |].
    intros Hsecond. rewrite Hstep.
    rewrite (hub_other_branch_404 d owner repo file_path (Some b) first); cbn [arg]; auto.
    now rewrite <- app_assoc.
  - pose proof (lab_fallback_step d project_id file_path branch first meta b log
                  Harg Hfirst H404 Hmeta H200 Hdb Hb) as Hstep.
    split; [exact Hstep |].
    intros Hsecond. rewrite Hstep.
    rewrite (lab_other_branch_404 d project_id file_path (Some b) first); cbn [arg]; auto.
    now rewrite <- app_assoc.
Qed.

(** X6.  A 404 on the content request that is not followed by a retry ends
    in the not-found object: it names the repository or project, the path
    and the requested branch, says "File '<path>' not found in repository
    <owner>/<repo> on branch <branch>" (GitHub; "in project <id>" on GitLab)
    and suggests the directory tool.  This is the answer after one call when
    the branch is not ["main"]; after the content request and the metadata
    lookup when the branch is ["main"] and the lookup fails, is not answered
    with 200 or names ["main"] as the default branch. *)
Theorem not_found_reported (d : nat) (owner repo project_id file_path : string)
        (branch : option value) (first : Response) (log : list Request) :
  status_code first = 404 ->
  let b := arg (PStr "main") branch in
  let hub :=
    PDict [ ("repository", PStr (owner ++ "/" ++ repo));
            ("file_path", PStr file_path);
            ("branch", b);
            ("error", PStr ("File '" ++ file_path ++ "' not found in repository "
                            ++ owner ++ "/" ++ repo ++ " on branch " ++ str b));
            ("suggestion", PStr "Check the file path and branch name. Use list_repository_contents to see available files.") ] in
  let lab :=
    PDict [ ("project", PStr project_id);
            ("file_path", PStr file_path);
            ("branch", b);
            ("error", PStr ("File '" ++ file_path ++ "' not found in project "
                            ++ project_id ++ " on branch " ++ str b));
            ("suggestion", PStr "Check the file path and branch name. Use list_repository_tree to see available files.") ] in
  (let c := hub_c owner repo file_path b in
   let m := hub_m owner repo in
   srv log c = inr first ->
   (b <> PStr "main" ->
    GitHub.get_file hub_token srv b64_utf8 (S d) owner repo file_path branch log
    = (Return (JsonText hub), (log ++ [c])%list))
   /\ (b = PStr "main" -> no_other_branch (srv (log ++ [c])%list m) ->
       GitHub.get_file hub_token srv b64_utf8 (S d) owner repo file_path branch log
       = (Return (JsonText hub), (log ++ [c; m])%list)))
  /\ (let c := lab_c project_id file_path b in
      let m := lab_m project_id in
      srv log c = inr first ->
      (b <> PStr "main" ->
       GitLab.gitlab_get_file lab_token lab_base srv b64_utf8 (S d) project_id file_path
         branch log
       = (Return (JsonText lab), (log ++ [c])%list))
      /\ (b = PStr "main" -> no_other_branch (srv (log ++ [c])%list m) ->
          GitLab.gitlab_get_file lab_token lab_base srv b64_utf8 (S d) project_id file_path
            branch log
          = (Return (JsonText lab), (log ++ [c; m])%list))).
Proof.
  intros H404. cbv zeta.
  split; intros Hfirst; split.
  - intros Hb. now apply (hub_other_branch_404 d owner repo file_path branch first).
  - intros Hb Hmeta. rewrite Hb in *.
    now apply (hub_main_no_retry d owner repo file_path branch first).
  - intros Hb. now apply (lab_other_branch_404 d project_id file_path branch first).
  - intros Hb Hmeta. rewrite Hb in *.
    now apply (lab_main_no_retry d project_id file_path branch first).
Qed.

(** ** Payloads *)

Definition field_or (k : string) (default : value) (kvs : list (string * value)) : value :=
  match assoc k kvs with
  | Some v => v
  | None => default
  end.

Definition keys_of (v : value) : list string :=
  match v with
  | PDict kvs => List.map fst kvs
  | _ => []
  end.

Lemma hub_payload_not_file owner repo file_path branch kvs :
  assoc "type" kvs <> Some (PStr "file") ->
  GitHub.file_payload b64_utf8 owner repo file_path branch (PDict kvs)
  = Ok (PDict [ ("repository", PStr (owner ++ "/" ++ repo));
                ("file_path", PStr file_path);
                ("branch", branch);
                ("error", PStr ("'" ++ file_path ++ "' is not a file (it's a "
                                ++ str (field_or "type" (PStr "unknown") kvs) ++ ")"));
                ("suggestion", PStr "Use list_repository_contents to see directory contents.") ]).
Proof.
  intros Hty. unfold GitHub.file_payload, field_or. cbn [dict_get rbind].
  destruct (assoc "type" kvs) as [ty |] eqn:E.
  - destruct (eq_str ty "file") eqn:Et; [| reflexivity].
    apply eq_str_true in Et. subst ty. now elim Hty.
  - reflexivity.
Qed.

Lemma hub_payload_binary owner repo file_path branch kvs s sz :
  assoc "type" kvs = Some (PStr "file") ->
  assoc "content" kvs = Some (PStr s) -> b64_utf8 s = NotUtf8 ->
  assoc "size" kvs = Some sz ->
  GitHub.file_payload b64_utf8 owner repo file_path branch (PDict kvs)
  = Ok (PDict [ ("repository", PStr (owner ++ "/" ++ repo));
                ("file_path", PStr file_path);
                ("branch", branch);
                ("error", PStr "File appears to be binary and cannot be displayed as text");
                ("file_info", PDict [ ("size", sz);
                                      ("encoding", field_or "encoding" (PStr "unknown") kvs) ]) ]).
Proof.
  intros Hty Hc Hb Hsz. unfold GitHub.file_payload, GitHub.decode_content, field_or.
  cbn [dict_get getitem rbind]. rewrite Hty, Hc.
  cbn [eq_str String.eqb Ascii.eqb Bool.eqb negb rbind].
  rewrite Hb. unfold dict. cbn [fields getitem dict_get rbind]. now rewrite Hsz.
Qed.

Lemma hub_payload_text owner repo file_path branch kvs s t sz :
  assoc "type" kvs = Some (PStr "file") ->
  assoc "content" kvs = Some (PStr s) -> b64_utf8 s = Text t ->
  assoc "size" kvs = Some sz ->
  GitHub.file_payload b64_utf8 owner repo file_path branch (PDict kvs)
  = Ok (PDict [ ("repository", PStr (owner ++ "/" ++ repo));
                ("file_path", PStr file_path);
                ("branch", branch);
                ("size", sz);
                ("encoding", field_or "encoding" (PStr "base64") kvs);
                ("content", PStr (GitHub.limit_content t));
                ("download_url", field_or "download_url" PNone kvs);
                ("last_modified", field_or "sha" PNone kvs) ]).
Proof.
  intros Hty Hc Hb Hsz. unfold GitHub.file_payload, GitHub.decode_content, field_or.
  cbn [dict_get getitem rbind]. rewrite Hty, Hc.
  cbn [eq_str String.eqb Ascii.eqb Bool.eqb negb rbind].
  rewrite Hb. unfold dict. cbn [fields getitem dict_get rbind]. now rewrite Hsz.
Qed.

Lemma lab_payload_binary project_id file_path branch kvs s sz :
  assoc "content" kvs = Some (PStr s) -> b64_utf8 s = NotUtf8 ->
  assoc "size" kvs = Some sz ->
  GitLab.file_payload b64_utf8 project_id file_path branch (PDict kvs)
  = Ok (PDict [ ("project", PStr project_id);
                ("file_path", PStr file_path);
                ("branch", branch);
                ("error", PStr "File appears to be binary and cannot be displayed as text");
                ("file_info", PDict [ ("size", sz);
                                      ("encoding", field_or "encoding" (PStr "base64") kvs) ]) ]).
Proof.
  intros Hc Hb Hsz. unfold GitLab.file_payload, GitLab.decode_content, field_or.
  cbn [dict_get getitem rbind]. rewrite Hc. cbn [rbind].
  rewrite Hb. unfold dict. cbn [fields getitem dict_get rbind]. now rewrite Hsz.
Qed.

Lemma lab_payload_text project_id file_path branch kvs s t sz :
  assoc "content" kvs = Some (PStr s) -> b64_utf8 s = Text t ->
  assoc "size" kvs = Some sz ->
  GitLab.file_payload b64_utf8 project_id file_path branch (PDict kvs)
  = Ok (PDict [ ("project", PStr project_id);
                ("file_path", PStr file_path);
                ("branch", branch);
                ("size", sz);
                ("encoding", field_or "encoding" (PStr "base64") kvs);
                ("content", PStr (GitLab.limit_content t));
                ("last_commit_id", field_or "last_commit_id" PNone kvs) ]).
Proof.
  intros Hc Hb Hsz. unfold GitLab.file_payload, GitLab.decode_content, field_or.
  cbn [dict_get getitem rbind]. rewrite Hc. cbn [rbind].
  rewrite Hb. unfold dict. cbn [fields getitem dict_get rbind]. now rewrite Hsz.
Qed.

(** X7.  A file whose bytes are not UTF-8 text is reported, not delivered:
    on an accepted answer whose [content] decodes from base64 but not as
    UTF-8 and which has a [size], both file tools return an object with the
    error "File appears to be binary and cannot be displayed as text" and a
    [file_info] of size and encoding -- and no [content] key.  (GitHub
    requires the answer to be of type ["file"] first.) *)
Theorem undecodable_file_reported (d : nat) (owner repo project_id file_path : string)
        (branch : option value) (resp : Response) (kvs : list (string * value))
        (s : string) (sz : value) (log : list Request) :
  200 <= status_code resp < 300 ->
  body resp = PDict kvs ->
  assoc "content" kvs = Some (PStr s) ->
  b64_utf8 s = NotUtf8 ->
  assoc "size" kvs = Some sz ->
  let b := arg (PStr "main") branch in
  let hub := PDict [ ("repository", PStr (owner ++ "/" ++ repo));
                     ("file_path", PStr file_path);
                     ("branch", b);
                     ("error", PStr "File appears to be binary and cannot be displayed as text");
                     ("file_info", PDict [ ("size", sz);
                                           ("encoding", field_or "encoding" (PStr "unknown") kvs) ]) ] in
  let lab := PDict [ ("project", PStr project_id);
                     ("file_path", PStr file_path);
                     ("branch", b);
                     ("error", PStr "File appears to be binary and cannot be displayed as text");
                     ("file_info", PDict [ ("size", sz);
                                           ("encoding", field_or "encoding" (PStr "base64") kvs) ]) ] in
  (assoc "type" kvs = Some (PStr "file") ->
   srv log (hub_c owner repo file_path b) = inr resp ->
   GitHub.get_file hub_token srv b64_utf8 (S d) owner repo file_path branch log
   = (Return (JsonText hub), (log ++ [hub_c owner repo file_path b])%list))
  /\ (srv log (lab_c project_id file_path b) = inr resp ->
      GitLab.gitlab_get_file lab_token lab_base srv b64_utf8 (S d) project_id file_path
        branch log
      = (Return (JsonText lab), (log ++ [lab_c project_id file_path b])%list))
  /\ ~ In "content" (keys_of hub) /\ ~ In "content" (keys_of lab).
Proof.
  intros Hstatus Hbody Hc Hdec Hsz. cbv zeta.
  split; [| split; [| split]].
  - intros Hty Hsrv. rewrite (hub_file_answer d _ _ _ _ resp) by assumption.
    rewrite Hbody, (hub_payload_binary _ _ _ _ kvs s sz) by assumption. reflexivity.
  - intros Hsrv. rewrite (lab_file_answer d _ _ _ resp) by assumption.
    rewrite Hbody, (lab_payload_binary _ _ _ kvs s sz) by assumption. reflexivity.
  - simpl. intros H. repeat destruct H as [H | H]; try discriminate H. exact H.
  - simpl. intros H. repeat destruct H as [H | H]; try discriminate H. exact H.
Qed.

(** X8.  A text file is delivered cut to size: on an accepted answer whose
    [content] decodes to the text [t] and which has a [size], both file
    tools return an object whose [content] is [t] when [t] has at most 8000
    characters and otherwise its first 8000 characters followed by two line
    breaks and the note "... (file truncated, showing first 8000 characters
    of <n> total)", [n] being the length of [t]; [branch] echoes the branch
    that was read, and fields the answer lacks ([encoding], [download_url],
    [sha], [last_commit_id]) get their defaults. *)
Theorem decoded_file_delivered (d : nat) (owner repo project_id file_path : string)
        (branch : option value) (resp : Response) (kvs : list (string * value))
        (s t : string) (sz : value) (log : list Request) :
  200 <= status_code resp < 300 ->
  body resp = PDict kvs ->
  assoc "content" kvs = Some (PStr s) ->
  b64_utf8 s = Text t ->
  assoc "size" kvs = Some sz ->
  let b := arg (PStr "main") branch in
  let content :=
    if len_str t <=? 8000 then t
    else slice_to 8000 t ++ nl ++ nl
         ++ "... (file truncated, showing first 8000 characters of "
         ++ str_of_int (len_str t) ++ " total)" in
  (assoc "type" kvs = Some (PStr "file") ->
   srv log (hub_c owner repo file_path b) = inr resp ->
   GitHub.get_file hub_token srv b64_utf8 (S d) owner repo file_path branch log
   = (Return (JsonText (PDict
        [ ("repository", PStr (owner ++ "/" ++ repo));
          ("file_path", PStr file_path);
          ("branch", b);
          ("size", sz);
          ("encoding", field_or "encoding" (PStr "base64") kvs);
          ("content", PStr content);
          ("download_url", field_or "download_url" PNone kvs);
          ("last_modified", field_or "sha" PNone kvs) ])),
      (log ++ [hub_c owner repo file_path b])%list))
  /\ (srv log (lab_c project_id file_path b) = inr resp ->
      GitLab.gitlab_get_file lab_token lab_base srv b64_utf8 (S d) project_id file_path
        branch log
      = (Return (JsonText (PDict
           [ ("project", PStr project_id);
             ("file_path", PStr file_path);
             ("branch", b);
             ("size", sz);
             ("encoding", field_or "encoding" (PStr "base64") kvs);
             ("content", PStr content);
             ("last_commit_id", field_or "last_commit_id" PNone kvs) ])),
         (log ++ [lab_c project_id file_path b])%list)).
Proof.
  intros Hstatus Hbody Hc Hdec Hsz. cbv zeta.
  destruct (Truncation.content_8000_note t) as [Ehub Elab].
  unfold Truncation.truncated in Ehub, Elab.
  split.
  - intros Hty Hsrv. rewrite (hub_file_answer d _ _ _ _ resp) by assumption.
    rewrite Hbody, (hub_payload_text _ _ _ _ kvs s t sz) by assumption.
    now rewrite Ehub.
  - intros Hsrv. rewrite (lab_file_answer d _ _ _ resp) by assumption.
    rewrite Hbody, (lab_payload_text _ _ _ kvs s t sz) by assumption.
    now rewrite Elab.
Qed.

(** X9.  On GitHub an accepted answer that is a JSON object of a type other
    than ["file"] (a symlink, a submodule, or an object without [type]) is
    reported as "'<path>' is not a file (it's a <type>)", with ["unknown"]
    for a missing type; nothing is decoded. *)
Theorem other_object_reported (d : nat) (owner repo file_path : string)
        (branch : option value) (resp : Response) (kvs : list (string * value))
        (log : list Request) :
  let b := arg (PStr "main") branch in
  srv log (hub_c owner repo file_path b) = inr resp ->
  200 <= status_code resp < 300 ->
  body resp = PDict kvs ->
  assoc "type" kvs <> Some (PStr "file") ->
  GitHub.get_file hub_token srv b64_utf8 (S d) owner repo file_path branch log
  = (Return (JsonText (PDict
       [ ("repository", PStr (owner ++ "/" ++ repo));
         ("file_path", PStr file_path);
         ("branch", b);
         ("error", PStr ("'" ++ file_path ++ "' is not a file (it's a "
                         ++ str (field_or "type" (PStr "unknown") kvs) ++ ")"));
         ("suggestion", PStr "Use list_repository_contents to see directory contents.") ])),
     (log ++ [hub_c owner repo file_path b])%list).
Proof.
  cbv zeta. intros Hsrv Hstatus Hbody Hty.
  rewrite (hub_file_answer d _ _ _ _ resp) by assumption.
  rewrite Hbody, hub_payload_not_file by assumption. reflexivity.
Qed.

End Outcomes.
End FileOutcomes.

(* ================================================================== *)
(** * The file tools on stub forges *)
(* ================================================================== *)

Module FileExamples.
Import Py Http FileFetch FileOutcomes.

Definition missing : Response :=
  mkResponse 404 "Not Found" "https://forge.example/api" PNone.

Definition metadata_master : Response :=
  mkResponse 200 "OK" "https://forge.example/api"
    (PDict [("name", PStr "demo"); ("default_branch", PStr "master")]).

(** No file anywhere; the metadata lookup, which is the second call, names
    ["master"] as the default branch. *)
Definition empty_repository : server :=
  fun log _ =>
    match log with
    | [_] => inr metadata_master
    | _ => inr missing
    end.

Definition file_answer (kind : string) : Response :=
  mkResponse 200 "OK" "https://forge.example/api"
    (PDict [ ("type", PStr kind); ("content", PStr "aGVsbG8="); ("size", PInt 5);
             ("sha", PStr "abc123") ]).

Definition file_forge (kind : string) : server := fun _ _ => inr (file_answer kind).

Definition as_text : string -> decoded := fun _ => Text "hello".
Definition as_binary : string -> decoded := fun _ => NotUtf8.

Fixpoint copies (c : ascii) (n : nat) : string :=
  match n with
  | O => ""
  | S n => String c (copies c n)
  end.

(** [n] times the character [c]. *)
Definition run_of (c : ascii) (n : Z) : string := copies c (Z.to_nat n).

(** A file of 8001 characters, one more than the file tools deliver. *)
Definition long_text : string := run_of "a" 8001.

Definition long_file_answer : Response :=
  mkResponse 200 "OK" "https://forge.example/api"
    (PDict [ ("type", PStr "file"); ("content", PStr "YWFhYQ=="); ("size", PInt 8001);
             ("encoding", PStr "base64");
             ("download_url", PStr "https://forge.example/raw/long.txt") ]).

Definition long_file_forge : server := fun _ _ => inr long_file_answer.

Definition as_long_text : string -> decoded := fun _ => Text long_text.

Definition metadata_main : Response :=
  mkResponse 200 "OK" "https://forge.example/api"
    (PDict [("name", PStr "demo"); ("default_branch", PStr "main")]).

(** No file anywhere, and ["main"] is the default branch. *)
Definition main_only_repository : server :=
  fun log _ =>
    match log with
    | [_] => inr metadata_main
    | _ => inr missing
    end.

Lemma fallback_reads_default_branch_on_empty_repository :
  GitHub.get_file None empty_repository as_text 2 "octo" "demo" "missing.txt" None []
  = (Return (JsonText (GitHub.file_not_found "octo" "demo" "missing.txt" (PStr "master"))),
     [ hub_content_call None "octo" "demo" "missing.txt" (PStr "main");
       hub_metadata_call None "octo" "demo";
       hub_content_call None "octo" "demo" "missing.txt" (PStr "master") ]).
Proof.
  destruct (fallback_reads_default_branch None None None empty_repository as_text 0
              "octo" "demo" "group/project" "missing.txt" None missing metadata_master
              (PStr "master") [] eq_refl eq_refl eq_refl eq_refl)
    as [Hhub _].
  - discriminate.
  - cbv zeta in Hhub. destruct (Hhub eq_refl eq_refl) as [_ H]. exact (H eq_refl).
Defined.

Lemma not_found_reported_on_develop :
  GitLab.gitlab_get_file None None empty_repository as_text 1 "group/project" "missing.txt"
    (Some (PStr "develop")) []
  = (Return (JsonText (PDict
       [ ("project", PStr "group/project");
         ("file_path", PStr "missing.txt");
         ("branch", PStr "develop");
         ("error", PStr "File 'missing.txt' not found in project group/project on branch develop");
         ("suggestion", PStr "Check the file path and branch name. Use list_repository_tree to see available files.") ])),
     [lab_content_call None None "group/project" "missing.txt" (PStr "develop")])
  /\ GitHub.get_file None main_only_repository as_text 1 "octo" "demo" "missing.txt" None []
     = (Return (JsonText (PDict
          [ ("repository", PStr "octo/demo");
            ("file_path", PStr "missing.txt");
            ("branch", PStr "main");
            ("error", PStr "File 'missing.txt' not found in repository octo/demo on branch main");
            ("suggestion", PStr "Check the file path and branch name. Use list_repository_contents to see available files.") ])),
        [ hub_content_call None "octo" "demo" "missing.txt" (PStr "main");
          hub_metadata_call None "octo" "demo" ]).
Proof.
  split.
  - pose proof (not_found_reported None None None empty_repository as_text 0
                  "octo" "demo" "group/project" "missing.txt" (Some (PStr "develop"))
                  missing [] eq_refl) as H.
    cbv zeta in H. destruct H as (_ & Hlab).
    destruct (Hlab eq_refl) as [H _]. apply H. discriminate.
  - pose proof (not_found_reported None None None main_only_repository as_text 0
                  "octo" "demo" "group/project" "missing.txt" None
                  missing [] eq_refl) as H.
    cbv zeta in H. destruct H as (Hhub & _).
    destruct (Hhub eq_refl) as [_ H]. apply H; [reflexivity |].
    right. reflexivity.
Defined.

Lemma undecodable_file_reported_on_stub :
  GitHub.get_file None (file_forge "file") as_binary 1 "octo" "demo" "logo.png" None []
  = (Return (JsonText (PDict
       [ ("repository", PStr "octo/demo");
         ("file_path", PStr "logo.png");
         ("branch", PStr "main");
         ("error", PStr "File appears to be binary and cannot be displayed as text");
         ("file_info", PDict [("size", PInt 5); ("encoding", PStr "unknown")]) ])),
     [hub_content_call None "octo" "demo" "logo.png" (PStr "main")]).
Proof.
  pose proof (undecodable_file_reported None None None (file_forge "file") as_binary 0
                "octo" "demo" "group/project" "logo.png" None (file_answer "file") _
                "aGVsbG8=" (PInt 5) [] ltac:(simpl; lia) eq_refl eq_refl eq_refl eq_refl) as H.
  cbv zeta in H. destruct H as (Hhub & _). exact (Hhub eq_refl eq_refl).
Defined.

Lemma long_text_cut :
  (if len_str long_text <=? 8000 then long_text
   else slice_to 8000 long_text ++ nl ++ nl
        ++ "... (file truncated, showing first 8000 characters of "
        ++ str_of_int (len_str long_text) ++ " total)")
  = run_of "a" 8000 ++ nl ++ nl
    ++ "... (file truncated, showing first 8000 characters of 8001 total)".
Proof. vm_compute. reflexivity. Qed.

Lemma decoded_file_delivered_on_stub :
  GitLab.gitlab_get_file None None (file_forge "file") as_text 1 "group/project" "hello.txt"
    None []
  = (Return (JsonText (PDict
       [ ("project", PStr "group/project");
         ("file_path", PStr "hello.txt");
         ("branch", PStr "main");
         ("size", PInt 5);
         ("encoding", PStr "base64");
         ("content", PStr "hello");
         ("last_commit_id", PNone) ])),
     [lab_content_call None None "group/project" "hello.txt" (PStr "main")])
  /\ GitHub.get_file None long_file_forge as_long_text 1 "octo" "demo" "long.txt" None []
     = (Return (JsonText (PDict
          [ ("repository", PStr "octo/demo");
            ("file_path", PStr "long.txt");
            ("branch", PStr "main");
            ("size", PInt 8001);
            ("encoding", PStr "base64");
            ("content",
             PStr (run_of "a" 8000 ++ nl ++ nl
                   ++ "... (file truncated, showing first 8000 characters of 8001 total)"));
            ("download_url", PStr "https://forge.example/raw/long.txt");
            ("last_modified", PNone) ])),
        [hub_content_call None "octo" "demo" "long.txt" (PStr "main")]).
Proof.
  split.
  - pose proof (decoded_file_delivered None None None (file_forge "file") as_text 0
                  "octo" "demo" "group/project" "hello.txt" None (file_answer "file") _
                  "aGVsbG8=" "hello" (PInt 5) [] ltac:(simpl; lia) eq_refl eq_refl eq_refl
                  eq_refl) as H.
    cbv zeta in H. destruct H as (_ & Hlab). exact (Hlab eq_refl).
  - pose proof (decoded_file_delivered None None None long_file_forge as_long_text 0
                  "octo" "demo" "group/project" "long.txt" None long_file_answer _
                  "YWFhYQ==" long_text (PInt 8001) [] ltac:(simpl; lia) eq_refl eq_refl
                  eq_refl eq_refl) as H.
    cbv zeta in H. destruct H as (Hhub & _). specialize (Hhub eq_refl eq_refl).
    rewrite long_text_cut in Hhub. exact Hhub.
Defined.

Lemma other_object_reported_on_symlink :
  GitHub.get_file None (file_forge "symlink") as_text 1 "octo" "demo" "link" None []
  = (Return (JsonText (PDict
       [ ("repository", PStr "octo/demo");
         ("file_path", PStr "link");
         ("branch", PStr "main");
         ("error", PStr "'link' is not a file (it's a symlink)");
         ("suggestion", PStr "Use list_repository_contents to see directory contents.") ])),
     [hub_content_call None "octo" "demo" "link" (PStr "main")]).
Proof.
  refine (other_object_reported None (file_forge "symlink") as_text 0 "octo" "demo" "link"
            None (file_answer "symlink") _ [] eq_refl _ eq_refl _).
  - simpl. lia.
  - discriminate.
Defined.

End FileExamples.

(* ================================================================== *)
(** * Projections of upstream objects *)
(* ================================================================== *)

Module Projection.
Import Py Http.

(** The entry of a dict display that a key denotes: the first one. *)
Fixpoint entry_of (k : string) (l : list (string * result value)) : option (result value) :=
  match l with
  | [] => None
  | (k', r) :: rest => if String.eqb k k' then Some r else entry_of k rest
  end.

Lemma fields_lookup (l : list (string * result value)) (kvs : list (string * value)) :
  fields l = Ok kvs ->
  List.map fst kvs = List.map fst l
  /\ forall k, assoc k kvs = match entry_of k l with
                             | Some (Ok v) => Some v
                             | _ => None
                             end.
Proof.
  revert kvs. induction l as [| [k' r] rest IH]; intros kvs H.
  - injection H as <-. split; [reflexivity | now intros k].
  - cbn [fields] in H. destruct r as [v | e]; [| discriminate].
    cbn [rbind] in H. destruct (fields rest) as [kvs' | e]; [| discriminate].
    injection H as <-. destruct (IH kvs' eq_refl) as [Hkeys Hassoc].
    split; [simpl; now rewrite Hkeys |].
    intros k. simpl. destruct (String.eqb k k'); [reflexivity | apply Hassoc].
Qed.

Lemma dict_lookup (l : list (string * result value)) (out : value) :
  dict l = Ok out ->
  exists kvs, out = PDict kvs
              /\ List.map fst kvs = List.map fst l
              /\ forall k, assoc k kvs = match entry_of k l with
                                         | Some (Ok v) => Some v
                                         | _ => None
                                         end.
Proof.
  unfold dict. destruct (fields l) as [kvs | e] eqn:E; [| discriminate].
  intros [= <-]. exists kvs. split; [reflexivity |]. now apply fields_lookup.
Qed.

(** ** Flat projections

    Most summaries copy fields of one upstream object: a required field is
    read with [o[key]], an optional one with [o.get(key, default)]. *)
Inductive field : Type :=
| Required (out key : string)
| Optional (out key : string) (default : value).

Definition read (o : value) (f : field) : string * result value :=
  match f with
  | Required out key => (out, getitem o key)
  | Optional out key default => (out, dict_get o key default)
  end.

Definition project (spec : list field) (o : value) : result value :=
  dict (List.map (read o) spec).

(** The object has the key of every required field. *)
Definition complete (spec : list field) (o : value) : bool :=
  match o with
  | PDict kvs =>
      forallb (fun f => match f with
                        | Required _ key =>
                            match assoc key kvs with Some _ => true | None => false end
                        | Optional _ _ _ => true
                        end) spec
  | _ => false
  end.

(** What a complete object is projected to. *)
Definition projected (spec : list field) (kvs : list (string * value)) : value :=
  PDict (List.map (fun f => match f with
                            | Required out key =>
                                (out, match assoc key kvs with Some v => v | None => PNone end)
                            | Optional out key default =>
                                (out, match assoc key kvs with Some v => v | None => default end)
                            end) spec).

Lemma project_complete (spec : list field) (kvs : list (string * value)) :
  complete spec (PDict kvs) = true -> project spec (PDict kvs) = Ok (projected spec kvs).
Proof.
  unfold project, projected, dict, complete.
  induction spec as [| f spec IH]; [reflexivity |].
  cbn [forallb List.map fields]. rewrite andb_true_iff. intros [Hf Hrest].
  specialize (IH Hrest).
  destruct (fields (List.map (read (PDict kvs)) spec)) as [rest | e]; [| discriminate].
  injection IH as <-.
  destruct f as [out key | out key default]; cbn [read getitem dict_get rbind].
  - destruct (assoc key kvs); [reflexivity | discriminate].
  - reflexivity.
Qed.

Lemma project_incomplete (spec : list field) (kvs : list (string * value)) :
  complete spec (PDict kvs) = false -> project spec (PDict kvs) = Raise KeyError.
Proof.
  unfold project, dict, complete.
  induction spec as [| f spec IH]; [discriminate |].
  cbn [forallb List.map fields].
  destruct f as [out key | out key default]; cbn [read getitem dict_get rbind].
  - destruct (assoc key kvs); cbn [andb rbind]; [| reflexivity].
    intros H. specialize (IH H).
    destruct (fields (List.map (read (PDict kvs)) spec)); [discriminate | exact IH].
  - cbn [andb]. intros H. specialize (IH H).
    destruct (fields (List.map (read (PDict kvs)) spec)); [discriminate | exact IH].
Qed.

Lemma project_not_object (spec : list field) (o : value) :
  (forall kvs, o <> PDict kvs) -> spec <> [] ->
  project spec o = Raise TypeError \/ project spec o = Raise AttributeError.
Proof.
  intros Ho Hspec. destruct spec as [| f spec]; [contradiction |].
  unfold project, dict. cbn [List.map fields].
  destruct f as [out key | out key default]; cbn [read];
    destruct o; try (now elim (Ho kvs)); cbn [getitem dict_get rbind]; auto.
Qed.

Lemma rmap_all_ok {A B} (f : A -> result B) (g : A -> B) (l : list A) :
  Forall (fun x => f x = Ok (g x)) l -> rmap f l = Ok (List.map g l).
Proof.
  induction 1 as [| x xs Hx _ IH]; [reflexivity |].
  cbn [rmap List.map]. now rewrite Hx, IH.
Qed.

Lemma rmap_some_raise {A B} (f : A -> result B) (l : list A) :
  Exists (fun x => exists e, f x = Raise e) l -> exists e, rmap f l = Raise e.
Proof.
  induction l as [| x xs IH]; intros H; [inversion H |].
  cbn [rmap]. destruct (f x) as [y | e] eqn:E; [| now exists e].
  cbn [rbind]. inversion H as [? ? [e He] | ? ? Hxs]; subst; [congruence |].
  destruct (IH Hxs) as [e He]. rewrite He. now exists e.
Qed.

End Projection.

(* ================================================================== *)
(** * Repository and project summaries *)
(* ================================================================== *)

Module Summaries.
Import Py Http ToolFacts Projection Listing.

(** The fields of the flat summaries, as the tools list them. *)
Definition hub_repo_fields : list field :=
  [ Required "name" "name"; Required "full_name" "full_name";
    Optional "description" "description" (PStr ""); Required "private" "private";
    Required "stars" "stargazers_count"; Required "forks" "forks_count";
    Optional "language" "language" (PStr ""); Required "updated_at" "updated_at" ].

Definition hub_hit_fields : list field :=
  [ Required "name" "name"; Required "full_name" "full_name";
    Optional "description" "description" (PStr "");
    Required "stars" "stargazers_count"; Required "forks" "forks_count";
    Optional "language" "language" (PStr ""); Required "updated_at" "updated_at";
    Required "url" "html_url" ].

Definition lab_project_fields : list field :=
  [ Required "id" "id"; Required "name" "name";
    Required "path_with_namespace" "path_with_namespace";
    Optional "description" "description" (PStr ""); Required "visibility" "visibility";
    Required "stars" "star_count"; Required "forks" "forks_count";
    Optional "default_branch" "default_branch" (PStr "main");
    Required "last_activity_at" "last_activity_at"; Required "web_url" "web_url" ].

Definition lab_hit_fields : list field :=
  [ Required "id" "id"; Required "name" "name";
    Required "path_with_namespace" "path_with_namespace";
    Optional "description" "description" (PStr ""); Required "visibility" "visibility";
    Required "stars" "star_count"; Required "forks" "forks_count";
    Required "last_activity_at" "last_activity_at"; Required "web_url" "web_url" ].

Definition lab_tree_fields : list field :=
  [ Required "name" "name"; Required "type" "type"; Required "path" "path";
    Required "mode" "mode" ].

(** What a summary yields for an upstream item. *)
Definition summary_of (spec : list field) (item : value) : result value :=
  match item with
  | PDict kvs => if complete spec item then Ok (projected spec kvs) else Raise KeyError
  | _ => Raise TypeError
  end.

Definition summarized (spec : list field) (item : value) : value :=
  match item with
  | PDict kvs => projected spec kvs
  | _ => PNone
  end.

Lemma project_summary_of (spec : list field) (item : value) :
  (exists out key rest, spec = Required out key :: rest) ->
  project spec item = summary_of spec item.
Proof.
  intros (out & key & rest & ->). unfold summary_of.
  destruct item as [| | | | | kvs]; try reflexivity.
  destruct (complete _ (PDict kvs)) eqn:E;
    [now apply project_complete | now apply project_incomplete].
Qed.

Lemma summaries_copy_fields_hub (item : value) :
  GitHub.repo_summary item = summary_of hub_repo_fields item.
Proof.
  change (GitHub.repo_summary item) with (project hub_repo_fields item).
  apply project_summary_of. unfold hub_repo_fields. eauto.
Qed.

Lemma summaries_copy_fields_lab (item : value) :
  GitLab.project_summary item = summary_of lab_project_fields item.
Proof.
  change (GitLab.project_summary item) with (project lab_project_fields item).
  apply project_summary_of. unfold lab_project_fields. eauto.
Qed.

Lemma summaries_copy_fields_hub_hit (item : value) :
  GitHub.search_hit item = summary_of hub_hit_fields item.
Proof.
  change (GitHub.search_hit item) with (project hub_hit_fields item).
  apply project_summary_of. unfold hub_hit_fields. eauto.
Qed.

Lemma summaries_copy_fields_lab_hit (item : value) :
  GitLab.search_hit item = summary_of lab_hit_fields item.
Proof.
  change (GitLab.search_hit item) with (project lab_hit_fields item).
  apply project_summary_of. unfold lab_hit_fields. eauto.
Qed.

(** X10.  The flat summaries copy fields of one upstream object under the
    tools' own names ([stargazers_count] becomes [stars], [html_url]
    becomes [url], ...): an object that has every required key is projected,
    an absent optional key ([description], [language], [default_branch])
    getting its default while a present one keeps its value, [null]
    included; an object lacking a required key raises [KeyError]; an item
    that is not an object raises [TypeError]. *)
Theorem summaries_copy_fields (item : value) :
  GitHub.repo_summary item = summary_of hub_repo_fields item
  /\ GitHub.search_hit item = summary_of hub_hit_fields item
  /\ GitLab.project_summary item = summary_of lab_project_fields item
  /\ GitLab.search_hit item = summary_of lab_hit_fields item
  /\ GitLab.tree_item item = summary_of lab_tree_fields item.
Proof.
  split; [apply summaries_copy_fields_hub |].
  split; [apply summaries_copy_fields_hub_hit |].
  split; [apply summaries_copy_fields_lab |].
  split; [apply summaries_copy_fields_lab_hit |].
  change (GitLab.tree_item item) with (project lab_tree_fields item).
  apply project_summary_of. unfold lab_tree_fields. eauto.
Qed.

Lemma summary_of_ok (spec : list field) (items : list value) :
  Forall (fun i => complete spec i = true) items ->
  rmap (summary_of spec) items = Ok (List.map (summarized spec) items).
Proof.
  intros H. apply rmap_all_ok. eapply Forall_impl; [| exact H].
  intros i Hi. unfold summary_of, summarized.
  destruct i; try discriminate Hi. now rewrite Hi.
Qed.

Lemma summary_of_raise (spec : list field) (items : list value) :
  Exists (fun i => complete spec i = false) items ->
  exists e, rmap (summary_of spec) items = Raise e.
Proof.
  intros H. apply rmap_some_raise. eapply Exists_impl; [| exact H].
  intros i Hi. unfold summary_of. destruct i; eauto. rewrite Hi. eauto.
Qed.

Lemma rmap_ext {A B} (f g : A -> result B) (l : list A) :
  (forall x, f x = g x) -> rmap f l = rmap g l.
Proof.
  intros H. induction l as [| x xs IH]; [reflexivity |].
  cbn [rmap]. now rewrite H, IH.
Qed.

Section Tools.
Variables (hub_token lab_token lab_base : option string).
Variable srv : server.

(** X11.  On an accepted answer that is a list, [list_repositories] and
    [list_projects] (no owner) deliver one summary per item, in upstream
    order, when every item has the required keys; if any item lacks one or
    is not an object, the tool raises instead ([KeyError] or [TypeError]
    leaves the tool) and delivers no partial list. *)
Theorem listing_is_all_or_nothing (resp : Response) (items : list value)
        (owner : string) (per_page : option Z) (log : list Request) :
  200 <= status_code resp < 300 ->
  body resp = PList items ->
  (let r := hub_repositories_call hub_token owner per_page in
   srv log r = inr resp ->
   (Forall (fun i => complete hub_repo_fields i = true) items ->
    GitHub.list_repositories hub_token srv owner per_page log
    = (Return (JsonText (PList (List.map (summarized hub_repo_fields) items))),
       (log ++ [r])%list))
   /\ (Exists (fun i => complete hub_repo_fields i = false) items ->
       exists e, GitHub.list_repositories hub_token srv owner per_page log
                 = (Throw (Builtin e), (log ++ [r])%list)))
  /\ (let r := lab_projects_call lab_token lab_base per_page in
      srv log r = inr resp ->
      (Forall (fun i => complete lab_project_fields i = true) items ->
       GitLab.list_projects lab_token lab_base srv None per_page log
       = (Return (JsonText (PList (List.map (summarized lab_project_fields) items))),
          (log ++ [r])%list))
      /\ (Exists (fun i => complete lab_project_fields i = false) items ->
          exists e, GitLab.list_projects lab_token lab_base srv None per_page log
                    = (Throw (Builtin e), (log ++ [r])%list))).
Proof.
  intros Hstatus Hbody. cbv zeta.
  pose proof (http_error_none resp Hstatus) as Hok.
  split; intros Hsrv.
  - assert (Hrun : GitHub.list_repositories hub_token srv owner per_page log
                   = (deliver (rmap (summary_of hub_repo_fields) items),
                      (log ++ [hub_repositories_call hub_token owner per_page])%list)).
    { unfold GitHub.list_repositories, GitHub.get.
      rewrite (one_call_accepted _ _ _ _ _ resp) by assumption.
      rewrite finish_pure, Hbody. cbn [iter rbind].
      now rewrite (rmap_ext _ (summary_of hub_repo_fields))
        by (intros x; apply summaries_copy_fields_hub). }
    split; intros Hitems; rewrite Hrun.
    + now rewrite summary_of_ok.
    + destruct (summary_of_raise _ _ Hitems) as [e He]. exists e. now rewrite He.
  - assert (Hrun : GitLab.list_projects lab_token lab_base srv None per_page log
                   = (deliver (rmap (summary_of lab_project_fields) items),
                      (log ++ [lab_projects_call lab_token lab_base per_page])%list)).
    { unfold GitLab.list_projects, GitLab.get. cbv zeta. rewrite bind_run. cbn [ret].
      rewrite (one_call_accepted _ _ _ _ _ resp) by assumption.
      rewrite finish_pure, Hbody. cbn [iter rbind].
      now rewrite (rmap_ext _ (summary_of lab_project_fields))
        by (intros x; apply summaries_copy_fields_lab). }
    split; intros Hitems; rewrite Hrun.
    + now rewrite summary_of_ok.
    + destruct (summary_of_raise _ _ Hitems) as [e He]. exists e. now rewrite He.
Qed.

End Tools.
End Summaries.

(* ================================================================== *)
(** * Search *)
(* ================================================================== *)

Module Search.
Import Py Http ToolFacts Projection Listing Summaries.

Section Tools.
Variables (hub_token lab_token lab_base : option string).
Variable srv : server.

(** X12.  The two search tools count differently.  [search_repositories]
    passes on the [total_count] the upstream reports, whatever the number
    of hits on the page; [search_projects] reports as [total_results] the
    number of hits it projected from the page.  Both deliver one summary
    per hit, in upstream order. *)
Theorem search_totals (hub_resp lab_resp : Response) (kvs : list (string * value))
        (hits lab_hits : list value) (total : value) (query : string)
        (o1 o2 : option string) (per_page : option Z) (log : list Request) :
  200 <= status_code hub_resp < 300 ->
  body hub_resp = PDict kvs ->
  assoc "items" kvs = Some (PList hits) ->
  assoc "total_count" kvs = Some total ->
  Forall (fun i => complete hub_hit_fields i = true) hits ->
  200 <= status_code lab_resp < 300 ->
  body lab_resp = PList lab_hits ->
  Forall (fun i => complete lab_hit_fields i = true) lab_hits ->
  (let r := hub_search_call hub_token query o1 o2 per_page in
   srv log r = inr hub_resp ->
   GitHub.search_repositories hub_token srv query o1 o2 per_page log
   = (Return (JsonText (PDict
        [ ("total_count", total);
          ("repositories", PList (List.map (summarized hub_hit_fields) hits)) ])),
      (log ++ [r])%list))
  /\ (let r := lab_search_call lab_token lab_base query o1 o2 per_page in
      srv log r = inr lab_resp ->
      GitLab.search_projects lab_token lab_base srv query o1 o2 per_page log
      = (Return (JsonText (PDict
           [ ("total_results", PInt (Z.of_nat (List.length lab_hits)));
             ("projects", PList (List.map (summarized lab_hit_fields) lab_hits)) ])),
         (log ++ [r])%list)).
Proof.
  intros Hs1 Hb1 Hitems Htotal Hhits Hs2 Hb2 Hlab. cbv zeta. split; intros Hsrv.
  - unfold GitHub.search_repositories, GitHub.get.
    rewrite (one_call_accepted _ _ _ _ _ hub_resp)
      by (try assumption; now apply http_error_none).
    rewrite Hb1. cbn [getitem]. rewrite Hitems, Htotal. cbn [rbind iter].
    rewrite (rmap_ext _ (summary_of hub_hit_fields))
      by (intros x; apply summaries_copy_fields_hub_hit).
    rewrite summary_of_ok by assumption. reflexivity.
  - unfold GitLab.search_projects, GitLab.get.
    rewrite (one_call_accepted _ _ _ _ _ lab_resp)
      by (try assumption; now apply http_error_none).
    rewrite finish_pure, Hb2. cbn [iter rbind].
    rewrite (rmap_ext _ (summary_of lab_hit_fields))
      by (intros x; apply summaries_copy_fields_lab_hit).
    rewrite summary_of_ok by assumption. now rewrite length_map.
Qed.

End Tools.
End Search.

(* ================================================================== *)
(** * The owner lookup of list_projects *)
(* ================================================================== *)

Module OwnerLookup.
Import Py Http ToolFacts Listing.

Section Lookup.
Variables (lab_token lab_base : option string).
Variable srv : server.

Definition lab_group_lookup_call (owner : string) : Request :=
  mkRequest GET (GitLab.GITLAB_API_BASE lab_base ++ "/groups")
    (GitLab.get_headers lab_token) (Some [("search", PStr owner)]) None.

(** X13.  [list_projects] resolves an owner name in this order: users by
    [username], then -- only if the user answer is an empty list -- groups by
    [search].  The first match of whichever answer is not empty gives the
    id in the listing address, further matches are ignored; when both
    answers are empty the tool returns "User or group '<owner>' not found"
    after exactly these two calls, without a listing call. *)
Theorem owner_lookup_order (owner : string) (users : Response) (per_page : option Z)
        (log : list Request) :
  let u := lab_user_lookup_call lab_token lab_base owner in
  let g := lab_group_lookup_call owner in
  srv log u = inr users ->
  200 <= status_code users < 300 ->
  (forall first others id,
      body users = PList (first :: others) -> getitem first "id" = Ok id ->
      GitLab.resolve_owner lab_token lab_base srv owner log
      = (Return (inl (GitLab.GITLAB_API_BASE lab_base ++ "/users/" ++ str id ++ "/projects")),
         (log ++ [u])%list))
  /\ (forall groups,
         body users = PList [] ->
         srv (log ++ [u])%list g = inr groups ->
         200 <= status_code groups < 300 ->
         (forall first others id,
             body groups = PList (first :: others) -> getitem first "id" = Ok id ->
             GitLab.resolve_owner lab_token lab_base srv owner log
             = (Return (inl (GitLab.GITLAB_API_BASE lab_base ++ "/groups/" ++ str id
                             ++ "/projects")),
                (log ++ [u; g])%list))
         /\ (body groups = PList [] -> owner <> "" ->
             GitLab.list_projects lab_token lab_base srv (Some owner) per_page log
             = (Return (PlainText ("User or group '" ++ owner ++ "' not found")),
                (log ++ [u; g])%list))).
Proof.
  cbv zeta. intros Husers Hstatus.
  pose proof (http_error_none users Hstatus) as Hok.
  split.
  - intros first others id Hbody Hid.
    unfold GitLab.resolve_owner, GitLab.get.
    fold (lab_user_lookup_call lab_token lab_base owner).
    rewrite (one_call_accepted _ _ _ _ _ users) by assumption.
    rewrite Hbody. cbn [truthy negb getitem0].
    unfold try_except, bind, lift, ret. cbn [rbind]. now rewrite Hid.
  - intros groups Hbody Hgroups Hgstatus.
    pose proof (http_error_none groups Hgstatus) as Hgok.
    split.
    + intros first others id Hgbody Hid.
      unfold GitLab.resolve_owner, GitLab.get.
      fold (lab_user_lookup_call lab_token lab_base owner). fold (lab_group_lookup_call owner).
      rewrite (one_call_accepted _ _ _ _ _ users) by assumption.
      rewrite Hbody. cbn [truthy negb].
      rewrite (one_call_accepted _ _ _ _ _ groups) by assumption.
      rewrite Hgbody. cbn [truthy negb getitem0].
      unfold try_except, bind, lift, ret. cbn [rbind]. rewrite Hid.
      now rewrite <- app_assoc.
    + intros Hgbody Hne. apply String.eqb_neq in Hne.
      unfold GitLab.list_projects. cbv zeta. rewrite bind_run, Hne. cbn [negb].
      unfold GitLab.resolve_owner, GitLab.get.
      fold (lab_user_lookup_call lab_token lab_base owner). fold (lab_group_lookup_call owner).
      rewrite (one_call_accepted _ _ _ _ _ users) by assumption.
      rewrite Hbody. cbn [truthy negb].
      rewrite (one_call_accepted _ _ _ _ _ groups) by assumption.
      rewrite Hgbody. cbn [truthy negb].
      unfold try_except, ret. now rewrite <- app_assoc.
Qed.

End Lookup.
End OwnerLookup.

(* ================================================================== *)
(** * Stability of the directory sort *)
(* ================================================================== *)

Module Stability.
Import Py PySort SortFacts DirectorySort.

Section Generic.
Context {K A : Type}.
Variable lt : K -> K -> bool.
Variable eqb : K -> K -> bool.
Hypothesis eqb_eq : forall a b, eqb a b = true <-> a = b.
Hypothesis lt_irrefl : forall a, lt a a = false.

(** The pairs with key [k], in the order of the list. *)
Definition with_key (k : K) (l : list (K * A)) : list (K * A) :=
  filter (fun p => eqb (fst p) k) l.

Lemma insert_stable (k : K) (x : K * A) (l : list (K * A)) :
  with_key k (insert lt x l) = with_key k (x :: l).
Proof.
  unfold with_key. induction l as [| y ys IH]; [reflexivity |].
  cbn [insert]. destruct (lt (fst y) (fst x)) eqn:Hyx; [| reflexivity].
  cbn [filter] in *. rewrite IH.
  destruct (eqb (fst y) k) eqn:Ey; destruct (eqb (fst x) k) eqn:Ex; try reflexivity.
  apply eqb_eq in Ey, Ex. rewrite Ey, Ex, lt_irrefl in Hyx. discriminate.
Qed.

Lemma sort_stable (k : K) (l : list (K * A)) : with_key k (sort lt l) = with_key k l.
Proof.
  induction l as [| x xs IH]; [reflexivity |].
  cbn [sort]. rewrite insert_stable. unfold with_key in *. cbn [filter]. now rewrite IH.
Qed.

End Generic.

Definition key_eqb (a b : bool * string) : bool :=
  Bool.eqb (fst a) (fst b) && String.eqb (snd a) (snd b).

Lemma key_eqb_eq (a b : bool * string) : key_eqb a b = true <-> a = b.
Proof.
  destruct a as [a1 a2], b as [b1 b2]. unfold key_eqb. simpl.
  rewrite andb_true_iff, Bool.eqb_true_iff, String.eqb_eq.
  split; [intros [-> ->]; reflexivity | intros [= -> ->]; auto].
Qed.

(** The entries that the order cannot tell from [x]: same side of the
    directory divide, same name up to case. *)
Definition alike (dirname : string) (x y : value) : bool :=
  key_eqb (key_of dirname y) (key_of dirname x).

Lemma alike_spec (dirname : string) (x y : value) :
  alike dirname x y = true
  <-> is_directory dirname x = is_directory dirname y /\ lowered_name x = lowered_name y.
Proof.
  unfold alike. rewrite key_eqb_eq. unfold key_of. split.
  - intros [= H1 H2]. split; [| congruence].
    destruct (is_directory dirname x), (is_directory dirname y); simpl in H1; congruence.
  - intros [-> ->]. reflexivity.
Qed.

Lemma filter_undecorated (dirname : string) (k : bool * string)
      (l : list ((bool * string) * value)) :
  Forall (keyed dirname) l ->
  filter (fun y => key_eqb (key_of dirname y) k) (List.map snd l)
  = List.map snd (with_key key_eqb k l).
Proof.
  unfold with_key. induction 1 as [| p l Hp _ IH]; [reflexivity |].
  cbn [List.map filter]. unfold keyed in Hp. rewrite <- Hp, IH.
  now destruct (key_eqb (fst p) k).
Qed.

(** X14.  The directory sort is stable: entries the order cannot tell apart
    -- of the same kind class and with names equal up to case, such as
    README and readme -- come out in the order the upstream listed them. *)
Theorem directory_sort_stable (dirname : string) (items : list value) :
  Forall listed items ->
  exists out,
    sort_by_key (entry_key dirname) items = Ok out
    /\ forall x, filter (alike dirname x) out = filter (alike dirname x) items.
Proof.
  intros Hitems. exists (sorted_listing dirname items).
  split; [now apply sort_by_key_listed |].
  intros x. unfold alike, sorted_listing.
  rewrite (filter_undecorated dirname) by apply sorted_keyed.
  rewrite (sort_stable key_lt key_eqb key_eqb_eq key_lt_irrefl).
  rewrite <- (filter_undecorated dirname) by apply decorate_keyed.
  now rewrite undecorate.
Qed.

Definition mixed_case_listing : list value :=
  [ entry "readme" "file"; entry "src" "dir"; entry "README" "file"; entry "ReadMe" "file" ].

Lemma directory_sort_stable_on_mixed_case :
  exists out,
    sort_by_key (entry_key "dir") mixed_case_listing = Ok out
    /\ out = [ entry "src" "dir"; entry "readme" "file"; entry "README" "file";
               entry "ReadMe" "file" ]
    /\ filter (alike "dir" (entry "README" "file")) out
       = [ entry "readme" "file"; entry "README" "file"; entry "ReadMe" "file" ].
Proof.
  assert (Hlisted : Forall listed mixed_case_listing).
  { repeat constructor; unfold listed; simpl; eauto. }
  destruct (directory_sort_stable "dir" mixed_case_listing Hlisted) as (out & Hout & Hstable).
  exists out. split; [exact Hout |]. split.
  - assert (E : Ok out = Ok [ entry "src" "dir"; entry "readme" "file";
                              entry "README" "file"; entry "ReadMe" "file" ])
      by (rewrite <- Hout; reflexivity).
    now injection E.
  - rewrite Hstable. reflexivity.
Defined.

End Stability.

(* ================================================================== *)
(** * The directory tools off the main path *)
(* ================================================================== *)

Module DirectoryEdges.
Import Py Http ToolFacts DirectorySort FileOutcomes.

Section Tools.
Variables (hub_token lab_token lab_base : option string).
Variable srv : server.

(** X15.  A 404 from the directory endpoint is answered with an object
    naming the repository or project, the path and the branch, and the error
    "Path '<path>' not found in ... on branch <branch>", after that one
    call; the root directory (path omitted or empty) is shown as ["/"], and
    for it [list_repository_tree] sends no [path] parameter at all. *)
Theorem directory_not_found (resp : Response) (owner repo project_id : string)
        (path branch : option string) (log : list Request) :
  status_code resp = 404 ->
  let p := arg "" path in
  let b := arg "main" branch in
  (let r := hub_contents_call hub_token owner repo p b in
   srv log r = inr resp ->
   GitHub.list_repository_contents hub_token srv owner repo path branch log
   = (Return (JsonText (PDict
        [ ("repository", PStr (owner ++ "/" ++ repo));
          ("path", PStr (if String.eqb p "" then "/" else p));
          ("branch", PStr b);
          ("error", PStr ("Path '" ++ p ++ "' not found in repository " ++ owner ++ "/" ++ repo
                          ++ " on branch " ++ b)) ])),
      (log ++ [r])%list))
  /\ (let r := lab_tree_call lab_token lab_base project_id p b in
      srv log r = inr resp ->
      GitLab.list_repository_tree lab_token lab_base srv project_id path branch log
      = (Return (JsonText (PDict
           [ ("project", PStr project_id);
             ("path", PStr (if String.eqb p "" then "/" else p));
             ("branch", PStr b);
             ("error", PStr ("Path '" ++ p ++ "' not found in project " ++ project_id
                             ++ " on branch " ++ b)) ])),
         (log ++ [r])%list))
  /\ (p = "" ->
      params (lab_tree_call lab_token lab_base project_id p b)
      = Some [("ref", PStr b); ("per_page", PInt 100)]).
Proof.
  intros H404. cbv zeta. split; [| split].
  - intros Hsrv. unfold GitHub.list_repository_contents, GitHub.get.
    fold (hub_contents_call hub_token owner repo (arg "" path) (arg "main" branch)).
    unfold try_except, bind, call, ret. rewrite Hsrv, H404. reflexivity.
  - intros Hsrv. unfold GitLab.list_repository_tree, GitLab.get.
    fold (lab_tree_call lab_token lab_base project_id (arg "" path) (arg "main" branch)).
    unfold try_except, bind, call, ret. rewrite Hsrv, H404. reflexivity.
  - intros ->. reflexivity.
Qed.

(** X16.  When the GitHub contents endpoint answers with a single JSON
    object (the path is not a directory), [list_repository_contents] does
    not list anything: it returns an object marked [type: "file"] whose
    [file_info] holds the name, size and type of that object -- so the
    object's own type, e.g. a symlink, shows only inside [file_info].  An
    object without [name], [size] or [type] raises [KeyError]. *)
Theorem single_object_answer (resp : Response) (kvs : list (string * value))
        (owner repo : string) (path branch : option string) (log : list Request) :
  let p := arg "" path in
  let b := arg "main" branch in
  let r := hub_contents_call hub_token owner repo p b in
  srv log r = inr resp ->
  200 <= status_code resp < 300 ->
  body resp = PDict kvs ->
  (forall name size type,
      assoc "name" kvs = Some name -> assoc "size" kvs = Some size ->
      assoc "type" kvs = Some type ->
      GitHub.list_repository_contents hub_token srv owner repo path branch log
      = (Return (JsonText (PDict
           [ ("repository", PStr (owner ++ "/" ++ repo));
             ("path", PStr (if String.eqb p "" then "/" else p));
             ("branch", PStr b);
             ("type", PStr "file");
             ("file_info", PDict [("name", name); ("size", size); ("type", type)]) ])),
         (log ++ [r])%list))
  /\ (assoc "name" kvs = None \/ assoc "size" kvs = None \/ assoc "type" kvs = None ->
      GitHub.list_repository_contents hub_token srv owner repo path branch log
      = (Throw (Builtin KeyError), (log ++ [r])%list)).
Proof.
  cbv zeta. intros Hsrv Hstatus Hbody.
  assert (Hrun : forall info,
    dict [ ("name", getitem (PDict kvs) "name"); ("size", getitem (PDict kvs) "size");
           ("type", getitem (PDict kvs) "type") ] = info ->
    GitHub.list_repository_contents hub_token srv owner repo path branch log
    = (match info with
       | Ok i => Return (JsonText (PDict
           [ ("repository", PStr (owner ++ "/" ++ repo));
             ("path", PStr (GitHub.or_slash (arg "" path)));
             ("branch", PStr (arg "main" branch));
             ("type", PStr "file"); ("file_info", i) ]))
       | Raise e => Throw (Builtin e)
       end,
       (log ++ [hub_contents_call hub_token owner repo (arg "" path) (arg "main" branch)])%list)).
  { intros info Hinfo. unfold GitHub.list_repository_contents, GitHub.get.
    fold (hub_contents_call hub_token owner repo (arg "" path) (arg "main" branch)).
    unfold try_except at 1. rewrite bind_run. unfold call at 1. rewrite Hsrv.
    destruct (Z.eqb_spec (status_code resp) 404) as [E | _]; [lia |].
    rewrite bind_run. unfold raise_for_status. rewrite http_error_none by exact Hstatus.
    unfold ret at 1. rewrite Hbody. cbn [GitHub.is_dict]. rewrite bind_run, Hinfo.
    unfold lift. now destruct info. }
  split.
  - intros name size type Hn Hs Ht. rewrite (Hrun (Ok (PDict [("name", name); ("size", size);
                                                              ("type", type)]))).
    + reflexivity.
    + unfold dict. cbn [fields getitem rbind]. now rewrite Hn, Hs, Ht.
  - intros Hmissing. rewrite (Hrun (Raise KeyError)); [reflexivity |].
    unfold dict. cbn [fields getitem].
    destruct (assoc "name" kvs); cbn [rbind]; [| reflexivity].
    destruct (assoc "size" kvs); cbn [rbind]; [| reflexivity].
    destruct (assoc "type" kvs); cbn [rbind]; [| reflexivity].
    destruct Hmissing as [H | [H | H]]; discriminate H.
Qed.

End Tools.
End DirectoryEdges.

(* ================================================================== *)
(** * Issues: listed, read and created *)
(* ================================================================== *)

Module Issues.
Import Py Http ToolFacts TextFacts Projection Summaries FileOutcomes.

Lemma fields_entries_ok (l : list (string * result value)) (kvs : list (string * value)) :
  fields l = Ok kvs ->
  forall k r, entry_of k l = Some r -> exists v, r = Ok v /\ assoc k kvs = Some v.
Proof.
  revert kvs. induction l as [| [k' r'] rest IH]; intros kvs H k r Hr; [discriminate |].
  cbn [fields] in H. destruct r' as [v' | e]; [| discriminate]. cbn [rbind] in H.
  destruct (fields rest) as [kvs' | e] eqn:E; [| discriminate].
  injection H as <-. cbn [entry_of] in Hr. cbn [assoc].
  destruct (String.eqb k k').
  - injection Hr as <-. now exists v'.
  - now apply IH.
Qed.

(** The value a delivered object holds under a key. *)
Definition held (out : value) (k : string) : option value :=
  match out with
  | PDict kvs => assoc k kvs
  | _ => None
  end.

Lemma dict_entry (l : list (string * result value)) (out : value) (k : string)
      (r : result value) :
  dict l = Ok out -> entry_of k l = Some r -> exists v, r = Ok v /\ held out k = Some v.
Proof.
  unfold dict. destruct (fields l) as [kvs | e] eqn:E; [| discriminate].
  intros [= <-] Hr. now apply (fields_entries_ok l kvs E).
Qed.

Lemma summary_text_bounded (summary : value -> result value) (b v : value) (s : string) :
  (forall t, summary (PStr t) = Ok (PStr (Truncation.truncated 500 "..." t))) ->
  (forall x, (forall t, x <> PStr t) -> summary x = Ok x \/ exists e, summary x = Raise e) ->
  summary b = Ok v -> v = PStr s -> len_str s <= 503.
Proof.
  intros Hstr Hother Hv ->.
  assert (Hb : (exists t, b = PStr t) \/ (forall t, b <> PStr t)).
  { destruct b; try (right; intros t; discriminate). left. eauto. }
  destruct Hb as [[t ->] | Hb].
  - rewrite Hstr in Hv. injection Hv as <-.
    apply (Truncation.truncated_bound 500 "..." t). lia.
  - destruct (Hother b Hb) as [E | [e E]]; rewrite E in Hv; [| discriminate Hv].
    injection Hv as ->. now elim (Hb s).
Qed.

Lemma hub_body_summary_other (x : value) :
  (forall t, x <> PStr t) ->
  GitHub.body_summary x = Ok x \/ exists e, GitHub.body_summary x = Raise e.
Proof.
  intros Hx. unfold GitHub.body_summary. destruct (truthy x); [| now left].
  destruct (len x) as [n | e]; cbn [rbind]; [| right; eauto].
  destruct (n >? 500); [| now left].
  destruct x; cbn [GitHub.cut_500]; try (right; eauto). now elim (Hx s).
Qed.

Lemma lab_description_summary_other (x : value) :
  (forall t, x <> PStr t) ->
  GitLab.description_summary x = Ok x \/ exists e, GitLab.description_summary x = Raise e.
Proof.
  intros Hx. unfold GitLab.description_summary. destruct (truthy x); [| now left].
  destruct (len x) as [n | e]; cbn [rbind]; [| right; eauto].
  destruct (n >? 500); [| now left].
  destruct x; cbn [GitLab.cut_500]; try (right; eauto). now elim (Hx s).
Qed.

(** X17.  A listed issue or merge request never carries more than 503
    characters of text: whenever one of the three listing summaries
    succeeds, the summary holds a [body] (GitHub) or [description] (GitLab)
    that is the 500-character cut of the upstream value, so a text there has
    at most 500 characters plus the three of the marker; an upstream [null]
    stays [null]. *)
Theorem listed_text_is_short (item out : value) (k : string) :
  (k = "body" /\ GitHub.issue_summary item = Ok out)
  \/ (k = "description" /\ GitLab.issue_summary item = Ok out)
  \/ (k = "description" /\ GitLab.merge_request_summary item = Ok out) ->
  exists upstream v,
    dict_get item k (PStr "") = Ok upstream
    /\ held out k = Some v
    /\ (upstream = PNone -> v = PNone)
    /\ (forall t, upstream = PStr t -> v = PStr (Truncation.truncated 500 "..." t))
    /\ (forall s, v = PStr s -> len_str s <= 503).
Proof.
  intros [[-> H] | [[-> H] | [-> H]]].
  - destruct (dict_entry _ out "body" _ H eq_refl) as (v & Hv & Hheld).
    destruct (dict_get item "body" (PStr "")) as [b | e]; [| discriminate].
    cbn [rbind] in Hv. exists b, v. repeat split; auto.
    + intros ->. cbn in Hv. congruence.
    + intros t ->. destruct (Truncation.summary_500 t) as [E _]. congruence.
    + intros s. apply (summary_text_bounded GitHub.body_summary b); auto.
      * intros t. apply Truncation.summary_500.
      * apply hub_body_summary_other.
  - destruct (dict_entry _ out "description" _ H eq_refl) as (v & Hv & Hheld).
    destruct (dict_get item "description" (PStr "")) as [b | e]; [| discriminate].
    cbn [rbind] in Hv. exists b, v. repeat split; auto.
    + intros ->. cbn in Hv. congruence.
    + intros t ->. destruct (Truncation.summary_500 t) as [_ E]. congruence.
    + intros s. apply (summary_text_bounded GitLab.description_summary b); auto.
      * intros t. apply Truncation.summary_500.
      * apply lab_description_summary_other.
  - destruct (dict_entry _ out "description" _ H eq_refl) as (v & Hv & Hheld).
    destruct (dict_get item "description" (PStr "")) as [b | e]; [| discriminate].
    cbn [rbind] in Hv. exists b, v. repeat split; auto.
    + intros ->. cbn in Hv. congruence.
    + intros t ->. destruct (Truncation.summary_500 t) as [_ E]. congruence.
    + intros s. apply (summary_text_bounded GitLab.description_summary b); auto.
      * intros t. apply Truncation.summary_500.
      * apply lab_description_summary_other.
Qed.

Definition hub_created_fields : list field :=
  [ Required "number" "number"; Required "title" "title"; Required "url" "html_url";
    Required "state" "state"; Required "created_at" "created_at" ].

Definition lab_created_fields : list field :=
  [ Required "iid" "iid"; Required "id" "id"; Required "title" "title";
    Required "web_url" "web_url"; Required "state" "state";
    Required "created_at" "created_at" ].

Section Tools.
Variables (hub_token lab_token lab_base : option string).
Variable srv : server.

Definition hub_issue_call (owner repo : string) (issue_number : Z) : Request :=
  mkRequest GET
    (GitHub.GITHUB_API_BASE ++ "/repos/" ++ owner ++ "/" ++ repo ++ "/issues/"
     ++ str_of_int issue_number)
    (GitHub.get_headers hub_token) None None.

Definition lab_issue_call (project_id : string) (issue_iid : Z) : Request :=
  mkRequest GET
    (GitLab.GITLAB_API_BASE lab_base ++ "/projects/" ++ quote project_id ++ "/issues/"
     ++ str_of_int issue_iid)
    (GitLab.get_headers lab_token) None None.

(** X18.  Reading one issue gives its text in full: whenever [get_issue]
    or [gitlab_get_issue] returns an object for an accepted answer, the
    [body] (GitHub) or [description] (GitLab) it holds is the upstream value
    as it is -- of any length, [null] if the upstream says [null] -- or the
    empty string when the upstream object has no such key. *)
Theorem issue_read_in_full (resp : Response) (out : value) (owner repo project_id : string)
        (number : Z) (log : list Request) :
  200 <= status_code resp < 300 ->
  (let r := hub_issue_call owner repo number in
   srv log r = inr resp ->
   fst (GitHub.get_issue hub_token srv owner repo number log) = Return (JsonText out) ->
   exists kvs, body resp = PDict kvs
               /\ held out "body" = Some (field_or "body" (PStr "") kvs))
  /\ (let r := lab_issue_call project_id number in
      srv log r = inr resp ->
      fst (GitLab.gitlab_get_issue lab_token lab_base srv project_id number log)
      = Return (JsonText out) ->
      exists kvs, body resp = PDict kvs
                  /\ held out "description" = Some (field_or "description" (PStr "") kvs)).
Proof.
  intros Hstatus. cbv zeta.
  pose proof (http_error_none resp Hstatus) as Hok.
  split; intros Hsrv Hout.
  - unfold GitHub.get_issue, GitHub.get in Hout.
    fold (hub_issue_call owner repo number) in Hout.
    rewrite (one_call_accepted _ _ _ _ _ resp) in Hout by assumption.
    rewrite finish_pure in Hout. cbn [fst] in Hout.
    match type of Hout with
    | match ?d with _ => _ end = _ => destruct d as [o | e] eqn:Hd; [| discriminate Hout]
    end.
    injection Hout as ->.
    destruct (dict_entry _ out "body" _ Hd eq_refl) as (v & Hv & Hheld).
    destruct (body resp) as [| | | | | kvs]; try discriminate Hv.
    exists kvs. split; [reflexivity |]. unfold field_or. cbn [dict_get] in Hv. congruence.
  - unfold GitLab.gitlab_get_issue, GitLab.get in Hout.
    fold (lab_issue_call project_id number) in Hout.
    rewrite (one_call_accepted _ _ _ _ _ resp) in Hout by assumption.
    rewrite finish_pure in Hout. cbn [fst] in Hout.
    match type of Hout with
    | match ?d with _ => _ end = _ => destruct d as [o | e] eqn:Hd; [| discriminate Hout]
    end.
    injection Hout as ->.
    destruct (dict_entry _ out "description" _ Hd eq_refl) as (v & Hv & Hheld).
    destruct (body resp) as [| | | | | kvs]; try discriminate Hv.
    exists kvs. split; [reflexivity |]. unfold field_or. cbn [dict_get] in Hv. congruence.
Qed.

(** X19.  The creation tools report the issue the upstream created: on an
    accepted answer that is an object with [number], [title], [html_url],
    [state] and [created_at] (GitHub; [iid], [id], [title], [web_url],
    [state], [created_at] on GitLab) they return exactly these fields.  If
    the answer lacks one of them, or is not an object, the tool raises
    [KeyError] or [TypeError] -- after the POST has been sent. *)
Theorem created_issue_reported (resp : Response) (owner repo project_id title : string)
        (body : option string) (labels assignees : option (list string))
        (assignee_ids : option (list Z)) (log : list Request) :
  200 <= status_code resp < 300 ->
  (let r := IssueCreation.hub_post hub_token owner repo title body labels assignees in
   srv log r = inr resp ->
   GitHub.create_issue hub_token srv owner repo title body labels assignees log
   = (deliver_object (summary_of hub_created_fields (Http.body resp)), (log ++ [r])%list))
  /\ (let r := IssueCreation.lab_post lab_token lab_base project_id title body labels
                 assignee_ids in
      srv log r = inr resp ->
      GitLab.gitlab_create_issue lab_token lab_base srv project_id title body labels
        assignee_ids log
      = (deliver_object (summary_of lab_created_fields (Http.body resp)), (log ++ [r])%list)).
Proof.
  intros Hstatus. cbv zeta.
  pose proof (http_error_none resp Hstatus) as Hok.
  split; intros Hsrv.
  - unfold GitHub.create_issue, GitHub.post.
    fold (IssueCreation.hub_post hub_token owner repo title body labels assignees).
    rewrite (one_call_accepted _ _ _ _ _ resp) by assumption.
    rewrite finish_pure.
    change (dict _) with (project hub_created_fields (Http.body resp)).
    rewrite project_summary_of by (unfold hub_created_fields; eauto).
    reflexivity.
  - unfold GitLab.gitlab_create_issue, GitLab.post.
    fold (IssueCreation.lab_post lab_token lab_base project_id title body labels assignee_ids).
    rewrite (one_call_accepted _ _ _ _ _ resp) by assumption.
    rewrite finish_pure.
    change (dict _) with (project lab_created_fields (Http.body resp)).
    rewrite project_summary_of by (unfold lab_created_fields; eauto).
    reflexivity.
Qed.

End Tools.

End Issues.

(* ================================================================== *)
(** * More tools on stub forges *)
(* ================================================================== *)

Module MoreExamples.
Import Py Http Listing ListingExamples Projection Summaries FileOutcomes Issues.

Definition ok (b : value) : Response := mkResponse 200 "OK" "https://forge.example/api" b.

Definition repo_item (name : string) (stars : Z) : value :=
  PDict [ ("name", PStr name); ("full_name", PStr ("octo/" ++ name));
          ("private", PBool false); ("stargazers_count", PInt stars);
          ("forks_count", PInt 0); ("description", PNone);
          ("updated_at", PStr "2024-01-02T00:00:00Z");
          ("html_url", PStr ("https://github.com/octo/" ++ name)) ].

Definition repo_summary_of (name : string) (stars : Z) : value :=
  PDict [ ("name", PStr name); ("full_name", PStr ("octo/" ++ name));
          ("description", PNone); ("private", PBool false); ("stars", PInt stars);
          ("forks", PInt 0); ("language", PStr "");
          ("updated_at", PStr "2024-01-02T00:00:00Z") ].

Definition hit_of (name : string) (stars : Z) : value :=
  PDict [ ("name", PStr name); ("full_name", PStr ("octo/" ++ name));
          ("description", PNone); ("stars", PInt stars); ("forks", PInt 0);
          ("language", PStr ""); ("updated_at", PStr "2024-01-02T00:00:00Z");
          ("url", PStr ("https://github.com/octo/" ++ name)) ].

Definition two_repos : list value := [repo_item "alpha" 3; repo_item "beta" 5].

Definition repo_forge : server := fun _ _ => inr (ok (PList two_repos)).

Lemma listing_is_all_or_nothing_on_two_repos :
  GitHub.list_repositories None repo_forge "octo" None []
  = (Return (JsonText (PList [repo_summary_of "alpha" 3; repo_summary_of "beta" 5])),
     [hub_repositories_call None "octo" None]).
Proof.
  destruct (listing_is_all_or_nothing None None None repo_forge (ok (PList two_repos))
              two_repos "octo" None [] ltac:(simpl; lia) eq_refl) as [Hhub _].
  cbv zeta in Hhub. destruct (Hhub eq_refl) as [Hall _].
  rewrite Hall; [reflexivity |]. repeat constructor.
Defined.

(** A GitHub search page of two hits out of 500, and a GitLab search page
    of two projects. *)
Definition search_page : Response :=
  ok (PDict [("total_count", PInt 500); ("incomplete_results", PBool false);
             ("items", PList two_repos)]).

Definition project_item (id : Z) (name : string) : value :=
  PDict [ ("id", PInt id); ("name", PStr name);
          ("path_with_namespace", PStr ("group/" ++ name));
          ("visibility", PStr "public"); ("star_count", PInt 2);
          ("forks_count", PInt 1); ("default_branch", PStr "main");
          ("last_activity_at", PStr "2024-02-03T00:00:00Z");
          ("web_url", PStr ("https://gitlab.com/group/" ++ name)) ].

Definition project_hit (id : Z) (name : string) : value :=
  PDict [ ("id", PInt id); ("name", PStr name);
          ("path_with_namespace", PStr ("group/" ++ name));
          ("description", PStr ""); ("visibility", PStr "public");
          ("stars", PInt 2); ("forks", PInt 1);
          ("last_activity_at", PStr "2024-02-03T00:00:00Z");
          ("web_url", PStr ("https://gitlab.com/group/" ++ name)) ].

Definition two_projects : list value := [project_item 11 "gamma"; project_item 12 "delta"].

Definition search_forge : server :=
  fun _ r =>
    if String.eqb (url r) "https://api.github.com/search/repositories"
    then inr search_page else inr (ok (PList two_projects)).

Lemma search_totals_on_page_of_two :
  GitHub.search_repositories None search_forge "x" None None None []
  = (Return (JsonText (PDict [ ("total_count", PInt 500);
                               ("repositories", PList [hit_of "alpha" 3; hit_of "beta" 5]) ])),
     [hub_search_call None "x" None None None])
  /\ GitLab.search_projects None None search_forge "x" None None None []
     = (Return (JsonText (PDict [ ("total_results", PInt 2);
                                  ("projects", PList [ project_hit 11 "gamma";
                                                       project_hit 12 "delta" ]) ])),
        [lab_search_call None None "x" None None None]).
Proof.
  destruct (Search.search_totals None None None search_forge search_page
              (ok (PList two_projects))
              _ two_repos two_projects (PInt 500) "x" None None None []
              ltac:(simpl; lia) eq_refl eq_refl eq_refl ltac:(repeat constructor)
              ltac:(simpl; lia) eq_refl ltac:(repeat constructor)) as [Hhub Hlab].
  cbv zeta in Hhub, Hlab. split; [exact (Hhub eq_refl) | exact (Hlab eq_refl)].
Defined.

(** A forge that knows no user and no group. *)
Definition nobody_forge : server := fun _ _ => inr (ok (PList [])).

Lemma owner_lookup_order_on_nobody :
  GitLab.list_projects None None nobody_forge (Some "nobody") None []
  = (Return (PlainText "User or group 'nobody' not found"),
     [ lab_user_lookup_call None None "nobody";
       OwnerLookup.lab_group_lookup_call None None "nobody" ]).
Proof.
  pose proof (OwnerLookup.owner_lookup_order None None nobody_forge "nobody"
                (ok (PList [])) None [] eq_refl ltac:(simpl; lia)) as H.
  cbv zeta in H. destruct H as [_ H].
  destruct (H (ok (PList [])) eq_refl eq_refl ltac:(simpl; lia)) as [_ Hnone].
  apply Hnone; [reflexivity | discriminate].
Defined.

Lemma directory_not_found_on_root :
  GitLab.list_repository_tree None None FileExamples.empty_repository "group/project"
    None None []
  = (Return (JsonText (PDict
       [ ("project", PStr "group/project"); ("path", PStr "/"); ("branch", PStr "main");
         ("error", PStr "Path '' not found in project group/project on branch main") ])),
     [DirectorySort.lab_tree_call None None "group/project" "" "main"]).
Proof.
  pose proof (DirectoryEdges.directory_not_found None None None FileExamples.empty_repository
                FileExamples.missing "octo" "demo" "group/project" None None []
                eq_refl) as H.
  cbv zeta in H. destruct H as (_ & Hlab & _). exact (Hlab eq_refl).
Defined.

Definition link_answer : Response :=
  ok (PDict [ ("name", PStr "link"); ("size", PInt 9); ("type", PStr "symlink");
              ("target", PStr "README.md") ]).

Definition link_forge : server := fun _ _ => inr link_answer.

Lemma single_object_answer_on_symlink :
  GitHub.list_repository_contents None link_forge "octo" "demo" (Some "link") None []
  = (Return (JsonText (PDict
       [ ("repository", PStr "octo/demo"); ("path", PStr "link"); ("branch", PStr "main");
         ("type", PStr "file");
         ("file_info", PDict [ ("name", PStr "link"); ("size", PInt 9);
                               ("type", PStr "symlink") ]) ])),
     [DirectorySort.hub_contents_call None "octo" "demo" "link" "main"]).
Proof.
  pose proof (DirectoryEdges.single_object_answer None link_forge link_answer _
                "octo" "demo" (Some "link") None [] eq_refl ltac:(simpl; lia) eq_refl) as H.
  cbv zeta in H. destruct H as [H _].
  exact (H (PStr "link") (PInt 9) (PStr "symlink") eq_refl eq_refl eq_refl).
Defined.

(** An issue whose body has 600 characters, and its listing summary, whose
    body has the first 500 of them and the marker. *)
Definition wordy_item : value :=
  PDict [ ("number", PInt 9); ("title", PStr "ninth"); ("state", PStr "open");
          ("user", PDict [("login", PStr "octo")]);
          ("created_at", PStr "2024-01-01T00:00:00Z");
          ("updated_at", PStr "2024-01-02T00:00:00Z");
          ("labels", PList [PDict [("name", PStr "bug")]]); ("assignees", PList []);
          ("comments", PInt 4);
          ("body", PStr (FileExamples.run_of "x" 600)) ].

Definition wordy_summary : value :=
  PDict [ ("number", PInt 9); ("title", PStr "ninth"); ("state", PStr "open");
          ("user", PStr "octo");
          ("created_at", PStr "2024-01-01T00:00:00Z");
          ("updated_at", PStr "2024-01-02T00:00:00Z");
          ("labels", PList [PStr "bug"]); ("assignees", PList []);
          ("comments", PInt 4);
          ("body", PStr (FileExamples.run_of "x" 500 ++ "...")) ].

Lemma wordy_summary_computed : GitHub.issue_summary wordy_item = Ok wordy_summary.
Proof. vm_compute. reflexivity. Qed.

Lemma wordy_cut :
  Truncation.truncated 500 "..." (FileExamples.run_of "x" 600)
  = FileExamples.run_of "x" 500 ++ "...".
Proof. vm_compute. reflexivity. Qed.

Lemma listed_text_is_short_on_sample :
  GitHub.issue_summary wordy_item = Ok wordy_summary
  /\ exists upstream v,
       dict_get wordy_item "body" (PStr "") = Ok upstream
       /\ held wordy_summary "body" = Some v
       /\ upstream = PStr (FileExamples.run_of "x" 600)
       /\ v = PStr (FileExamples.run_of "x" 500 ++ "...")
       /\ len_str (FileExamples.run_of "x" 500 ++ "...") <= 503.
Proof.
  split; [exact wordy_summary_computed |].
  destruct (listed_text_is_short wordy_item wordy_summary "body")
    as (upstream & v & Hup & Hheld & _ & Hcut & Hlen).
  - left. split; [reflexivity | exact wordy_summary_computed].
  - exists upstream, v. split; [exact Hup |]. split; [exact Hheld |].
    assert (E : upstream = PStr (FileExamples.run_of "x" 600)).
    { cbn [dict_get wordy_item assoc String.eqb Ascii.eqb Bool.eqb] in Hup. congruence. }
    assert (Ev : v = PStr (FileExamples.run_of "x" 500 ++ "...")).
    { rewrite (Hcut _ E). now rewrite wordy_cut. }
    split; [exact E |]. split; [exact Ev |]. now apply Hlen.
Defined.

Definition issue_forge_one : server := fun _ _ => inr (ok (sample_item 7 "seventh" false)).

Definition lab_detail : value :=
  PDict [ ("iid", PInt 7); ("id", PInt 1007); ("title", PStr "seventh");
          ("state", PStr "open"); ("author", PStr "octo");
          ("created_at", PStr "2024-01-01T00:00:00Z");
          ("updated_at", PStr "2024-01-02T00:00:00Z");
          ("labels", PList []); ("assignees", PList []);
          ("user_notes_count", PInt 0); ("description", PStr "");
          ("web_url", PStr "https://forge.example/issue") ].

Lemma issue_read_in_full_on_sample :
  fst (GitLab.gitlab_get_issue None None issue_forge_one "group/project" 7 [])
  = Return (JsonText lab_detail)
  /\ exists kvs, sample_item 7 "seventh" false = PDict kvs
                 /\ held lab_detail "description" = Some (field_or "description" (PStr "") kvs).
Proof.
  split; [reflexivity |].
  pose proof (issue_read_in_full None None None issue_forge_one
                (ok (sample_item 7 "seventh" false)) lab_detail "octo" "demo"
                "group/project" 7 [] ltac:(simpl; lia)) as H.
  cbv zeta in H. destruct H as [_ H]. exact (H eq_refl eq_refl).
Defined.

Definition created_answer : Response :=
  mkResponse 201 "Created" "https://api.github.com/repos/octo/demo/issues"
    (PDict [ ("id", PInt 99); ("number", PInt 12); ("title", PStr "Crash on start");
             ("html_url", PStr "https://github.com/octo/demo/issues/12");
             ("state", PStr "open"); ("created_at", PStr "2024-03-01T10:00:00Z");
             ("body", PStr "It crashes.") ]).

Definition creating_forge : server := fun _ _ => inr created_answer.

Lemma created_issue_reported_on_stub :
  GitHub.create_issue None creating_forge "octo" "demo" "Crash on start"
    (Some "It crashes.") (Some ["bug"]) None []
  = (Return (JsonText (PDict
       [ ("number", PInt 12); ("title", PStr "Crash on start");
         ("url", PStr "https://github.com/octo/demo/issues/12");
         ("state", PStr "open"); ("created_at", PStr "2024-03-01T10:00:00Z") ])),
     [IssueCreation.hub_post None "octo" "demo" "Crash on start" (Some "It crashes.")
        (Some ["bug"]) None]).
Proof.
  pose proof (created_issue_reported None None None creating_forge created_answer
                "octo" "demo" "group/project" "Crash on start" (Some "It crashes.")
                (Some ["bug"]) None None [] ltac:(simpl; lia)) as H.
  cbv zeta in H. destruct H as [H _]. exact (H eq_refl).
Defined.

End MoreExamples.
